(** * Camera controller and scene manager of the CS330 OpenGL application

    A shallow embedding of [Source/ViewManager.cpp] (the dual-mode
    perspective / orbit camera controller) and of
    [Source/SceneManager.cpp] (materials, textures, the calls on the
    shader manager and on the mesh object).  C++ [float] values are read
    as real numbers.  The vector-math library and the utility camera
    class are interfaces (type classes), so what is proved about the
    controller holds for any implementation of them, except where the
    camera of the specification is named; the keyboard state and the
    clock are inputs of each call. *)

From Stdlib Require Import Reals Lra ZArith Lia Bool List String.
From Equations Require Import Equations.
Import ListNotations.

Open Scope R_scope.

(** ** The vector-math library (glm), as far as the sources use it *)

Module Glm.

Record vec3 : Type := mkVec3 { x : R; y : R; z : R }.

(** [glm::radians]: degrees to radians. *)
Definition radians (degrees : R) : R := degrees * (PI / 180).

(** Euclidean length of a vector, [glm::length]. *)
Definition length (v : vec3) : R :=
  sqrt (x v * x v + y v * y v + z v * z v).

(** The matrix constructors called by the view manager.  Their results
    are only handed on to the shader, so the matrix type stays abstract. *)
Class Matrices (mat4 : Type) : Type := {
  lookAt : vec3 -> vec3 -> vec3 -> mat4;
  ortho : R -> R -> R -> R -> R -> R -> mat4;
  perspective : R -> R -> R -> R -> mat4
}.

End Glm.

(** ** The windowing layer (GLFW): key codes and key states

    The constants have the values of [glfw3.h]: a printable key is its
    upper-case ASCII code. *)

Module GLFW.

Local Open Scope Z_scope.

Definition GLFW_RELEASE : Z := 0.
Definition GLFW_PRESS : Z := 1.

Definition GLFW_KEY_SPACE : Z := 32.
Definition GLFW_KEY_A : Z := 65.
Definition GLFW_KEY_C : Z := 67.
Definition GLFW_KEY_D : Z := 68.
Definition GLFW_KEY_E : Z := 69.
Definition GLFW_KEY_F : Z := 70.
Definition GLFW_KEY_O : Z := 79.
Definition GLFW_KEY_P : Z := 80.
Definition GLFW_KEY_Q : Z := 81.
Definition GLFW_KEY_R : Z := 82.
Definition GLFW_KEY_S : Z := 83.
Definition GLFW_KEY_T : Z := 84.
Definition GLFW_KEY_W : Z := 87.
Definition GLFW_KEY_ESCAPE : Z := 256.

(** The keyboard as [glfwGetKey(m_pWindow, .)] shows it during one call:
    a key code is mapped to [GLFW_PRESS] or [GLFW_RELEASE]. *)
Definition Keyboard : Type := Z -> Z.

(** The test [glfwGetKey(m_pWindow, key) == GLFW_PRESS]. *)
Definition pressed (kb : Keyboard) (key : Z) : bool := kb key =? GLFW_PRESS.

(** A keyboard on which exactly the listed keys are held down. *)
Definition holding (keys : list Z) : Keyboard :=
  fun key => if existsb (Z.eqb key) keys then GLFW_PRESS else GLFW_RELEASE.

End GLFW.

(** ** The view manager *)

Module ViewManager.

Import Glm GLFW.

Definition WINDOW_WIDTH : Z := 1000.
Definition WINDOW_HEIGHT : Z := 800.
Definition g_ViewName : string := "view".
Definition g_ProjectionName : string := "projection".

(** Modelled from the spec: the [Camera] class belongs to the utility
    library and is not among the sources.  [Position], [Front], [Up],
    [Zoom] and [MovementSpeed] are the members [ViewManager.cpp] reads
    and writes; [Yaw] and [Pitch] are the further ones the
    specification names for the perspective camera. *)
Record Camera : Type := mkCamera {
  Position : vec3;
  Front : vec3;
  Up : vec3;
  Yaw : R;
  Pitch : R;
  Zoom : R;
  MovementSpeed : R
}.

Definition set_Position (v : vec3) (c : Camera) : Camera :=
  mkCamera v (Front c) (Up c) (Yaw c) (Pitch c) (Zoom c) (MovementSpeed c).
Definition set_Front (v : vec3) (c : Camera) : Camera :=
  mkCamera (Position c) v (Up c) (Yaw c) (Pitch c) (Zoom c) (MovementSpeed c).
Definition set_Up (v : vec3) (c : Camera) : Camera :=
  mkCamera (Position c) (Front c) v (Yaw c) (Pitch c) (Zoom c) (MovementSpeed c).
Definition set_Zoom (v : R) (c : Camera) : Camera :=
  mkCamera (Position c) (Front c) (Up c) (Yaw c) (Pitch c) v (MovementSpeed c).
Definition set_MovementSpeed (v : R) (c : Camera) : Camera :=
  mkCamera (Position c) (Front c) (Up c) (Yaw c) (Pitch c) (Zoom c) v.

Inductive Camera_Movement : Type :=
  FORWARD | BACKWARD | LEFT | RIGHT | UP | DOWN.

(** The methods of the camera class that the view manager calls. *)
Class CameraLibrary (mat4 : Type) : Type := {
  Camera_new : Camera;
  ProcessKeyboard : Camera_Movement -> R -> Camera -> Camera;
  ProcessMouseMovement : R -> R -> Camera -> Camera;
  GetViewMatrix : Camera -> mat4
}.

Section Controller.

Context {mat4 : Type} {glm : Matrices mat4} {camera : CameraLibrary mat4}.

(** The shader manager is seen through the uniform values it is sent. *)
Inductive ShaderCall : Type :=
| setMat4Value (name : string) (value : mat4)
| setVec3Value (name : string) (value : vec3).

Definition ShaderManager : Type := list ShaderCall.

(** The globals of the anonymous namespace, together with the two
    members of the class: [m_pShaderManager] ([None] for a null pointer)
    and the close flag of the window behind [m_pWindow]. *)
Record State : Type := mkState {
  m_pShaderManager : option ShaderManager;
  windowShouldClose : bool;
  g_pCamera : Camera;
  gLastX : R;
  gLastY : R;
  gFirstMouse : bool;
  m_scalar : R;
  p_scalar : R;
  gDeltaTime : R;
  gLastFrame : R;
  bOrthographicProjection : bool;
  o_camera_position : vec3;
  o_radius : R;
  o_yaw : R;
  o_pitch : R;
  o_scalar : R;
  bcolemak_layout : bool;
  gkey_forward : Z;
  gkey_backward : Z;
  gkey_left : Z;
  gkey_right : Z;
  gkey_up : Z;
  gkey_down : Z;
  gkey_layout : Z
}.

(** Assignment to one global.  [o_radius] and [o_scalar] have none: the
    sources never assign to them after their initialisation. *)
Definition set_m_pShaderManager (v : option ShaderManager) (s : State) : State :=
  mkState v (windowShouldClose s) (g_pCamera s) (gLastX s) (gLastY s)
    (gFirstMouse s) (m_scalar s) (p_scalar s) (gDeltaTime s) (gLastFrame s)
    (bOrthographicProjection s) (o_camera_position s) (o_radius s)
    (o_yaw s) (o_pitch s) (o_scalar s) (bcolemak_layout s) (gkey_forward s)
    (gkey_backward s) (gkey_left s) (gkey_right s) (gkey_up s)
    (gkey_down s) (gkey_layout s).

Definition set_windowShouldClose (v : bool) (s : State) : State :=
  mkState (m_pShaderManager s) v (g_pCamera s) (gLastX s) (gLastY s)
    (gFirstMouse s) (m_scalar s) (p_scalar s) (gDeltaTime s) (gLastFrame s)
    (bOrthographicProjection s) (o_camera_position s) (o_radius s)
    (o_yaw s) (o_pitch s) (o_scalar s) (bcolemak_layout s) (gkey_forward s)
    (gkey_backward s) (gkey_left s) (gkey_right s) (gkey_up s)
    (gkey_down s) (gkey_layout s).

Definition set_g_pCamera (v : Camera) (s : State) : State :=
  mkState (m_pShaderManager s) (windowShouldClose s) v (gLastX s)
    (gLastY s) (gFirstMouse s) (m_scalar s) (p_scalar s) (gDeltaTime s)
    (gLastFrame s) (bOrthographicProjection s) (o_camera_position s)
    (o_radius s) (o_yaw s) (o_pitch s) (o_scalar s) (bcolemak_layout s)
    (gkey_forward s) (gkey_backward s) (gkey_left s) (gkey_right s)
    (gkey_up s) (gkey_down s) (gkey_layout s).

Definition set_gLastX (v : R) (s : State) : State :=
  mkState (m_pShaderManager s) (windowShouldClose s) (g_pCamera s) v
    (gLastY s) (gFirstMouse s) (m_scalar s) (p_scalar s) (gDeltaTime s)
    (gLastFrame s) (bOrthographicProjection s) (o_camera_position s)
    (o_radius s) (o_yaw s) (o_pitch s) (o_scalar s) (bcolemak_layout s)
    (gkey_forward s) (gkey_backward s) (gkey_left s) (gkey_right s)
    (gkey_up s) (gkey_down s) (gkey_layout s).

Definition set_gLastY (v : R) (s : State) : State :=
  mkState (m_pShaderManager s) (windowShouldClose s) (g_pCamera s)
    (gLastX s) v (gFirstMouse s) (m_scalar s) (p_scalar s) (gDeltaTime s)
    (gLastFrame s) (bOrthographicProjection s) (o_camera_position s)
    (o_radius s) (o_yaw s) (o_pitch s) (o_scalar s) (bcolemak_layout s)
    (gkey_forward s) (gkey_backward s) (gkey_left s) (gkey_right s)
    (gkey_up s) (gkey_down s) (gkey_layout s).

Definition set_gFirstMouse (v : bool) (s : State) : State :=
  mkState (m_pShaderManager s) (windowShouldClose s) (g_pCamera s)
    (gLastX s) (gLastY s) v (m_scalar s) (p_scalar s) (gDeltaTime s)
    (gLastFrame s) (bOrthographicProjection s) (o_camera_position s)
    (o_radius s) (o_yaw s) (o_pitch s) (o_scalar s) (bcolemak_layout s)
    (gkey_forward s) (gkey_backward s) (gkey_left s) (gkey_right s)
    (gkey_up s) (gkey_down s) (gkey_layout s).

Definition set_m_scalar (v : R) (s : State) : State :=
  mkState (m_pShaderManager s) (windowShouldClose s) (g_pCamera s)
    (gLastX s) (gLastY s) (gFirstMouse s) v (p_scalar s) (gDeltaTime s)
    (gLastFrame s) (bOrthographicProjection s) (o_camera_position s)
    (o_radius s) (o_yaw s) (o_pitch s) (o_scalar s) (bcolemak_layout s)
    (gkey_forward s) (gkey_backward s) (gkey_left s) (gkey_right s)
    (gkey_up s) (gkey_down s) (gkey_layout s).

Definition set_p_scalar (v : R) (s : State) : State :=
  mkState (m_pShaderManager s) (windowShouldClose s) (g_pCamera s)
    (gLastX s) (gLastY s) (gFirstMouse s) (m_scalar s) v (gDeltaTime s)
    (gLastFrame s) (bOrthographicProjection s) (o_camera_position s)
    (o_radius s) (o_yaw s) (o_pitch s) (o_scalar s) (bcolemak_layout s)
    (gkey_forward s) (gkey_backward s) (gkey_left s) (gkey_right s)
    (gkey_up s) (gkey_down s) (gkey_layout s).

Definition set_gDeltaTime (v : R) (s : State) : State :=
  mkState (m_pShaderManager s) (windowShouldClose s) (g_pCamera s)
    (gLastX s) (gLastY s) (gFirstMouse s) (m_scalar s) (p_scalar s) v
    (gLastFrame s) (bOrthographicProjection s) (o_camera_position s)
    (o_radius s) (o_yaw s) (o_pitch s) (o_scalar s) (bcolemak_layout s)
    (gkey_forward s) (gkey_backward s) (gkey_left s) (gkey_right s)
    (gkey_up s) (gkey_down s) (gkey_layout s).

Definition set_gLastFrame (v : R) (s : State) : State :=
  mkState (m_pShaderManager s) (windowShouldClose s) (g_pCamera s)
    (gLastX s) (gLastY s) (gFirstMouse s) (m_scalar s) (p_scalar s)
    (gDeltaTime s) v (bOrthographicProjection s) (o_camera_position s)
    (o_radius s) (o_yaw s) (o_pitch s) (o_scalar s) (bcolemak_layout s)
    (gkey_forward s) (gkey_backward s) (gkey_left s) (gkey_right s)
    (gkey_up s) (gkey_down s) (gkey_layout s).

Definition set_bOrthographicProjection (v : bool) (s : State) : State :=
  mkState (m_pShaderManager s) (windowShouldClose s) (g_pCamera s)
    (gLastX s) (gLastY s) (gFirstMouse s) (m_scalar s) (p_scalar s)
    (gDeltaTime s) (gLastFrame s) v (o_camera_position s) (o_radius s)
    (o_yaw s) (o_pitch s) (o_scalar s) (bcolemak_layout s) (gkey_forward s)
    (gkey_backward s) (gkey_left s) (gkey_right s) (gkey_up s)
    (gkey_down s) (gkey_layout s).

Definition set_o_camera_position (v : vec3) (s : State) : State :=
  mkState (m_pShaderManager s) (windowShouldClose s) (g_pCamera s)
    (gLastX s) (gLastY s) (gFirstMouse s) (m_scalar s) (p_scalar s)
    (gDeltaTime s) (gLastFrame s) (bOrthographicProjection s) v
    (o_radius s) (o_yaw s) (o_pitch s) (o_scalar s) (bcolemak_layout s)
    (gkey_forward s) (gkey_backward s) (gkey_left s) (gkey_right s)
    (gkey_up s) (gkey_down s) (gkey_layout s).

Definition set_o_yaw (v : R) (s : State) : State :=
  mkState (m_pShaderManager s) (windowShouldClose s) (g_pCamera s)
    (gLastX s) (gLastY s) (gFirstMouse s) (m_scalar s) (p_scalar s)
    (gDeltaTime s) (gLastFrame s) (bOrthographicProjection s)
    (o_camera_position s) (o_radius s) v (o_pitch s) (o_scalar s)
    (bcolemak_layout s) (gkey_forward s) (gkey_backward s) (gkey_left s)
    (gkey_right s) (gkey_up s) (gkey_down s) (gkey_layout s).

Definition set_o_pitch (v : R) (s : State) : State :=
  mkState (m_pShaderManager s) (windowShouldClose s) (g_pCamera s)
    (gLastX s) (gLastY s) (gFirstMouse s) (m_scalar s) (p_scalar s)
    (gDeltaTime s) (gLastFrame s) (bOrthographicProjection s)
    (o_camera_position s) (o_radius s) (o_yaw s) v (o_scalar s)
    (bcolemak_layout s) (gkey_forward s) (gkey_backward s) (gkey_left s)
    (gkey_right s) (gkey_up s) (gkey_down s) (gkey_layout s).

Definition set_bcolemak_layout (v : bool) (s : State) : State :=
  mkState (m_pShaderManager s) (windowShouldClose s) (g_pCamera s)
    (gLastX s) (gLastY s) (gFirstMouse s) (m_scalar s) (p_scalar s)
    (gDeltaTime s) (gLastFrame s) (bOrthographicProjection s)
    (o_camera_position s) (o_radius s) (o_yaw s) (o_pitch s) (o_scalar s) v
    (gkey_forward s) (gkey_backward s) (gkey_left s) (gkey_right s)
    (gkey_up s) (gkey_down s) (gkey_layout s).

Definition set_gkey_forward (v : Z) (s : State) : State :=
  mkState (m_pShaderManager s) (windowShouldClose s) (g_pCamera s)
    (gLastX s) (gLastY s) (gFirstMouse s) (m_scalar s) (p_scalar s)
    (gDeltaTime s) (gLastFrame s) (bOrthographicProjection s)
    (o_camera_position s) (o_radius s) (o_yaw s) (o_pitch s) (o_scalar s)
    (bcolemak_layout s) v (gkey_backward s) (gkey_left s) (gkey_right s)
    (gkey_up s) (gkey_down s) (gkey_layout s).

Definition set_gkey_backward (v : Z) (s : State) : State :=
  mkState (m_pShaderManager s) (windowShouldClose s) (g_pCamera s)
    (gLastX s) (gLastY s) (gFirstMouse s) (m_scalar s) (p_scalar s)
    (gDeltaTime s) (gLastFrame s) (bOrthographicProjection s)
    (o_camera_position s) (o_radius s) (o_yaw s) (o_pitch s) (o_scalar s)
    (bcolemak_layout s) (gkey_forward s) v (gkey_left s) (gkey_right s)
    (gkey_up s) (gkey_down s) (gkey_layout s).

Definition set_gkey_left (v : Z) (s : State) : State :=
  mkState (m_pShaderManager s) (windowShouldClose s) (g_pCamera s)
    (gLastX s) (gLastY s) (gFirstMouse s) (m_scalar s) (p_scalar s)
    (gDeltaTime s) (gLastFrame s) (bOrthographicProjection s)
    (o_camera_position s) (o_radius s) (o_yaw s) (o_pitch s) (o_scalar s)
    (bcolemak_layout s) (gkey_forward s) (gkey_backward s) v (gkey_right s)
    (gkey_up s) (gkey_down s) (gkey_layout s).

Definition set_gkey_right (v : Z) (s : State) : State :=
  mkState (m_pShaderManager s) (windowShouldClose s) (g_pCamera s)
    (gLastX s) (gLastY s) (gFirstMouse s) (m_scalar s) (p_scalar s)
    (gDeltaTime s) (gLastFrame s) (bOrthographicProjection s)
    (o_camera_position s) (o_radius s) (o_yaw s) (o_pitch s) (o_scalar s)
    (bcolemak_layout s) (gkey_forward s) (gkey_backward s) (gkey_left s) v
    (gkey_up s) (gkey_down s) (gkey_layout s).

Definition set_gkey_up (v : Z) (s : State) : State :=
  mkState (m_pShaderManager s) (windowShouldClose s) (g_pCamera s)
    (gLastX s) (gLastY s) (gFirstMouse s) (m_scalar s) (p_scalar s)
    (gDeltaTime s) (gLastFrame s) (bOrthographicProjection s)
    (o_camera_position s) (o_radius s) (o_yaw s) (o_pitch s) (o_scalar s)
    (bcolemak_layout s) (gkey_forward s) (gkey_backward s) (gkey_left s)
    (gkey_right s) v (gkey_down s) (gkey_layout s).

Definition set_gkey_down (v : Z) (s : State) : State :=
  mkState (m_pShaderManager s) (windowShouldClose s) (g_pCamera s)
    (gLastX s) (gLastY s) (gFirstMouse s) (m_scalar s) (p_scalar s)
    (gDeltaTime s) (gLastFrame s) (bOrthographicProjection s)
    (o_camera_position s) (o_radius s) (o_yaw s) (o_pitch s) (o_scalar s)
    (bcolemak_layout s) (gkey_forward s) (gkey_backward s) (gkey_left s)
    (gkey_right s) (gkey_up s) v (gkey_layout s).

Definition set_gkey_layout (v : Z) (s : State) : State :=
  mkState (m_pShaderManager s) (windowShouldClose s) (g_pCamera s)
    (gLastX s) (gLastY s) (gFirstMouse s) (m_scalar s) (p_scalar s)
    (gDeltaTime s) (gLastFrame s) (bOrthographicProjection s)
    (o_camera_position s) (o_radius s) (o_yaw s) (o_pitch s) (o_scalar s)
    (bcolemak_layout s) (gkey_forward s) (gkey_backward s) (gkey_left s)
    (gkey_right s) (gkey_up s) (gkey_down s) v.

(** The constructor, on top of the initial values of the globals. *)
Definition ViewManager_new (pShaderManager : option ShaderManager) : State :=
  {| m_pShaderManager := pShaderManager;
     windowShouldClose := false;
     g_pCamera :=
       set_MovementSpeed 20
         (set_Zoom 80
            (set_Up (mkVec3 0 1 0)
               (set_Front (mkVec3 0 (-0.5) (-2))
                  (set_Position (mkVec3 0 5 12) Camera_new))));
     gLastX := IZR WINDOW_WIDTH / 2;
     gLastY := IZR WINDOW_HEIGHT / 2;
     gFirstMouse := true;
     m_scalar := 1;
     p_scalar := 1;
     gDeltaTime := 0;
     gLastFrame := 0;
     bOrthographicProjection := false;
     o_camera_position := mkVec3 0 5 12;
     o_radius := 10;
     o_yaw := 0;
     o_pitch := 0;
     o_scalar := 5;
     bcolemak_layout := false;
     gkey_forward := GLFW_KEY_W;
     gkey_backward := GLFW_KEY_S;
     gkey_left := GLFW_KEY_A;
     gkey_right := GLFW_KEY_D;
     gkey_up := GLFW_KEY_Q;
     gkey_down := GLFW_KEY_E;
     gkey_layout := GLFW_KEY_C |}.

(** *** Mouse callbacks *)

Definition Mouse_Position_Callback (xMousePos yMousePos : R) (s : State)
  : State :=
  let s :=
    if gFirstMouse s
    then set_gFirstMouse false (set_gLastY yMousePos (set_gLastX xMousePos s))
    else s in
  let xOffset := (xMousePos - gLastX s) * m_scalar s in
  let yOffset := (gLastY s - yMousePos) * m_scalar s in
  let s := set_gLastX xMousePos s in
  let s := set_gLastY yMousePos s in
  set_g_pCamera (ProcessMouseMovement xOffset yOffset (g_pCamera s)) s.

(** The two [if]s that keep a speed multiplier between 0.01 and 10. *)
Definition limit_scalar (v : R) : R :=
  let v := if Rlt_dec v 0.01 then 0.01 else v in
  if Rgt_dec v 10 then 10 else v.

Definition Mouse_Scroll_Wheel_Callback (xOffset yOffset : R) (s : State)
  : State :=
  let s := set_m_scalar (limit_scalar (m_scalar s + yOffset)) s in
  set_p_scalar (limit_scalar (p_scalar s + xOffset)) s.

(** *** Keyboard processing *)

(** The two [if]s that follow every change of an orbit angle. *)
Definition wrap_angle (a : R) : R :=
  let a := if Rgt_dec a 360 then 0 else a in
  if Rlt_dec a 0 then 359.9 else a.

(** [ProcessKeyboardEvents] is a sequence of ten key tests.  Each test
    with its body is a definition of its own, named after the key, and
    [ProcessKeyboardEvents] runs them in source order. *)

(** [g_pCamera->ProcessKeyboard(direction, delta)]. *)
Definition move_camera (direction : Camera_Movement) (delta : R) (s : State)
  : State :=
  set_g_pCamera (ProcessKeyboard direction delta (g_pCamera s)) s.

Definition on_escape (kb : Keyboard) (s : State) : State :=
  if pressed kb GLFW_KEY_ESCAPE then set_windowShouldClose true s else s.

Definition on_forward (kb : Keyboard) (delta_scaled : R) (s : State) : State :=
  if pressed kb (gkey_forward s) then
    let s := move_camera FORWARD delta_scaled s in
    if bOrthographicProjection s
    then set_o_pitch (wrap_angle (o_pitch s + delta_scaled * o_scalar s)) s
    else s
  else s.

Definition on_backward (kb : Keyboard) (delta_scaled : R) (s : State) : State :=
  if pressed kb (gkey_backward s) then
    let s := move_camera BACKWARD delta_scaled s in
    if bOrthographicProjection s
    then set_o_pitch (wrap_angle (o_pitch s - delta_scaled * o_scalar s)) s
    else s
  else s.

Definition on_left (kb : Keyboard) (delta_scaled : R) (s : State) : State :=
  if pressed kb (gkey_left s) then
    let s := move_camera LEFT delta_scaled s in
    if bOrthographicProjection s
    then set_o_yaw (wrap_angle (o_yaw s - delta_scaled * o_scalar s)) s
    else s
  else s.

Definition on_right (kb : Keyboard) (delta_scaled : R) (s : State) : State :=
  if pressed kb (gkey_right s) then
    let s :=
      if bOrthographicProjection s
      then set_o_yaw (wrap_angle (o_yaw s + delta_scaled * o_scalar s)) s
      else s in
    move_camera RIGHT delta_scaled s
  else s.

Definition on_up (kb : Keyboard) (delta_scaled : R) (s : State) : State :=
  if pressed kb (gkey_up s) then move_camera UP delta_scaled s else s.

Definition on_down (kb : Keyboard) (delta_scaled : R) (s : State) : State :=
  if pressed kb (gkey_down s) then move_camera DOWN delta_scaled s else s.

Definition on_perspective_key (kb : Keyboard) (s : State) : State :=
  if pressed kb GLFW_KEY_P then
    let c := g_pCamera s in
    let c := set_Position (mkVec3 0 5 12) c in
    let c := set_Front (mkVec3 0 (-0.5) (-2)) c in
    let c := set_Up (mkVec3 0 1 0) c in
    set_bOrthographicProjection false (set_g_pCamera c s)
  else s.

Definition on_orthographic_key (kb : Keyboard) (s : State) : State :=
  if pressed kb GLFW_KEY_O then
    let s := set_o_camera_position (mkVec3 0 5 12) s in
    let s := set_o_yaw 0 s in
    let s := set_o_pitch 0 s in
    set_bOrthographicProjection true s
  else s.

Definition use_qwerty (s : State) : State :=
  let s := set_gkey_forward GLFW_KEY_W s in
  let s := set_gkey_backward GLFW_KEY_S s in
  let s := set_gkey_left GLFW_KEY_A s in
  let s := set_gkey_right GLFW_KEY_D s in
  let s := set_gkey_up GLFW_KEY_Q s in
  let s := set_gkey_down GLFW_KEY_E s in
  let s := set_gkey_layout GLFW_KEY_C s in
  set_bcolemak_layout false s.

Definition use_colemak (s : State) : State :=
  let s := set_gkey_forward GLFW_KEY_F s in
  let s := set_gkey_backward GLFW_KEY_S s in
  let s := set_gkey_left GLFW_KEY_R s in
  let s := set_gkey_right GLFW_KEY_T s in
  let s := set_gkey_up GLFW_KEY_SPACE s in
  let s := set_gkey_down GLFW_KEY_A s in
  let s := set_gkey_layout GLFW_KEY_Q s in
  set_bcolemak_layout true s.

Definition toggle_layout (s : State) : State :=
  if bcolemak_layout s then use_qwerty s else use_colemak s.

Definition on_layout_key (kb : Keyboard) (s : State) : State :=
  if pressed kb (gkey_layout s) then toggle_layout s else s.

Definition ProcessKeyboardEvents (kb : Keyboard) (s : State) : State :=
  let delta_scaled := gDeltaTime s * p_scalar s in
  let s := on_escape kb s in
  let s := on_forward kb delta_scaled s in
  let s := on_backward kb delta_scaled s in
  let s := on_left kb delta_scaled s in
  let s := on_right kb delta_scaled s in
  let s := on_up kb delta_scaled s in
  let s := on_down kb delta_scaled s in
  let s := on_perspective_key kb s in
  let s := on_orthographic_key kb s in
  on_layout_key kb s.

(** *** The orbit camera and the per-frame view *)

Definition update_o_camera_position (s : State) : State :=
  set_o_camera_position
    {| x := cos (radians (o_yaw s)) * cos (radians (o_pitch s)) * o_radius s;
       y := sin (radians (o_pitch s)) * o_radius s;
       z := sin (radians (o_yaw s)) * cos (radians (o_pitch s)) * o_radius s |}
    s.

Definition ortho_scale : R := 0.02.

(** The part of [PrepareSceneView] that follows keyboard processing: the
    two local matrices, and the state after the orbit position has been
    recomputed when the orthographic branch is taken. *)
Definition scene_matrices (s : State) : State * (mat4 * mat4) :=
  let view := GetViewMatrix (g_pCamera s) in
  if bOrthographicProjection s then
    let s := update_o_camera_position s in
    (s,
     (lookAt (o_camera_position s) (mkVec3 0 0 0) (mkVec3 0 1 0),
      ortho (IZR WINDOW_WIDTH * (-1) * ortho_scale)
            (IZR WINDOW_WIDTH * ortho_scale)
            (IZR WINDOW_HEIGHT * (-1) * ortho_scale)
            (IZR WINDOW_HEIGHT * ortho_scale)
            0.1 100))
  else
    (s,
     (view,
      perspective (radians (Zoom (g_pCamera s)))
                  (IZR WINDOW_WIDTH / IZR WINDOW_HEIGHT) 0.1 100)).

(** The three uniforms sent when the shader manager is not null. *)
Definition send_uniforms (view projection : mat4) (s : State) : State :=
  match m_pShaderManager s with
  | Some sent =>
      set_m_pShaderManager
        (Some (sent ++ [setMat4Value g_ViewName view;
                        setMat4Value g_ProjectionName projection;
                        setVec3Value "viewPosition" (Position (g_pCamera s))]))
        s
  | None => s
  end.

(** Per-frame timing followed by keyboard processing; [currentFrame] is
    the value [glfwGetTime()] returns. *)
Definition begin_frame (currentFrame : R) (kb : Keyboard) (s : State) : State :=
  let s := set_gDeltaTime (currentFrame - gLastFrame s) s in
  let s := set_gLastFrame currentFrame s in
  ProcessKeyboardEvents kb s.

Definition PrepareSceneView (currentFrame : R) (kb : Keyboard) (s : State)
  : State :=
  let s := begin_frame currentFrame kb s in
  let '(s, (view, projection)) := scene_matrices s in
  send_uniforms view projection s.

(** *** Everything that can happen to the controller *)

Inductive Event : Type :=
| KeyboardEvents (kb : Keyboard)
| MouseMoved (xMousePos yMousePos : R)
| MouseScrolled (xOffset yOffset : R)
| FramePrepared (currentFrame : R) (kb : Keyboard).

Definition step (e : Event) (s : State) : State :=
  match e with
  | KeyboardEvents kb => ProcessKeyboardEvents kb s
  | MouseMoved xMousePos yMousePos => Mouse_Position_Callback xMousePos yMousePos s
  | MouseScrolled xOffset yOffset => Mouse_Scroll_Wheel_Callback xOffset yOffset s
  | FramePrepared currentFrame kb => PrepareSceneView currentFrame kb s
  end.

Definition run (es : list Event) (s : State) : State :=
  fold_left (fun s e => step e s) es s.

(** *** Vocabulary of the statements *)

(** The seven key-code variables and the layout flag. *)
Record Layout : Type := mkLayout {
  colemak : bool;
  key_forward : Z;
  key_backward : Z;
  key_left : Z;
  key_right : Z;
  key_up : Z;
  key_down : Z;
  key_layout : Z
}.

Definition layout_of (s : State) : Layout :=
  mkLayout (bcolemak_layout s) (gkey_forward s) (gkey_backward s)
    (gkey_left s) (gkey_right s) (gkey_up s) (gkey_down s) (gkey_layout s).

Definition qwerty_layout : Layout :=
  mkLayout false GLFW_KEY_W GLFW_KEY_S GLFW_KEY_A GLFW_KEY_D
    GLFW_KEY_Q GLFW_KEY_E GLFW_KEY_C.

Definition colemak_layout : Layout :=
  mkLayout true GLFW_KEY_F GLFW_KEY_S GLFW_KEY_R GLFW_KEY_T
    GLFW_KEY_SPACE GLFW_KEY_A GLFW_KEY_Q.

(** Everything of the state but the layout. *)
Definition beside_layout (s : State)
  : option ShaderManager * bool * Camera * (R * R * bool * R)
    * (R * R * R) * bool * (vec3 * R * R * R * R) :=
  (m_pShaderManager s, windowShouldClose s, g_pCamera s,
   (gLastX s, gLastY s, gFirstMouse s, m_scalar s),
   (p_scalar s, gDeltaTime s, gLastFrame s),
   bOrthographicProjection s,
   (o_camera_position s, o_radius s, o_yaw s, o_pitch s, o_scalar s)).

(** The orbit camera: angles, radius, speed and the position derived
    from them. *)
Definition orbit_of (s : State) : vec3 * R * R * R * R :=
  (o_camera_position s, o_radius s, o_yaw s, o_pitch s, o_scalar s).

(** Spherical to Cartesian, about the world origin. *)
Definition spherical (yaw pitch radius : R) : vec3 :=
  mkVec3 (cos (radians yaw) * cos (radians pitch) * radius)
         (sin (radians pitch) * radius)
         (sin (radians yaw) * cos (radians pitch) * radius).

(** The keys that move the cameras: the first seven tests of
    [ProcessKeyboardEvents], before the mode and layout keys. *)
Definition movement_keys (kb : Keyboard) (s : State) : State :=
  let delta_scaled := gDeltaTime s * p_scalar s in
  let s := on_escape kb s in
  let s := on_forward kb delta_scaled s in
  let s := on_backward kb delta_scaled s in
  let s := on_left kb delta_scaled s in
  let s := on_right kb delta_scaled s in
  let s := on_up kb delta_scaled s in
  on_down kb delta_scaled s.

(** All of the state but the close flag, the perspective camera and the
    two orbit angles: what the movement keys do not write. *)
Record Settings : Type := mkSettings {
  shaderManager : option ShaderManager;
  lastX : R;
  lastY : R;
  firstMouse : bool;
  mouseScalar : R;
  panScalar : R;
  deltaTime : R;
  lastFrame : R;
  orthographic : bool;
  orbitPosition : vec3;
  orbitRadius : R;
  orbitScalar : R;
  layout : Layout
}.

Definition settings_of (s : State) : Settings :=
  mkSettings (m_pShaderManager s) (gLastX s) (gLastY s) (gFirstMouse s)
    (m_scalar s) (p_scalar s) (gDeltaTime s) (gLastFrame s)
    (bOrthographicProjection s) (o_camera_position s) (o_radius s)
    (o_scalar s) (layout_of s).

(** The orbit angles the movement keys leave behind. *)
Definition pitch_after_movement (kb : Keyboard) (s : State) : R :=
  let step := gDeltaTime s * p_scalar s * o_scalar s in
  let a := o_pitch s in
  let a :=
    if pressed kb (gkey_forward s) && bOrthographicProjection s
    then wrap_angle (a + step) else a in
  if pressed kb (gkey_backward s) && bOrthographicProjection s
  then wrap_angle (a - step) else a.

Definition yaw_after_movement (kb : Keyboard) (s : State) : R :=
  let step := gDeltaTime s * p_scalar s * o_scalar s in
  let a := o_yaw s in
  let a :=
    if pressed kb (gkey_left s) && bOrthographicProjection s
    then wrap_angle (a - step) else a in
  if pressed kb (gkey_right s) && bOrthographicProjection s
  then wrap_angle (a + step) else a.

(** The events that come from the mouse. *)
Definition mouse_event (e : Event) : bool :=
  match e with
  | MouseMoved _ _ | MouseScrolled _ _ => true
  | KeyboardEvents _ | FramePrepared _ _ => false
  end.

(** The offsets [Mouse_Position_Callback] hands to the camera. *)
Definition mouse_offsets (xMousePos yMousePos : R) (s : State) : R * R :=
  if gFirstMouse s then (0 * m_scalar s, 0 * m_scalar s)
  else ((xMousePos - gLastX s) * m_scalar s,
        (gLastY s - yMousePos) * m_scalar s).

Definition angle_in_range (a : R) : Prop := 0 <= a <= 360.

Definition angles_in_range (s : State) : Prop :=
  angle_in_range (o_yaw s) /\ angle_in_range (o_pitch s).

Definition default_pose (c : Camera) : Prop :=
  Position c = mkVec3 0 5 12 /\ Front c = mkVec3 0 (-0.5) (-2)
  /\ Up c = mkVec3 0 1 0.

End Controller.
End ViewManager.

(** ** The scene manager: materials and meshes *)

Module SceneManager.

Import Glm.

(** Modelled from the spec: the structure [OBJECT_MATERIAL] is declared
    in [SceneManager.h], which is not among the sources.  It is the
    named bundle of ambient, diffuse and specular colour and shininess of
    the glossary, with the members [SceneManager.cpp] assigns. *)
Record OBJECT_MATERIAL : Type := mkMaterial {
  tag : string;
  ambientColor : vec3;
  ambientStrength : R;
  diffuseColor : vec3;
  specularColor : vec3;
  shininess : R
}.

(** Modelled from the spec: the mesh-primitive generator is an external
    utility that is not among the sources.  [Plane], [Box], [Sphere],
    [Cylinder] and [Prism] are the five meshes the specification and
    [SceneManager.cpp] name; the other constructors stand for the
    further primitives of the generator, which the scene manager never
    names. *)
Inductive Mesh : Type :=
| Plane | Box | Sphere | Cylinder | Prism
| Cone | Pyramid3 | Pyramid4 | TaperedCylinder | Torus.

(** A call on [m_basicMeshes]: [Load m] is [Load<m>Mesh()], [Draw m] is
    [Draw<m>Mesh()]. *)
Inductive MeshCall : Type :=
| Load (m : Mesh)
| Draw (m : Mesh).

(** The materials list, with the calls received so far by the mesh
    object: what [FindMaterial] works on. *)
Record Scene : Type := mkScene {
  m_objectMaterials : list OBJECT_MATERIAL;
  m_basicMeshes : list MeshCall
}.

(** *** FindMaterial *)

(** The five assignments made when the tags agree; [material.tag] is
    not assigned. *)
Definition assign_from (found material : OBJECT_MATERIAL) : OBJECT_MATERIAL :=
  mkMaterial (tag material) (ambientColor found) (ambientStrength found)
    (diffuseColor found) (specularColor found) (shininess found).

Section Lookup.

Variable materials : list OBJECT_MATERIAL.
Variable wanted : string.

(** The [while] loop of [FindMaterial], from the values the locals
    [index] and [bFound] and the output parameter have on entry.  Under
    the loop test the entry at [index] exists, so the clause for a
    missing entry is never reached. *)
Equations? FindMaterial_loop (index : nat) (bFound : bool)
  (material : OBJECT_MATERIAL) : OBJECT_MATERIAL
  by wf ((List.length materials - index) + (if bFound then 0 else 1))%nat lt :=
  FindMaterial_loop index bFound material
    with lt_dec index (List.length materials), bFound => {
    | left _, false with nth_error materials index => {
        | Some entry with String.eqb (tag entry) wanted => {
            | true := FindMaterial_loop index true (assign_from entry material);
            | false := FindMaterial_loop (S index) false material };
        | None := material };
    | _, _ := material }.
Proof. all: lia. Qed.

End Lookup.

(** The returned flag and the final value of the output parameter. *)
Definition FindMaterial (s : Scene) (wanted : string)
  (material : OBJECT_MATERIAL) : bool * OBJECT_MATERIAL :=
  if (List.length (m_objectMaterials s) =? 0)%nat then (false, material)
  else (true, FindMaterial_loop (m_objectMaterials s) wanted 0 false material).


(** [SetShaderMaterial]: the five uniforms sent for a tag, by name, read
    from a local [material] whose initial content the caller does not
    set. *)
Inductive MaterialUniform : Type :=
| setVec3Value (name : string) (value : vec3)
| setFloatValue (name : string) (value : R).

Definition SetShaderMaterial (s : Scene) (materialTag : string)
  (material : OBJECT_MATERIAL) : list MaterialUniform :=
  if (0 <? List.length (m_objectMaterials s))%nat then
    let '(bReturn, material) := FindMaterial s materialTag material in
    if bReturn then
      [setVec3Value "material.ambientColor" (ambientColor material);
       setFloatValue "material.ambientStrength" (ambientStrength material);
       setVec3Value "material.diffuseColor" (diffuseColor material);
       setVec3Value "material.specularColor" (specularColor material);
       setFloatValue "material.shininess" (shininess material)]
    else []
  else [].

(** *** The materials of the scene *)

Definition wood_mat : OBJECT_MATERIAL :=
  mkMaterial "wood" (mkVec3 0.1 0.1 0) 0.3 (mkVec3 0.7 0.7 0.6)
    (mkVec3 0.5 0.5 0.4) 32.
Definition glass_mat : OBJECT_MATERIAL :=
  mkMaterial "glass" (mkVec3 0.1 0.1 0.1) 0.3 (mkVec3 0.2 0.2 0.2)
    (mkVec3 0.8 0.8 0.8) 64.
Definition plastic_mat : OBJECT_MATERIAL :=
  mkMaterial "plastic" (mkVec3 0 0.1 0.1) 0.3 (mkVec3 0.8 0.8 0.8)
    (mkVec3 0.2 0.6 0.4) 16.
Definition track_mat : OBJECT_MATERIAL :=
  mkMaterial "trackball" (mkVec3 0.2 0.2 0.2) 0.3 (mkVec3 0.4 0.4 0.4)
    (mkVec3 0.7 0.7 0.7) 48.
Definition ball_mat : OBJECT_MATERIAL :=
  mkMaterial "ballball" (mkVec3 0.2 0.2 0.2) 0.3 (mkVec3 0.4 0.4 0.4)
    (mkVec3 0.7 0.7 0.7) 128.
Definition alum_mat : OBJECT_MATERIAL :=
  mkMaterial "aluminum" (mkVec3 0.3 0.3 0.3) 0.1 (mkVec3 0.3 0.3 0.3)
    (mkVec3 0.6 0.6 0.6) 64.
Definition crt_mat : OBJECT_MATERIAL :=
  mkMaterial "crt" (mkVec3 0.6 0.6 0.6) 0.3 (mkVec3 0.6 0.6 0.6)
    (mkVec3 0.7 0.7 0.7) 12.

(** *** Vocabulary of the statements *)

Definition five_meshes : list Mesh := [Plane; Box; Sphere; Cylinder; Prism].

Definition has_tag (wanted : string) (m : OBJECT_MATERIAL) : bool :=
  String.eqb (tag m) wanted.

End SceneManager.

(** ** The library interfaces, implemented

    The vector-math library and the camera class are not among the
    sources, so the controller above is written against their
    interfaces.  Here the interfaces are implemented, to run the
    controller on concrete inputs and to settle what depends on the
    camera class itself. *)

Module Reference.

Import Glm GLFW ViewManager.

(** A matrix is kept as the constructor call that made it. *)
Inductive matrix : Type :=
| LookAt (eye center up : vec3)
| Ortho (left right bottom top zNear zFar : R)
| Perspective (fovy aspect zNear zFar : R)
| View (position front up : vec3).

Definition matrices : Matrices matrix :=
  {| lookAt := LookAt; ortho := Ortho; perspective := Perspective |}.

Definition translate (p d : vec3) (k : R) : vec3 :=
  mkVec3 (x p + x d * k) (y p + y d * k) (z p + z d * k).

Definition cross (a b : vec3) : vec3 :=
  mkVec3 (y a * z b - z a * y b) (z a * x b - x a * z b)
         (x a * y b - y a * x b).

Definition direction (yaw pitch : R) : vec3 :=
  mkVec3 (cos (radians yaw) * cos (radians pitch))
         (sin (radians pitch))
         (sin (radians yaw) * cos (radians pitch)).

(** Modelled from the spec: [Camera::ProcessKeyboard] belongs to the
    camera class ([camera.h]), which is not among the sources.  The
    specification has the perspective camera's position updated by
    WASD-style input: the position moves along the front, right and up
    directions, by [MovementSpeed] times the time step. *)
Definition keyboard_move (m : Camera_Movement) (deltaTime : R) (c : Camera)
  : Camera :=
  let velocity := MovementSpeed c * deltaTime in
  let right := cross (Front c) (Up c) in
  match m with
  | FORWARD => set_Position (translate (Position c) (Front c) velocity) c
  | BACKWARD => set_Position (translate (Position c) (Front c) (- velocity)) c
  | LEFT => set_Position (translate (Position c) right (- velocity)) c
  | RIGHT => set_Position (translate (Position c) right velocity) c
  | UP => set_Position (translate (Position c) (Up c) velocity) c
  | DOWN => set_Position (translate (Position c) (Up c) (- velocity)) c
  end.

(** Modelled from the spec: [Camera::ProcessMouseMovement] belongs to
    the camera class ([camera.h]), which is not among the sources.  The
    specification has the perspective camera's yaw, pitch and zoom
    updated by the mouse delta: the x offset turns the yaw and the y
    offset the pitch (a tenth of a degree per unit), the front vector
    follows the two angles, and the y offset is taken from the zoom. *)
Definition mouse_turn (xoffset yoffset : R) (c : Camera) : Camera :=
  let yaw := Yaw c + xoffset * 0.1 in
  let pitch := Pitch c + yoffset * 0.1 in
  mkCamera (Position c) (direction yaw pitch) (Up c) yaw pitch
    (Zoom c - yoffset) (MovementSpeed c).

(** Modelled from the spec: the camera class ([camera.h]) is not among
    the sources.  A new camera looks down the negative z axis from the
    origin; its view matrix is made from position, front and up. *)
Definition camera : CameraLibrary matrix :=
  {| Camera_new :=
       mkCamera (mkVec3 0 0 0) (mkVec3 0 0 (-1)) (mkVec3 0 1 0) (-90) 0 45 2.5;
     ProcessKeyboard := keyboard_move;
     ProcessMouseMovement := mouse_turn;
     GetViewMatrix := fun c => View (Position c) (Front c) (Up c) |}.

(** The controller as constructed by the application, without a shader
    manager, and after the block of the orthographic key has run on it
    with O held. *)
Definition start : State (mat4 := matrix) :=
  ViewManager_new (camera := camera) None.

Definition start_orthographic : State (mat4 := matrix) :=
  on_orthographic_key (holding [GLFW_KEY_O]) start.

(** In orthographic mode, a tenth of a second after the frame before
    (so that a key turns the orbit camera by 0.1 * 1 * 5 = 0.5 degrees),
    with the orbit camera a quarter turn round; and the same with the
    pitch just below the upper boundary. *)
Definition orbiting : State (mat4 := matrix) :=
  set_o_yaw 90 (set_gDeltaTime 0.1 start_orthographic).

Definition near_boundary : State (mat4 := matrix) :=
  set_o_pitch 359.8 orbiting.

End Reference.

(** * Properties of the view manager *)

Module ViewManagerFacts.

Import Glm GLFW ViewManager.

(** ** Angles and speed multipliers *)

Lemma wrap_angle_cases (a : R) :
  wrap_angle a = if Rgt_dec a 360 then 0 else if Rlt_dec a 0 then 359.9 else a.
Proof.
  unfold wrap_angle.
  destruct (Rgt_dec a 360) as [Hhigh | Hhigh].
  - destruct (Rlt_dec 0 0); [lra | reflexivity].
  - reflexivity.
Qed.

Lemma wrap_angle_in_range (a : R) : angle_in_range (wrap_angle a).
Proof.
  rewrite wrap_angle_cases. unfold angle_in_range.
  destruct (Rgt_dec a 360); [lra |].
  destruct (Rlt_dec a 0); lra.
Qed.


(** The two tests, case by case: a value above 360 becomes 0, a value
    below 0 becomes 359.9, a value between them stays. *)
Lemma wrap_angle_boundary (a : R) :
  (360 < a -> wrap_angle a = 0)
  /\ (a < 0 -> wrap_angle a = 359.9)
  /\ (0 <= a <= 360 -> wrap_angle a = a).
Proof.
  rewrite wrap_angle_cases.
  destruct (Rgt_dec a 360); [repeat split; intros; lra |].
  destruct (Rlt_dec a 0); repeat split; intros; lra.
Qed.

Lemma limit_scalar_bounds (v : R) : 0.01 <= limit_scalar v <= 10.
Proof.
  unfold limit_scalar.
  destruct (Rlt_dec v 0.01).
  - destruct (Rgt_dec 0.01 10); lra.
  - destruct (Rgt_dec v 10); lra.
Qed.

(** ** Spherical coordinates *)

Lemma spherical_norm_sq (yaw pitch radius : R) :
  let p := spherical yaw pitch radius in
  x p * x p + y p * y p + z p * z p = radius * radius.
Proof.
  simpl.
  pose proof (sin2_cos2 (radians yaw)) as Hy.
  pose proof (sin2_cos2 (radians pitch)) as Hp.
  unfold Rsqr in Hy, Hp.
  set (cy := cos (radians yaw)) in *. set (sy := sin (radians yaw)) in *.
  set (cp := cos (radians pitch)) in *. set (sp := sin (radians pitch)) in *.
  replace (cy * cp * radius * (cy * cp * radius) + sp * radius * (sp * radius)
           + sy * cp * radius * (sy * cp * radius))
    with (radius * radius * (cp * cp * (sy * sy + cy * cy) + sp * sp)) by ring.
  rewrite Hy. replace (cp * cp * 1 + sp * sp) with (sp * sp + cp * cp) by ring.
  rewrite Hp. ring.
Qed.

Lemma spherical_length (yaw pitch radius : R) :
  0 <= radius -> length (spherical yaw pitch radius) = radius.
Proof.
  intros Hr. unfold length.
  rewrite (spherical_norm_sq yaw pitch radius).
  apply sqrt_square, Hr.
Qed.

Section Facts.

Context {mat4 : Type} {glm : Matrices mat4} {camera : CameraLibrary mat4}.

#[local] Abbreviation State := (State (mat4 := mat4)).

Lemma update_o_camera_position_spherical (s : State) :
  o_camera_position (update_o_camera_position s)
  = spherical (o_yaw s) (o_pitch s) (o_radius s).
Proof. reflexivity. Qed.

(** C3: after [update_o_camera_position] the orbit camera sits at the
    Cartesian image of (o_yaw, o_pitch, o_radius), and that point lies on
    the sphere of radius [o_radius] about the world origin: its
    Euclidean length is [o_radius], whatever the two angles are. *)
Theorem orbit_position_on_sphere (s : State) :
  0 <= o_radius s ->
  o_camera_position (update_o_camera_position s)
  = mkVec3 (cos (radians (o_yaw s)) * cos (radians (o_pitch s)) * o_radius s)
           (sin (radians (o_pitch s)) * o_radius s)
           (sin (radians (o_yaw s)) * cos (radians (o_pitch s)) * o_radius s)
  /\ length (o_camera_position (update_o_camera_position s)) = o_radius s.
Proof.
  intros Hr. split; [reflexivity |].
  rewrite update_o_camera_position_spherical.
  apply spherical_length, Hr.
Qed.


(** ** Keyboard processing, block by block *)

Lemma ProcessKeyboardEvents_phases (kb : Keyboard) (s : State) :
  ProcessKeyboardEvents kb s
  = on_layout_key kb
      (on_orthographic_key kb (on_perspective_key kb (movement_keys kb s))).
Proof. reflexivity. Qed.

(** One block: unfold it, decide its tests, compare the fields. *)
Ltac block :=
  intros;
  unfold on_escape, on_forward, on_backward, on_left, on_right, on_up,
    on_down, on_perspective_key, on_orthographic_key, on_layout_key,
    toggle_layout, move_camera;
  repeat match goal with
         | |- context [if ?c then _ else _] => destruct c eqn:?
         end;
  try reflexivity.

Lemma on_escape_effect (kb : Keyboard) (s : State) :
  settings_of (on_escape kb s) = settings_of s
  /\ o_pitch (on_escape kb s) = o_pitch s
  /\ o_yaw (on_escape kb s) = o_yaw s
  /\ g_pCamera (on_escape kb s) = g_pCamera s.
Proof. block; repeat split. Qed.

Lemma on_forward_effect (kb : Keyboard) (d : R) (s : State) :
  settings_of (on_forward kb d s) = settings_of s
  /\ o_pitch (on_forward kb d s)
     = (if pressed kb (key_forward (layout (settings_of s)))
           && orthographic (settings_of s)
        then wrap_angle (o_pitch s + d * orbitScalar (settings_of s))
        else o_pitch s)
  /\ o_yaw (on_forward kb d s) = o_yaw s.
Proof.
  cbn. unfold on_forward, move_camera.
  destruct (pressed kb (gkey_forward s)); cbn; [| repeat split].
  destruct (bOrthographicProjection s); repeat split.
Qed.

Lemma on_backward_effect (kb : Keyboard) (d : R) (s : State) :
  settings_of (on_backward kb d s) = settings_of s
  /\ o_pitch (on_backward kb d s)
     = (if pressed kb (key_backward (layout (settings_of s)))
           && orthographic (settings_of s)
        then wrap_angle (o_pitch s - d * orbitScalar (settings_of s))
        else o_pitch s)
  /\ o_yaw (on_backward kb d s) = o_yaw s.
Proof.
  cbn. unfold on_backward, move_camera.
  destruct (pressed kb (gkey_backward s)); cbn; [| repeat split].
  destruct (bOrthographicProjection s); repeat split.
Qed.

Lemma on_left_effect (kb : Keyboard) (d : R) (s : State) :
  settings_of (on_left kb d s) = settings_of s
  /\ o_pitch (on_left kb d s) = o_pitch s
  /\ o_yaw (on_left kb d s)
     = (if pressed kb (key_left (layout (settings_of s)))
           && orthographic (settings_of s)
        then wrap_angle (o_yaw s - d * orbitScalar (settings_of s))
        else o_yaw s).
Proof.
  cbn. unfold on_left, move_camera.
  destruct (pressed kb (gkey_left s)); cbn; [| repeat split].
  destruct (bOrthographicProjection s); repeat split.
Qed.

Lemma on_right_effect (kb : Keyboard) (d : R) (s : State) :
  settings_of (on_right kb d s) = settings_of s
  /\ o_pitch (on_right kb d s) = o_pitch s
  /\ o_yaw (on_right kb d s)
     = (if pressed kb (key_right (layout (settings_of s)))
           && orthographic (settings_of s)
        then wrap_angle (o_yaw s + d * orbitScalar (settings_of s))
        else o_yaw s).
Proof.
  cbn. unfold on_right, move_camera.
  destruct (pressed kb (gkey_right s)); cbn; [| repeat split].
  destruct (bOrthographicProjection s); repeat split.
Qed.

Lemma on_up_effect (kb : Keyboard) (d : R) (s : State) :
  settings_of (on_up kb d s) = settings_of s
  /\ o_pitch (on_up kb d s) = o_pitch s
  /\ o_yaw (on_up kb d s) = o_yaw s.
Proof. block; repeat split. Qed.

Lemma on_down_effect (kb : Keyboard) (d : R) (s : State) :
  settings_of (on_down kb d s) = settings_of s
  /\ o_pitch (on_down kb d s) = o_pitch s
  /\ o_yaw (on_down kb d s) = o_yaw s.
Proof. block; repeat split. Qed.

(** The movement keys together: the settings stay, the angles follow the
    four direction keys. *)
Lemma movement_keys_effect (kb : Keyboard) (s : State) :
  settings_of (movement_keys kb s) = settings_of s
  /\ o_pitch (movement_keys kb s) = pitch_after_movement kb s
  /\ o_yaw (movement_keys kb s) = yaw_after_movement kb s.
Proof.
  unfold movement_keys. cbv zeta.
  set (d := gDeltaTime s * p_scalar s).
  destruct (on_escape_effect kb s) as (E1 & P1 & Y1 & _).
  set (s1 := on_escape kb s) in *.
  destruct (on_forward_effect kb d s1) as (E2 & P2 & Y2).
  set (s2 := on_forward kb d s1) in *.
  destruct (on_backward_effect kb d s2) as (E3 & P3 & Y3).
  set (s3 := on_backward kb d s2) in *.
  destruct (on_left_effect kb d s3) as (E4 & P4 & Y4).
  set (s4 := on_left kb d s3) in *.
  destruct (on_right_effect kb d s4) as (E5 & P5 & Y5).
  set (s5 := on_right kb d s4) in *.
  destruct (on_up_effect kb d s5) as (E6 & P6 & Y6).
  set (s6 := on_up kb d s5) in *.
  destruct (on_down_effect kb d s6) as (E7 & P7 & Y7).
  rewrite E1 in E2. rewrite E2 in E3. rewrite E3 in E4. rewrite E4 in E5.
  rewrite E5 in E6. rewrite E6 in E7.
  split; [exact E7 |]. split.
  - rewrite P7, P6, P5, P4, P3, P2, P1, E2, E1.
    unfold pitch_after_movement, d. cbn.
    repeat rewrite Rmult_assoc. reflexivity.
  - rewrite Y7, Y6, Y5, Y4, Y3, Y2, Y1, E4, E3.
    unfold yaw_after_movement, d. cbn.
    repeat rewrite Rmult_assoc. reflexivity.
Qed.

Lemma settings_fields (s s0 : State) :
  settings_of s = settings_of s0 ->
  m_pShaderManager s = m_pShaderManager s0
  /\ p_scalar s = p_scalar s0
  /\ gDeltaTime s = gDeltaTime s0
  /\ bOrthographicProjection s = bOrthographicProjection s0
  /\ o_camera_position s = o_camera_position s0
  /\ o_radius s = o_radius s0
  /\ o_scalar s = o_scalar s0
  /\ layout_of s = layout_of s0
  /\ gkey_layout s = gkey_layout s0
  /\ bcolemak_layout s = bcolemak_layout s0.
Proof.
  unfold settings_of, layout_of. intros Heq.
  injection Heq as -> _ _ _ _ -> -> _ -> -> -> -> -> -> -> -> -> -> -> ->.
  repeat split.
Qed.

(** The mode keys and the layout key. *)

Lemma on_perspective_key_effect (kb : Keyboard) (s : State) :
  orbit_of (on_perspective_key kb s) = orbit_of s
  /\ layout_of (on_perspective_key kb s) = layout_of s
  /\ m_pShaderManager (on_perspective_key kb s) = m_pShaderManager s
  /\ bOrthographicProjection (on_perspective_key kb s)
     = negb (pressed kb GLFW_KEY_P) && bOrthographicProjection s
  /\ (if pressed kb GLFW_KEY_P
      then default_pose (g_pCamera (on_perspective_key kb s))
           /\ Zoom (g_pCamera (on_perspective_key kb s)) = Zoom (g_pCamera s)
      else g_pCamera (on_perspective_key kb s) = g_pCamera s).
Proof.
  unfold on_perspective_key, default_pose.
  destruct (pressed kb GLFW_KEY_P); cbn; repeat split.
Qed.

Lemma on_orthographic_key_effect (kb : Keyboard) (s : State) :
  g_pCamera (on_orthographic_key kb s) = g_pCamera s
  /\ layout_of (on_orthographic_key kb s) = layout_of s
  /\ m_pShaderManager (on_orthographic_key kb s) = m_pShaderManager s
  /\ o_radius (on_orthographic_key kb s) = o_radius s
  /\ o_scalar (on_orthographic_key kb s) = o_scalar s
  /\ bOrthographicProjection (on_orthographic_key kb s)
     = pressed kb GLFW_KEY_O || bOrthographicProjection s
  /\ o_yaw (on_orthographic_key kb s)
     = (if pressed kb GLFW_KEY_O then 0 else o_yaw s)
  /\ o_pitch (on_orthographic_key kb s)
     = (if pressed kb GLFW_KEY_O then 0 else o_pitch s).
Proof.
  unfold on_orthographic_key.
  destruct (pressed kb GLFW_KEY_O); cbn; repeat split.
Qed.

Lemma toggle_layout_effect (s : State) :
  beside_layout (toggle_layout s) = beside_layout s
  /\ o_yaw (toggle_layout s) = o_yaw s
  /\ o_pitch (toggle_layout s) = o_pitch s
  /\ layout_of (toggle_layout s)
     = (if bcolemak_layout s then qwerty_layout else colemak_layout).
Proof.
  unfold toggle_layout. destruct (bcolemak_layout s); repeat split.
Qed.

Lemma on_layout_key_effect (kb : Keyboard) (s : State) :
  beside_layout (on_layout_key kb s) = beside_layout s
  /\ o_yaw (on_layout_key kb s) = o_yaw s
  /\ o_pitch (on_layout_key kb s) = o_pitch s
  /\ layout_of (on_layout_key kb s)
     = (if pressed kb (gkey_layout s)
        then if bcolemak_layout s then qwerty_layout else colemak_layout
        else layout_of s).
Proof.
  unfold on_layout_key.
  destruct (pressed kb (gkey_layout s)); [apply toggle_layout_effect |].
  repeat split.
Qed.

Lemma beside_layout_fields (s s0 : State) :
  beside_layout s = beside_layout s0 ->
  m_pShaderManager s = m_pShaderManager s0
  /\ g_pCamera s = g_pCamera s0
  /\ bOrthographicProjection s = bOrthographicProjection s0
  /\ o_radius s = o_radius s0
  /\ o_scalar s = o_scalar s0.
Proof.
  unfold beside_layout. intros Heq.
  injection Heq as -> _ -> _ _ _ _ _ _ _ -> _ -> _ _ ->.
  repeat split.
Qed.

(** One whole call of [ProcessKeyboardEvents], field by field. *)
Lemma ProcessKeyboardEvents_effect (kb : Keyboard) (s : State) :
  let s' := ProcessKeyboardEvents kb s in
  m_pShaderManager s' = m_pShaderManager s
  /\ o_radius s' = o_radius s
  /\ o_scalar s' = o_scalar s
  /\ bOrthographicProjection s'
     = pressed kb GLFW_KEY_O
       || negb (pressed kb GLFW_KEY_P) && bOrthographicProjection s
  /\ o_pitch s' = (if pressed kb GLFW_KEY_O then 0
                   else pitch_after_movement kb s)
  /\ o_yaw s' = (if pressed kb GLFW_KEY_O then 0
                 else yaw_after_movement kb s)
  /\ layout_of s'
     = (if pressed kb (gkey_layout s)
        then if bcolemak_layout s then qwerty_layout else colemak_layout
        else layout_of s)
  /\ (if pressed kb GLFW_KEY_P then default_pose (g_pCamera s')
      else g_pCamera s' = g_pCamera (movement_keys kb s)).
Proof.
  cbv zeta. rewrite ProcessKeyboardEvents_phases.
  destruct (movement_keys_effect kb s) as (Em & Pm & Ym).
  destruct (settings_fields _ _ Em)
    as (Msm & _ & _ & Mo & _ & Mr & Msc & Ml & Mk & Mc).
  set (m := movement_keys kb s) in *.
  destruct (on_perspective_key_effect kb m) as (Po & Pl & Psm & Pf & Pc).
  set (p := on_perspective_key kb m) in *.
  destruct (on_orthographic_key_effect kb p)
    as (Oc & Ol & Osm & Or & Osc & Of & Oy & Op).
  set (o := on_orthographic_key kb p) in *.
  destruct (on_layout_key_effect kb o) as (Lb & Ly & Lp & Ll).
  destruct (beside_layout_fields _ _ Lb) as (Lsm & Lc & Lf & Lr & Lsc).
  unfold orbit_of in Po.
  injection Po as _ Pr Py Pp Psc.
  assert (Hko : gkey_layout o = gkey_layout s /\
                bcolemak_layout o = bcolemak_layout s).
  { unfold layout_of in Ol, Pl, Ml.
    injection Ol as -> _ _ _ _ _ _ ->. injection Pl as -> _ _ _ _ _ _ ->.
    injection Ml as -> _ _ _ _ _ _ ->. split; reflexivity. }
  destruct Hko as (Hk & Hc).
  repeat split.
  - congruence.
  - congruence.
  - congruence.
  - rewrite Lf, Of, Pf, Mo. reflexivity.
  - rewrite Lp, Op, Pp, Pm. reflexivity.
  - rewrite Ly, Oy, Py, Ym. reflexivity.
  - rewrite Ll, Hk, Hc, Ol, Pl, Ml. reflexivity.
  - rewrite Lc, Oc. destruct (pressed kb GLFW_KEY_P); [apply Pc | exact Pc].
Qed.

(** ** Mode switch *)

(** C2, as the code has it: the block of the perspective key P sets
    [bOrthographicProjection] to false and puts the perspective camera
    at Position (0,5,12), Front (0,-0.5,-2), Up (0,1,0); the block of the
    orthographic key O sets the flag to true and puts the orbit camera at
    o_yaw = 0, o_pitch = 0.  The values written are constants: the P
    block neither reads nor writes the orbit camera, the O block neither
    reads nor writes the perspective camera.  For a whole call of
    [ProcessKeyboardEvents] the O block runs after the P block: with P
    held the pose at the end is the default one and the flag is false
    exactly when O is not held in the same call, and true when it is;
    with O held the flag is true and both angles are 0, whether or not P
    is held. *)
Theorem mode_keys_reset (kbP kbO : Keyboard) (s : State) :
  pressed kbP GLFW_KEY_P = true ->
  pressed kbO GLFW_KEY_O = true ->
  (bOrthographicProjection (on_perspective_key kbP s) = false
   /\ Position (g_pCamera (on_perspective_key kbP s)) = mkVec3 0 5 12
   /\ Front (g_pCamera (on_perspective_key kbP s)) = mkVec3 0 (-0.5) (-2)
   /\ Up (g_pCamera (on_perspective_key kbP s)) = mkVec3 0 1 0
   /\ orbit_of (on_perspective_key kbP s) = orbit_of s)
  /\ (bOrthographicProjection (on_orthographic_key kbO s) = true
      /\ o_yaw (on_orthographic_key kbO s) = 0
      /\ o_pitch (on_orthographic_key kbO s) = 0
      /\ g_pCamera (on_orthographic_key kbO s) = g_pCamera s)
  /\ (default_pose (g_pCamera (ProcessKeyboardEvents kbP s))
      /\ bOrthographicProjection (ProcessKeyboardEvents kbP s)
         = pressed kbP GLFW_KEY_O)
  /\ (bOrthographicProjection (ProcessKeyboardEvents kbO s) = true
      /\ o_yaw (ProcessKeyboardEvents kbO s) = 0
      /\ o_pitch (ProcessKeyboardEvents kbO s) = 0).
Proof.
  intros HP HO.
  destruct (on_perspective_key_effect kbP s) as (Po & _ & _ & Pf & Pc).
  destruct (on_orthographic_key_effect kbO s)
    as (Oc & _ & _ & _ & _ & Of & Oy & Op).
  destruct (ProcessKeyboardEvents_effect kbP s)
    as (_ & _ & _ & SPf & _ & _ & _ & SPc).
  destruct (ProcessKeyboardEvents_effect kbO s)
    as (_ & _ & _ & SOf & SOp & SOy & _ & _).
  rewrite HP in *. rewrite HO in *.
  destruct Pc as ((Hpos & Hfront & Hup) & _).
  repeat split; try assumption; try apply SPc.
  rewrite SPf. cbn. apply orb_false_r.
Qed.

(** ** Orbit angles *)


Lemma ProcessKeyboardEvents_angles (kb : Keyboard) (s : State) :
  angles_in_range s -> angles_in_range (ProcessKeyboardEvents kb s).
Proof.
  intros (Hy & Hp).
  destruct (ProcessKeyboardEvents_effect kb s)
    as (_ & _ & _ & _ & Sp & Sy & _ & _).
  unfold angles_in_range. rewrite Sp, Sy.
  unfold pitch_after_movement, yaw_after_movement. cbv zeta.
  split.
  - destruct (pressed kb GLFW_KEY_O); [unfold angle_in_range; lra |].
    destruct (pressed kb (gkey_right s) && bOrthographicProjection s);
      [apply wrap_angle_in_range |].
    destruct (pressed kb (gkey_left s) && bOrthographicProjection s);
      [apply wrap_angle_in_range | exact Hy].
  - destruct (pressed kb GLFW_KEY_O); [unfold angle_in_range; lra |].
    destruct (pressed kb (gkey_backward s) && bOrthographicProjection s);
      [apply wrap_angle_in_range |].
    destruct (pressed kb (gkey_forward s) && bOrthographicProjection s);
      [apply wrap_angle_in_range | exact Hp].
Qed.

(** ** Keyboard layout *)

(** C6: the layout toggle only swaps the table of key codes and is an
    involution.  From either layout state, one press of the layout key
    leaves everything but the seven key codes and [bcolemak_layout] as
    it was, installs the other layout's table and flips the flag; two
    toggles give back the very state they started from, and two calls of
    [ProcessKeyboardEvents] with the (then current) layout key held give
    back the original key table and flag. *)
Theorem layout_toggle_involution (kb1 kb2 : Keyboard) (s : State) :
  layout_of s = qwerty_layout \/ layout_of s = colemak_layout ->
  pressed kb1 (gkey_layout s) = true ->
  pressed kb2 (gkey_layout (ProcessKeyboardEvents kb1 s)) = true ->
  beside_layout (on_layout_key kb1 s) = beside_layout s
  /\ layout_of (on_layout_key kb1 s)
     = (if bcolemak_layout s then qwerty_layout else colemak_layout)
  /\ bcolemak_layout (on_layout_key kb1 s) = negb (bcolemak_layout s)
  /\ toggle_layout (toggle_layout s) = s
  /\ layout_of (ProcessKeyboardEvents kb1 s)
     = (if bcolemak_layout s then qwerty_layout else colemak_layout)
  /\ layout_of (ProcessKeyboardEvents kb2 (ProcessKeyboardEvents kb1 s))
     = layout_of s.
Proof.
  intros Hlayout H1 H2.
  destruct (on_layout_key_effect kb1 s) as (Lb & _ & _ & Ll).
  destruct (ProcessKeyboardEvents_effect kb1 s)
    as (_ & _ & _ & _ & _ & _ & S1 & _).
  destruct (ProcessKeyboardEvents_effect kb2 (ProcessKeyboardEvents kb1 s))
    as (_ & _ & _ & _ & _ & _ & S2 & _).
  rewrite H1 in Ll, S1. rewrite H2 in S2.
  assert (Hflag : bcolemak_layout (ProcessKeyboardEvents kb1 s)
                  = negb (bcolemak_layout s)).
  { change (colemak (layout_of (ProcessKeyboardEvents kb1 s))
            = negb (bcolemak_layout s)).
    rewrite S1. destruct (bcolemak_layout s); reflexivity. }
  assert (Hself : layout_of s
                  = if bcolemak_layout s then colemak_layout else qwerty_layout).
  { change (bcolemak_layout s) with (colemak (layout_of s)).
    destruct Hlayout as [-> | ->]; reflexivity. }
  repeat split; try assumption.
  - change (colemak (layout_of (on_layout_key kb1 s))
            = negb (bcolemak_layout s)).
    rewrite Ll. destruct (bcolemak_layout s); reflexivity.
  - destruct s as [sm wc cam lx ly fm ms ps dt lf ortho pos rad yaw pitch osc
                   col kf kb kl kr ku kd ky].
    unfold layout_of in Hlayout. cbn in Hlayout.
    destruct Hlayout as [Heq | Heq]; injection Heq as -> -> -> -> -> -> -> ->;
      reflexivity.
  - rewrite S2, Hflag, Hself. destruct (bcolemak_layout s); reflexivity.
Qed.

(** ** Mouse callbacks and frames *)

Lemma Mouse_Scroll_Wheel_Callback_effect (xOffset yOffset : R) (s : State) :
  g_pCamera (Mouse_Scroll_Wheel_Callback xOffset yOffset s) = g_pCamera s
  /\ orbit_of (Mouse_Scroll_Wheel_Callback xOffset yOffset s) = orbit_of s
  /\ m_scalar (Mouse_Scroll_Wheel_Callback xOffset yOffset s)
     = limit_scalar (m_scalar s + yOffset)
  /\ p_scalar (Mouse_Scroll_Wheel_Callback xOffset yOffset s)
     = limit_scalar (p_scalar s + xOffset).
Proof. repeat split. Qed.

Lemma Mouse_Position_Callback_effect (xMousePos yMousePos : R) (s : State) :
  (o_radius (Mouse_Position_Callback xMousePos yMousePos s) = o_radius s
   /\ o_yaw (Mouse_Position_Callback xMousePos yMousePos s) = o_yaw s
   /\ o_pitch (Mouse_Position_Callback xMousePos yMousePos s) = o_pitch s)
  /\ g_pCamera (Mouse_Position_Callback xMousePos yMousePos s)
     = ProcessMouseMovement (fst (mouse_offsets xMousePos yMousePos s))
         (snd (mouse_offsets xMousePos yMousePos s)) (g_pCamera s).
Proof.
  unfold Mouse_Position_Callback, mouse_offsets.
  destruct (gFirstMouse s); cbn; repeat split.
  unfold Rminus. rewrite !Rplus_opp_r. reflexivity.
Qed.

Lemma begin_frame_effect (currentFrame : R) (kb : Keyboard) (s : State) :
  let s' := begin_frame currentFrame kb s in
  m_pShaderManager s' = m_pShaderManager s
  /\ o_radius s' = o_radius s
  /\ bOrthographicProjection s'
     = pressed kb GLFW_KEY_O
       || negb (pressed kb GLFW_KEY_P) && bOrthographicProjection s
  /\ (angles_in_range s -> angles_in_range s').
Proof.
  cbv zeta. unfold begin_frame. cbv zeta.
  set (t := set_gLastFrame currentFrame
              (set_gDeltaTime (currentFrame - gLastFrame s) s)).
  destruct (ProcessKeyboardEvents_effect kb t)
    as (Hsm & Hr & _ & Hf & _).
  split; [exact Hsm |]. split; [exact Hr |]. split; [exact Hf |].
  intros Hin. apply ProcessKeyboardEvents_angles. exact Hin.
Qed.

Lemma scene_matrices_effect (s : State) :
  m_pShaderManager (fst (scene_matrices s)) = m_pShaderManager s
  /\ g_pCamera (fst (scene_matrices s)) = g_pCamera s
  /\ bOrthographicProjection (fst (scene_matrices s))
     = bOrthographicProjection s
  /\ o_radius (fst (scene_matrices s)) = o_radius s
  /\ o_yaw (fst (scene_matrices s)) = o_yaw s
  /\ o_pitch (fst (scene_matrices s)) = o_pitch s
  /\ o_camera_position (fst (scene_matrices s))
     = (if bOrthographicProjection s
        then spherical (o_yaw s) (o_pitch s) (o_radius s)
        else o_camera_position s).
Proof.
  unfold scene_matrices.
  destruct (bOrthographicProjection s) eqn:Hortho; cbn; repeat split;
    assumption.
Qed.

Lemma send_uniforms_effect (view projection : mat4) (s : State) :
  g_pCamera (send_uniforms view projection s) = g_pCamera s
  /\ bOrthographicProjection (send_uniforms view projection s)
     = bOrthographicProjection s
  /\ orbit_of (send_uniforms view projection s) = orbit_of s.
Proof.
  unfold send_uniforms. destruct (m_pShaderManager s); repeat split.
Qed.

Lemma PrepareSceneView_unfold (currentFrame : R) (kb : Keyboard) (s : State) :
  PrepareSceneView currentFrame kb s
  = send_uniforms
      (fst (snd (scene_matrices (begin_frame currentFrame kb s))))
      (snd (snd (scene_matrices (begin_frame currentFrame kb s))))
      (fst (scene_matrices (begin_frame currentFrame kb s))).
Proof.
  unfold PrepareSceneView. cbv zeta.
  destruct (scene_matrices (begin_frame currentFrame kb s)) as [s' [v p]].
  reflexivity.
Qed.

Lemma PrepareSceneView_effect (currentFrame : R) (kb : Keyboard) (s : State) :
  let s' := PrepareSceneView currentFrame kb s in
  o_radius s' = o_radius s
  /\ (angles_in_range s -> angles_in_range s')
  /\ o_camera_position s'
     = (if bOrthographicProjection s'
        then spherical (o_yaw s') (o_pitch s') (o_radius s')
        else o_camera_position (begin_frame currentFrame kb s)).
Proof.
  cbv zeta. rewrite PrepareSceneView_unfold.
  set (b := begin_frame currentFrame kb s).
  destruct (begin_frame_effect currentFrame kb s) as (_ & Br & _ & Ba).
  fold b in Br, Ba.
  destruct (scene_matrices_effect b) as (_ & _ & Mf & Mr & My & Mp & Mpos).
  set (m := fst (scene_matrices b)) in *.
  destruct (send_uniforms_effect (fst (snd (scene_matrices b)))
              (snd (snd (scene_matrices b))) m) as (_ & Uf & Uo).
  unfold orbit_of in Uo. injection Uo as Upos Ur Uy Up _.
  split; [congruence |]. split.
  - intros Hin. unfold angles_in_range.
    rewrite Uy, Up, My, Mp. apply Ba, Hin.
  - rewrite Upos, Uf, Ur, Uy, Up, Mpos, Mf, Mr, My, Mp. reflexivity.
Qed.

Lemma step_o_radius (e : Event) (s : State) : o_radius (step e s) = o_radius s.
Proof.
  destruct e as [kb | xMousePos yMousePos | xOffset yOffset | currentFrame kb];
    cbn [step].
  - apply ProcessKeyboardEvents_effect.
  - apply Mouse_Position_Callback_effect.
  - reflexivity.
  - apply PrepareSceneView_effect.
Qed.

Lemma step_angles (e : Event) (s : State) :
  angles_in_range s -> angles_in_range (step e s).
Proof.
  destruct e as [kb | xMousePos yMousePos | xOffset yOffset | currentFrame kb];
    cbn [step].
  - apply ProcessKeyboardEvents_angles.
  - destruct (Mouse_Position_Callback_effect xMousePos yMousePos s)
      as ((_ & Hy & Hp) & _).
    unfold angles_in_range. rewrite Hy, Hp. trivial.
  - trivial.
  - apply PrepareSceneView_effect.
Qed.

Lemma run_o_radius (es : list Event) (s : State) :
  o_radius (run es s) = o_radius s.
Proof.
  revert s. induction es as [| e es IH]; intros s; [reflexivity |].
  cbn [run fold_left]. fold (run es (step e s)).
  rewrite IH. apply step_o_radius.
Qed.

(** The interval is an invariant of every run from the initial state. *)
Lemma run_angles (es : list Event) (pShaderManager : option ShaderManager) :
  angles_in_range (run es (ViewManager_new pShaderManager)).
Proof.
  assert (Hgen : forall s : State,
             angles_in_range s -> angles_in_range (run es s)).
  { induction es as [| e es IH]; intros s Hs; [exact Hs |].
    cbn [run fold_left]. fold (run es (step e s)).
    apply IH, step_angles, Hs. }
  apply Hgen. unfold angles_in_range, angle_in_range. cbn. lra.
Qed.

(** ** The interval of the orbit angles *)

(** What [wrap_angle] leaves, as the four facts of a clamp. *)
Ltac clamp :=
  match goal with
  | |- context [wrap_angle ?a] =>
      let H1 := fresh "Habove" in let H2 := fresh "Hbelow" in
      let H3 := fresh "Hbetween" in let H4 := fresh "Hrange" in
      destruct (wrap_angle_boundary a) as (H1 & H2 & H3);
      pose proof (wrap_angle_in_range a) as H4;
      split; [exact H1 | split; [exact H2 | split; [exact H3 | exact H4]]]
  end.

(** C8: every call of [ProcessKeyboardEvents] keeps o_yaw and o_pitch in
    the closed interval [0, 360], provided they are in it on entry, and
    so they are in it after any sequence of events from the initial
    values 0.  The four key handlers that change an angle clamp what
    they write: in orthographic mode with its key held, each handler
    leaves 0 where the sum is above 360, 359.9 where the sum is below 0,
    and the sum itself otherwise, whatever the angle was on entry. *)
Theorem angles_stay_in_range (kb : Keyboard) (s : State) :
  (0 <= o_yaw s <= 360 ->
   0 <= o_pitch s <= 360 ->
   0 <= o_yaw (ProcessKeyboardEvents kb s) <= 360
   /\ 0 <= o_pitch (ProcessKeyboardEvents kb s) <= 360)
  /\ (forall (pShaderManager : option ShaderManager) (es : list Event),
         0 <= o_yaw (run es (ViewManager_new pShaderManager)) <= 360
         /\ 0 <= o_pitch (run es (ViewManager_new pShaderManager)) <= 360)
  /\ (forall delta_scaled : R,
         bOrthographicProjection s = true ->
         let clamped (sum angle : R) : Prop :=
           (360 < sum -> angle = 0)
           /\ (sum < 0 -> angle = 359.9)
           /\ (0 <= sum <= 360 -> angle = sum)
           /\ 0 <= angle <= 360 in
         (pressed kb (gkey_forward s) = true ->
          clamped (o_pitch s + delta_scaled * o_scalar s)
            (o_pitch (on_forward kb delta_scaled s)))
         /\ (pressed kb (gkey_backward s) = true ->
             clamped (o_pitch s - delta_scaled * o_scalar s)
               (o_pitch (on_backward kb delta_scaled s)))
         /\ (pressed kb (gkey_left s) = true ->
             clamped (o_yaw s - delta_scaled * o_scalar s)
               (o_yaw (on_left kb delta_scaled s)))
         /\ (pressed kb (gkey_right s) = true ->
             clamped (o_yaw s + delta_scaled * o_scalar s)
               (o_yaw (on_right kb delta_scaled s)))).
Proof.
  split; [| split].
  - intros Hy Hp. apply ProcessKeyboardEvents_angles. split; assumption.
  - intros pShaderManager es. apply run_angles.
  - intros d Hortho. cbv zeta.
    destruct (on_forward_effect kb d s) as (_ & F & _).
    destruct (on_backward_effect kb d s) as (_ & B & _).
    destruct (on_left_effect kb d s) as (_ & _ & L).
    destruct (on_right_effect kb d s) as (_ & _ & Rt).
    cbn in F, B, L, Rt. rewrite Hortho, !andb_true_r in F, B, L, Rt.
    split; [| split; [| split]]; intros Hkey.
    + rewrite Hkey in F. rewrite F. clamp.
    + rewrite Hkey in B. rewrite B. clamp.
    + rewrite Hkey in L. rewrite L. clamp.
    + rewrite Hkey in Rt. rewrite Rt. clamp.
Qed.

(** ** The orbit radius *)

(** C9: no operation assigns to [o_radius].  Every event (keyboard
    processing, mouse movement, scroll wheel, frame preparation) leaves
    it as it was, so after any sequence of events from the initial state
    it is still 10; keyboard processing changes the angles but neither
    the radius nor the orbit speed; whenever the orbit position is
    recomputed it lies at distance 10 from the origin, and so does the
    position left by every frame prepared in orthographic mode. *)
Theorem o_radius_never_changes :
  (forall (e : Event) (s : State), o_radius (step e s) = o_radius s)
  /\ (forall (kb : Keyboard) (s : State),
         o_radius (ProcessKeyboardEvents kb s) = o_radius s
         /\ o_scalar (ProcessKeyboardEvents kb s) = o_scalar s)
  /\ (forall (pShaderManager : option ShaderManager) (es : list Event),
         o_radius (run es (ViewManager_new pShaderManager)) = 10)
  /\ (forall (pShaderManager : option ShaderManager) (es : list Event),
         length (o_camera_position
                   (update_o_camera_position
                      (run es (ViewManager_new pShaderManager)))) = 10)
  /\ (forall (pShaderManager : option ShaderManager) (es : list Event)
             (currentFrame : R) (kb : Keyboard),
         let s' := PrepareSceneView currentFrame kb
                     (run es (ViewManager_new pShaderManager)) in
         bOrthographicProjection s' = true ->
         length (o_camera_position s') = 10).
Proof.
  split; [exact step_o_radius |].
  split; [intros kb s; split; apply ProcessKeyboardEvents_effect |].
  split; [intros p es; rewrite run_o_radius; reflexivity |].
  split.
  - intros p es. rewrite update_o_camera_position_spherical.
    rewrite spherical_length; rewrite run_o_radius; cbn; [reflexivity | lra].
  - intros p es currentFrame kb s' Hortho.
    destruct (PrepareSceneView_effect currentFrame kb
                (run es (ViewManager_new p))) as (Hr & _ & Hpos).
    fold s' in Hr, Hpos. rewrite Hortho in Hpos. rewrite Hpos.
    rewrite spherical_length; rewrite Hr, run_o_radius; cbn;
      [reflexivity | lra].
Qed.

(** ** View and projection *)

(** C1: each call of [PrepareSceneView] selects one of two hardcoded
    constructions by [bOrthographicProjection], read after the keyboard
    has been processed.  With the flag set, the view is a lookAt from
    the orbit position (the Cartesian image of o_yaw, o_pitch, o_radius)
    to the origin with up (0,1,0), and the projection is the orthographic
    frustum with bounds -+ WINDOW_WIDTH * 0.02 and -+ WINDOW_HEIGHT * 0.02
    between 0.1 and 100.  With the flag clear, the view is the camera's
    view matrix and the projection is the perspective one for
    radians(Zoom), aspect WINDOW_WIDTH / WINDOW_HEIGHT, between 0.1 and
    100.  When there is a shader manager, it is sent exactly these two
    matrices and the camera position. *)
Theorem PrepareSceneView_selects_matrices
  (currentFrame : R) (kb : Keyboard) (s : State) :
  let s1 := begin_frame currentFrame kb s in
  let view :=
    if bOrthographicProjection s1
    then lookAt (mkVec3
                   (cos (radians (o_yaw s1)) * cos (radians (o_pitch s1))
                    * o_radius s1)
                   (sin (radians (o_pitch s1)) * o_radius s1)
                   (sin (radians (o_yaw s1)) * cos (radians (o_pitch s1))
                    * o_radius s1))
                (mkVec3 0 0 0) (mkVec3 0 1 0)
    else GetViewMatrix (g_pCamera s1) in
  let projection :=
    if bOrthographicProjection s1
    then ortho (- (IZR WINDOW_WIDTH * 0.02)) (IZR WINDOW_WIDTH * 0.02)
               (- (IZR WINDOW_HEIGHT * 0.02)) (IZR WINDOW_HEIGHT * 0.02)
               0.1 100
    else perspective (radians (Zoom (g_pCamera s1)))
                     (IZR WINDOW_WIDTH / IZR WINDOW_HEIGHT) 0.1 100 in
  snd (scene_matrices s1) = (view, projection)
  /\ m_pShaderManager (PrepareSceneView currentFrame kb s)
     = option_map
         (fun sent =>
            sent ++ [setMat4Value "view" view;
                     setMat4Value "projection" projection;
                     setVec3Value "viewPosition" (Position (g_pCamera s1))])
         (m_pShaderManager s)
  /\ bOrthographicProjection s1
     = pressed kb GLFW_KEY_O
       || negb (pressed kb GLFW_KEY_P) && bOrthographicProjection s.
Proof.
  cbv zeta. rewrite PrepareSceneView_unfold.
  destruct (begin_frame_effect currentFrame kb s) as (Bsm & _ & Bf & _).
  set (s1 := begin_frame currentFrame kb s) in *.
  destruct (scene_matrices_effect s1) as (Msm & Mc & _).
  assert (Hm : snd (scene_matrices s1)
               = (if bOrthographicProjection s1
                  then lookAt (spherical (o_yaw s1) (o_pitch s1) (o_radius s1))
                         (mkVec3 0 0 0) (mkVec3 0 1 0)
                  else GetViewMatrix (g_pCamera s1),
                  if bOrthographicProjection s1
                  then ortho (- (IZR WINDOW_WIDTH * 0.02))
                         (IZR WINDOW_WIDTH * 0.02)
                         (- (IZR WINDOW_HEIGHT * 0.02))
                         (IZR WINDOW_HEIGHT * 0.02) 0.1 100
                  else perspective (radians (Zoom (g_pCamera s1)))
                         (IZR WINDOW_WIDTH / IZR WINDOW_HEIGHT) 0.1 100)).
  { unfold scene_matrices, ortho_scale.
    destruct (bOrthographicProjection s1); cbn [snd]; [| reflexivity].
    rewrite update_o_camera_position_spherical.
    replace (IZR WINDOW_WIDTH * -1 * 0.02)
      with (- (IZR WINDOW_WIDTH * 0.02)) by ring.
    replace (IZR WINDOW_HEIGHT * -1 * 0.02)
      with (- (IZR WINDOW_HEIGHT * 0.02)) by ring.
    reflexivity. }
  split; [exact Hm |]. split; [| exact Bf].
  unfold send_uniforms. rewrite Msm, Mc, Bsm, Hm. cbn [fst snd].
  destruct (m_pShaderManager s) as [sent |]; [reflexivity |].
  cbn [option_map]. rewrite Msm. exact Bsm.
Qed.

(** ** Mouse input and the zoom *)

(** Whatever the camera class does on a mouse movement decides what a
    mouse event does to the zoom: the controller itself never assigns
    it. *)
Lemma mouse_event_keeps_zoom (e : Event) (s : State) :
  (forall (xoffset yoffset : R) (c : Camera),
      Zoom (ProcessMouseMovement xoffset yoffset c) = Zoom c) ->
  mouse_event e = true ->
  Zoom (g_pCamera (step e s)) = Zoom (g_pCamera s).
Proof.
  intros Hlibrary Hmouse.
  destruct e as [kb | xMousePos yMousePos | xOffset yOffset | currentFrame kb];
    try discriminate Hmouse; cbn [step].
  - destruct (Mouse_Position_Callback_effect xMousePos yMousePos s)
      as (_ & Hmove).
    rewrite Hmove. apply Hlibrary.
  - reflexivity.
Qed.

End Facts.
End ViewManagerFacts.

(** * The controller with the camera of the specification *)

Module CameraFacts.

Import Glm GLFW ViewManager ViewManagerFacts Reference.

#[local] Abbreviation State := (State (mat4 := matrix)).



End CameraFacts.

(** * Properties of the scene manager *)

Module SceneManagerFacts.

Import Glm SceneManager.

(** ** Material lookup *)

Lemma skipn_nth_error {A : Type} (l : list A) (i : nat) (a : A) :
  nth_error l i = Some a -> skipn i l = a :: skipn (S i) l.
Proof.
  revert i. induction l as [| b l IH]; intros [| i] Hnth; cbn in *;
    try discriminate.
  - injection Hnth as ->. reflexivity.
  - apply IH, Hnth.
Qed.

(** The loop stops at the first entry at or after [index] whose tag is
    the wanted one, and then copies from it; otherwise it runs off the
    end of the list without touching the output parameter. *)
Lemma FindMaterial_loop_find (materials : list OBJECT_MATERIAL)
  (wanted : string) (index : nat) (bFound : bool) (material : OBJECT_MATERIAL) :
  FindMaterial_loop materials wanted index bFound material
  = if bFound then material
    else match find (has_tag wanted) (skipn index materials) with
         | Some entry => assign_from entry material
         | None => material
         end.
Proof.
  funelim (FindMaterial_loop materials wanted index bFound material).
  - reflexivity.
  - destruct bFound; [reflexivity |].
    rewrite skipn_all2 by lia. reflexivity.
  - apply nth_error_None in Heq. lia.
  - rewrite H, (skipn_nth_error _ _ _ Heq0). cbn [find].
    change (has_tag wanted entry) with (String.eqb (tag entry) wanted).
    rewrite Heq. reflexivity.
  - rewrite H, (skipn_nth_error _ _ _ Heq0). cbn [find].
    change (has_tag wanted entry) with (String.eqb (tag entry) wanted).
    rewrite Heq. reflexivity.
Qed.

(** C7: [FindMaterial] returns false exactly when the materials list is
    empty.  For a non-empty list it returns true whether or not a tag
    matches; without a match the output parameter is what it was, with a
    match the five value members are copied from the first matching
    entry (and the tag member is not assigned). *)
Theorem FindMaterial_first_match (s : Scene) (wanted : string)
  (material : OBJECT_MATERIAL) :
  FindMaterial s wanted material
  = (match m_objectMaterials s with [] => false | _ :: _ => true end,
     match find (has_tag wanted) (m_objectMaterials s) with
     | Some entry =>
         mkMaterial (tag material) (ambientColor entry)
           (ambientStrength entry) (diffuseColor entry)
           (specularColor entry) (shininess entry)
     | None => material
     end)
  /\ (fst (FindMaterial s wanted material) = false
      <-> m_objectMaterials s = []).
Proof.
  unfold FindMaterial.
  rewrite FindMaterial_loop_find. cbn [skipn].
  destruct (m_objectMaterials s) as [| first rest]; cbn [List.length Nat.eqb].
  - split; [reflexivity | split; reflexivity].
  - split; [reflexivity |]. cbn [fst]. split; discriminate.
Qed.

(** What the caller then does with its local: on a miss in a non-empty
    list it still sends the five uniforms, with whatever the local
    held. *)
Lemma SetShaderMaterial_miss (s : Scene) (materialTag : string)
  (material : OBJECT_MATERIAL) :
  m_objectMaterials s <> [] ->
  find (has_tag materialTag) (m_objectMaterials s) = None ->
  SetShaderMaterial s materialTag material
  = [setVec3Value "material.ambientColor" (ambientColor material);
     setFloatValue "material.ambientStrength" (ambientStrength material);
     setVec3Value "material.diffuseColor" (diffuseColor material);
     setVec3Value "material.specularColor" (specularColor material);
     setFloatValue "material.shininess" (shininess material)].
Proof.
  intros Hnonempty Hmiss. unfold SetShaderMaterial, FindMaterial.
  destruct (m_objectMaterials s) as [| first rest] eqn:Hlist;
    [contradiction |].
  cbn [List.length Nat.ltb Nat.leb Nat.eqb].
  rewrite FindMaterial_loop_find. cbn [skipn]. rewrite Hmiss. reflexivity.
Qed.

End SceneManagerFacts.

(** * The controller and the scene on concrete inputs *)

Module Runs.

Import Glm GLFW ViewManager SceneManager ViewManagerFacts SceneManagerFacts.
Import Reference.

(** Holding P alone in orthographic mode, P together with O, and O
    alone from the initial state. *)
Lemma mode_keys_alone_and_together :
  pressed (holding [GLFW_KEY_P]) GLFW_KEY_P = true
  /\ pressed (holding [GLFW_KEY_P; GLFW_KEY_O]) GLFW_KEY_P = true
  /\ pressed (holding [GLFW_KEY_O]) GLFW_KEY_O = true
  /\ bOrthographicProjection
       (ProcessKeyboardEvents (camera := camera) (holding [GLFW_KEY_P])
          start_orthographic)
     = false
  /\ bOrthographicProjection
       (ProcessKeyboardEvents (camera := camera)
          (holding [GLFW_KEY_P; GLFW_KEY_O]) start_orthographic)
     = true
  /\ bOrthographicProjection
       (ProcessKeyboardEvents (camera := camera) (holding [GLFW_KEY_O]) start)
     = true.
Proof.
  assert (HP : pressed (holding [GLFW_KEY_P]) GLFW_KEY_P = true)
    by reflexivity.
  assert (HPO : pressed (holding [GLFW_KEY_P; GLFW_KEY_O]) GLFW_KEY_P = true)
    by reflexivity.
  assert (HO : pressed (holding [GLFW_KEY_O]) GLFW_KEY_O = true)
    by reflexivity.
  destruct (mode_keys_reset (camera := camera) _ _ start_orthographic HP HO)
    as (_ & _ & (_ & Halone) & _).
  destruct (mode_keys_reset (camera := camera) _ _ start_orthographic HPO HO)
    as (_ & _ & (_ & Htogether) & _).
  destruct (mode_keys_reset (camera := camera) _ _ start HP HO)
    as (_ & _ & _ & (Hortho & _)).
  split; [exact HP |]. split; [exact HPO |]. split; [exact HO |].
  split; [exact Halone |]. split; [exact Htogether | exact Hortho].
Defined.

(** C2 as stated fails: a keyboard-processing step with P held does not
    always end with [bOrthographicProjection] false.  With P and O both
    held, from the initial state, it ends with the flag true. *)
Lemma perspective_key_held_with_orthographic_key :
  ~ (forall (kb : Keyboard) (s : State (mat4 := matrix)),
        pressed kb GLFW_KEY_P = true ->
        bOrthographicProjection (ProcessKeyboardEvents (camera := camera) kb s)
        = false).
Proof.
  intros Hclaim.
  specialize (Hclaim (holding [GLFW_KEY_P; GLFW_KEY_O]) start eq_refl).
  destruct (ProcessKeyboardEvents_effect (camera := camera)
              (holding [GLFW_KEY_P; GLFW_KEY_O]) start)
    as (_ & _ & _ & Hflag & _).
  rewrite Hclaim in Hflag.
  change (pressed (holding [GLFW_KEY_P; GLFW_KEY_O]) GLFW_KEY_O) with true
    in Hflag.
  discriminate Hflag.
Qed.

(** The orbit position computed from the initial angles and radius. *)
Lemma orbit_position_on_sphere_at_start :
  0 <= o_radius start
  /\ length (o_camera_position (update_o_camera_position start)) = 10.
Proof.
  assert (Hr : 0 <= o_radius start) by (cbn; lra).
  split; [exact Hr |].
  apply (orbit_position_on_sphere start Hr).
Defined.


(** C, then Q, from the initial (QWERTY) layout. *)
Lemma layout_toggle_involution_at_start :
  layout_of start = qwerty_layout
  /\ layout_of
       (ProcessKeyboardEvents (camera := camera) (holding [GLFW_KEY_C]) start)
     = colemak_layout
  /\ layout_of
       (ProcessKeyboardEvents (camera := camera) (holding [GLFW_KEY_Q])
          (ProcessKeyboardEvents (camera := camera) (holding [GLFW_KEY_C])
             start))
     = layout_of start.
Proof.
  assert (Hq : layout_of start = qwerty_layout) by reflexivity.
  assert (H1 : pressed (holding [GLFW_KEY_C]) (gkey_layout start) = true)
    by reflexivity.
  assert (H2 : pressed (holding [GLFW_KEY_Q])
                 (gkey_layout
                    (ProcessKeyboardEvents (camera := camera)
                       (holding [GLFW_KEY_C]) start)) = true)
    by reflexivity.
  destruct (layout_toggle_involution (camera := camera) _ _ start
              (or_introl Hq) H1 H2) as (_ & _ & _ & _ & Hone & Htwo).
  split; [exact Hq |]. split; [exact Hone | exact Htwo].
Defined.

(** Holding W (forward) with the pitch at 359.8: the sum, 360.3, is
    above 360, the handler leaves 0, and the angles are in the interval
    after the call. *)
Lemma angles_stay_in_range_near_boundary :
  bOrthographicProjection near_boundary = true
  /\ pressed (holding [GLFW_KEY_W]) (gkey_forward near_boundary) = true
  /\ o_pitch (on_forward (camera := camera) (holding [GLFW_KEY_W])
                (gDeltaTime near_boundary * p_scalar near_boundary)
                near_boundary)
     = 0
  /\ 0 <= o_pitch (ProcessKeyboardEvents (camera := camera)
                     (holding [GLFW_KEY_W]) near_boundary) <= 360.
Proof.
  assert (Hortho : bOrthographicProjection near_boundary = true)
    by reflexivity.
  assert (Hkey : pressed (holding [GLFW_KEY_W]) (gkey_forward near_boundary)
                 = true) by reflexivity.
  assert (Hy : 0 <= o_yaw near_boundary <= 360) by (cbn; lra).
  assert (Hp : 0 <= o_pitch near_boundary <= 360) by (cbn; lra).
  destruct (angles_stay_in_range (glm := matrices) (camera := camera)
              (holding [GLFW_KEY_W]) near_boundary)
    as (Hstep & _ & Hclamp).
  destruct (Hstep Hy Hp) as (_ & Hpitch).
  destruct (Hclamp (gDeltaTime near_boundary * p_scalar near_boundary) Hortho)
    as (Hforward & _).
  destruct (Hforward Hkey) as (Habove & _).
  split; [exact Hortho |]. split; [exact Hkey |]. split; [| exact Hpitch].
  apply Habove. cbn. lra.
Defined.

(** A scroll of one notch up from the initial state: the zoom stays 80,
    the mouse speed goes from 1 to 2. *)
Example scroll_from_start :
  Zoom (g_pCamera (Mouse_Scroll_Wheel_Callback 0 1 start)) = 80
  /\ m_scalar (Mouse_Scroll_Wheel_Callback 0 1 start) = 2.
Proof.
  split; [reflexivity |].
  cbn. unfold limit_scalar.
  destruct (Rlt_dec (1 + 1) 0.01); [lra |].
  destruct (Rgt_dec (1 + 1) 10); lra.
Qed.

(** Looking up a tag that is not among the scene's materials. *)
Example FindMaterial_miss (material : OBJECT_MATERIAL) :
  FindMaterial
    (mkScene [wood_mat; glass_mat; plastic_mat; track_mat; ball_mat; alum_mat;
              crt_mat] [])
    "steel" material
  = (true, material).
Proof.
  destruct (FindMaterial_loop_find
              [wood_mat; glass_mat; plastic_mat; track_mat; ball_mat; alum_mat;
               crt_mat] "steel" 0 false material).
  reflexivity.
Qed.

End Runs.

(** * More about the view manager: inputs, timing and runs *)

Module ControllerFacts.

Import Glm GLFW ViewManager ViewManagerFacts.

(** ** Vocabulary *)

(** [ProcessKeyboard] for a direction whose key is held. *)
Definition moved {mat4 : Type} {camera : CameraLibrary mat4}
  (held : bool) (direction : Camera_Movement) (delta : R) (c : Camera)
  : Camera :=
  if held then ProcessKeyboard direction delta c else c.

(** The number of frames prepared in a sequence of events. *)
Fixpoint frames (es : list Event) : nat :=
  match es with
  | [] => 0
  | FramePrepared _ _ :: es => S (frames es)
  | _ :: es => frames es
  end.

Definition uniform_name {mat4 : Type} (c : ShaderCall (mat4 := mat4)) : string :=
  match c with
  | setMat4Value name _ => name
  | setVec3Value name _ => name
  end.

(** The key codes a state reacts to: the three fixed ones and the seven
    of the current layout. *)
Definition bound_keys {mat4 : Type} (s : State (mat4 := mat4)) : list Z :=
  [GLFW_KEY_ESCAPE; GLFW_KEY_P; GLFW_KEY_O;
   gkey_forward s; gkey_backward s; gkey_left s; gkey_right s;
   gkey_up s; gkey_down s; gkey_layout s].

(** The mouse position, the two speed multipliers and the clock. *)
Definition mouse_and_clock {mat4 : Type} (s : State (mat4 := mat4))
  : R * R * bool * R * R * R * R :=
  (gLastX s, gLastY s, gFirstMouse s, m_scalar s, p_scalar s,
   gDeltaTime s, gLastFrame s).

(** Events other than a prepared frame. *)
Definition between_frames (e : Event) : bool :=
  match e with
  | FramePrepared _ _ => false
  | KeyboardEvents _ | MouseMoved _ _ | MouseScrolled _ _ => true
  end.

Definition known_layout {mat4 : Type} (s : State (mat4 := mat4)) : Prop :=
  layout_of s = qwerty_layout \/ layout_of s = colemak_layout.

Definition speeds_in_range {mat4 : Type} (s : State (mat4 := mat4)) : Prop :=
  0.01 <= m_scalar s <= 10 /\ 0.01 <= p_scalar s <= 10.

Section Facts.

Context {mat4 : Type} {glm : Matrices mat4} {camera : CameraLibrary mat4}.

#[local] Abbreviation State := (State (mat4 := mat4)).

(** One block of [ProcessKeyboardEvents], or one callback: unfold it,
    decide its tests, compare. *)
Ltac by_cases :=
  intros;
  unfold on_escape, on_forward, on_backward, on_left, on_right, on_up,
    on_down, on_perspective_key, on_orthographic_key, on_layout_key,
    toggle_layout, use_qwerty, use_colemak, move_camera, moved,
    Mouse_Position_Callback, Mouse_Scroll_Wheel_Callback, send_uniforms,
    scene_matrices, update_o_camera_position;
  repeat match goal with
         | |- context [if ?c then _ else _] => destruct c
         | |- context [match ?c with Some _ => _ | None => _ end] => destruct c
         end;
  cbn; repeat split; reflexivity.

(** ** The inputs kept beside the cameras *)

Lemma settings_mouse_and_clock (s s0 : State) :
  settings_of s = settings_of s0 -> mouse_and_clock s = mouse_and_clock s0.
Proof.
  unfold settings_of, mouse_and_clock. intros Heq.
  injection Heq as _ -> -> -> -> -> -> -> _ _ _ _ _.
  reflexivity.
Qed.

Lemma mode_and_layout_keys_mouse_and_clock (kb : Keyboard) (s : State) :
  mouse_and_clock
    (on_layout_key kb (on_orthographic_key kb (on_perspective_key kb s)))
  = mouse_and_clock s
  /\ windowShouldClose
       (on_layout_key kb (on_orthographic_key kb (on_perspective_key kb s)))
     = windowShouldClose s.
Proof. by_cases. Qed.

Lemma ProcessKeyboardEvents_mouse_and_clock (kb : Keyboard) (s : State) :
  mouse_and_clock (ProcessKeyboardEvents kb s) = mouse_and_clock s.
Proof.
  rewrite ProcessKeyboardEvents_phases.
  destruct (mode_and_layout_keys_mouse_and_clock kb (movement_keys kb s))
    as (-> & _).
  apply settings_mouse_and_clock, movement_keys_effect.
Qed.

Lemma PrepareSceneView_inputs (currentFrame : R) (kb : Keyboard) (s : State) :
  let s' := PrepareSceneView currentFrame kb s in
  gLastX s' = gLastX s /\ gLastY s' = gLastY s
  /\ gFirstMouse s' = gFirstMouse s
  /\ m_scalar s' = m_scalar s /\ p_scalar s' = p_scalar s
  /\ gDeltaTime s' = currentFrame - gLastFrame s
  /\ gLastFrame s' = currentFrame.
Proof.
  cbv zeta. rewrite PrepareSceneView_unfold. unfold begin_frame. cbv zeta.
  set (t := set_gLastFrame currentFrame
              (set_gDeltaTime (currentFrame - gLastFrame s) s)).
  pose proof (ProcessKeyboardEvents_mouse_and_clock kb t) as Hk.
  set (k := ProcessKeyboardEvents kb t) in *.
  assert (Hm : mouse_and_clock
                 (send_uniforms (fst (snd (scene_matrices k)))
                    (snd (snd (scene_matrices k))) (fst (scene_matrices k)))
               = mouse_and_clock k) by by_cases.
  rewrite Hk in Hm. unfold mouse_and_clock in Hm.
  injection Hm as -> -> -> -> -> -> ->.
  repeat split.
Qed.

Lemma run_cons (e : Event) (es : list Event) (s : State) :
  run (e :: es) s = run es (step e s).
Proof. reflexivity. Qed.

Lemma run_app (es es' : list Event) (s : State) :
  run (es ++ es') s = run es' (run es s).
Proof. unfold run. apply fold_left_app. Qed.

(** What every event keeps, every run keeps. *)
Lemma run_invariant (P : State -> Prop) :
  (forall (e : Event) (s : State), P s -> P (step e s)) ->
  forall (es : list Event) (s : State), P s -> P (run es s).
Proof.
  intros Hstep es. induction es as [| e es IH]; intros s Hs; [exact Hs |].
  rewrite run_cons. apply IH, Hstep, Hs.
Qed.

(** ** Speed multipliers *)

Lemma step_speeds (e : Event) (s : State) :
  speeds_in_range s -> speeds_in_range (step e s).
Proof.
  unfold speeds_in_range.
  destruct e as [kb | xMousePos yMousePos | xOffset yOffset | currentFrame kb];
    cbn [step]; intros Hs.
  - pose proof (ProcessKeyboardEvents_mouse_and_clock kb s) as Hk.
    unfold mouse_and_clock in Hk. injection Hk as _ _ _ -> -> _ _. exact Hs.
  - assert (Hm : m_scalar (Mouse_Position_Callback xMousePos yMousePos s)
                 = m_scalar s
                 /\ p_scalar (Mouse_Position_Callback xMousePos yMousePos s)
                    = p_scalar s) by by_cases.
    destruct Hm as (-> & ->). exact Hs.
  - destruct (Mouse_Scroll_Wheel_Callback_effect xOffset yOffset s)
      as (_ & _ & -> & ->).
    split; apply limit_scalar_bounds.
  - destruct (PrepareSceneView_inputs currentFrame kb s)
      as (_ & _ & _ & -> & -> & _).
    exact Hs.
Qed.

(** X1: the mouse-speed and pan-speed multipliers never leave the
    interval [0.01, 10]: they start at 1, only the scroll wheel changes
    them, and it limits what it writes. *)
Theorem speed_multipliers_stay_limited
  (pShaderManager : option ShaderManager) (es : list Event) :
  0.01 <= m_scalar (run es (ViewManager_new pShaderManager)) <= 10
  /\ 0.01 <= p_scalar (run es (ViewManager_new pShaderManager)) <= 10.
Proof.
  apply (run_invariant speeds_in_range step_speeds).
  unfold speeds_in_range. cbn. lra.
Qed.

(** ** Mouse movement *)

Lemma Mouse_Position_Callback_inputs (xMousePos yMousePos : R) (s : State) :
  gFirstMouse (Mouse_Position_Callback xMousePos yMousePos s) = false
  /\ gLastX (Mouse_Position_Callback xMousePos yMousePos s) = xMousePos
  /\ gLastY (Mouse_Position_Callback xMousePos yMousePos s) = yMousePos
  /\ m_scalar (Mouse_Position_Callback xMousePos yMousePos s) = m_scalar s.
Proof.
  unfold Mouse_Position_Callback.
  destruct (gFirstMouse s) eqn:Hfirst; cbn; rewrite ?Hfirst; repeat split.
Qed.

Lemma step_first_mouse (e : Event) (s : State) :
  gFirstMouse s = false -> gFirstMouse (step e s) = false.
Proof.
  destruct e as [kb | xMousePos yMousePos | xOffset yOffset | currentFrame kb];
    cbn [step]; intros Hs.
  - pose proof (ProcessKeyboardEvents_mouse_and_clock kb s) as Hk.
    unfold mouse_and_clock in Hk. injection Hk as _ _ -> _ _ _ _. exact Hs.
  - apply Mouse_Position_Callback_inputs.
  - exact Hs.
  - destruct (PrepareSceneView_inputs currentFrame kb s) as (_ & _ & -> & _).
    exact Hs.
Qed.

(** X2: a mouse movement records its position; the next movement hands
    the camera the difference to it, scaled by the mouse speed (x
    forward, y reversed), whatever the state was before, so only the
    very first movement after construction is treated as a zero offset:
    [gFirstMouse] is false after a movement and no event sets it
    again. *)
Theorem mouse_offsets_follow_positions
  (x1 y1 x2 y2 : R) (es : list Event) (s : State) :
  let s1 := Mouse_Position_Callback x1 y1 s in
  gLastX s1 = x1 /\ gLastY s1 = y1
  /\ g_pCamera (Mouse_Position_Callback x2 y2 s1)
     = ProcessMouseMovement ((x2 - x1) * m_scalar s) ((y1 - y2) * m_scalar s)
         (g_pCamera s1)
  /\ gFirstMouse (run es s1) = false.
Proof.
  cbv zeta.
  destruct (Mouse_Position_Callback_inputs x1 y1 s) as (Hf & Hx & Hy & Hm).
  split; [exact Hx |]. split; [exact Hy |]. split.
  - destruct (Mouse_Position_Callback_effect x2 y2
                (Mouse_Position_Callback x1 y1 s)) as (_ & ->).
    unfold mouse_offsets. rewrite Hf, Hx, Hy, Hm. reflexivity.
  - apply (run_invariant (fun t => gFirstMouse t = false) step_first_mouse).
    exact Hf.
Qed.

(** ** Frame timing *)

Lemma step_between_frames (e : Event) (s : State) :
  between_frames e = true -> gLastFrame (step e s) = gLastFrame s.
Proof.
  destruct e as [kb | xMousePos yMousePos | xOffset yOffset | currentFrame kb];
    cbn [step between_frames]; intros He; try discriminate He.
  - pose proof (ProcessKeyboardEvents_mouse_and_clock kb s) as Hk.
    unfold mouse_and_clock in Hk. injection Hk as _ _ _ _ _ _ ->. reflexivity.
  - by_cases.
  - reflexivity.
Qed.

Lemma run_between_frames (es : list Event) (s : State) :
  forallb between_frames es = true -> gLastFrame (run es s) = gLastFrame s.
Proof.
  revert s. induction es as [| e es IH]; intros s Hes; [reflexivity |].
  cbn [forallb] in Hes. apply andb_prop in Hes. destruct Hes as (He & Hes).
  rewrite run_cons, IH by exact Hes. apply step_between_frames, He.
Qed.

(** X3: the time step of a frame is the clock difference to the frame
    before it: if a frame is prepared at time t1 and, after any keyboard
    and mouse events, the next one at time t2, then [gDeltaTime] is
    t2 - t1 and [gLastFrame] is t2. *)
Theorem frame_delta_is_clock_difference
  (t1 t2 : R) (kb1 kb2 : Keyboard) (es : list Event) (s : State) :
  forallb between_frames es = true ->
  let s2 := PrepareSceneView t2 kb2 (run es (PrepareSceneView t1 kb1 s)) in
  gDeltaTime s2 = t2 - t1 /\ gLastFrame s2 = t2.
Proof.
  intros Hes. cbv zeta.
  destruct (PrepareSceneView_inputs t2 kb2
              (run es (PrepareSceneView t1 kb1 s)))
    as (_ & _ & _ & _ & _ & Hd & Hl).
  rewrite Hd, Hl, run_between_frames by exact Hes.
  destruct (PrepareSceneView_inputs t1 kb1 s) as (_ & _ & _ & _ & _ & _ & ->).
  split; reflexivity.
Qed.

(** ** Orbit angles outside orthographic mode and under opposite keys *)

Lemma ProcessKeyboardEvents_orbit_position (kb : Keyboard) (s : State) :
  o_camera_position (ProcessKeyboardEvents kb s)
  = if pressed kb GLFW_KEY_O then mkVec3 0 5 12 else o_camera_position s.
Proof.
  rewrite ProcessKeyboardEvents_phases.
  destruct (movement_keys_effect kb s) as (Em & _).
  destruct (settings_fields _ _ Em) as (_ & _ & _ & _ & Hpos & _).
  rewrite <- Hpos. by_cases.
Qed.

(** X4: in perspective mode the direction keys do not turn the orbit
    camera: unless the orthographic key is held, a call of
    [ProcessKeyboardEvents] with the flag clear leaves o_yaw, o_pitch
    and the orbit position as they were. *)
Theorem perspective_mode_keeps_orbit (kb : Keyboard) (s : State) :
  bOrthographicProjection s = false ->
  pressed kb GLFW_KEY_O = false ->
  o_yaw (ProcessKeyboardEvents kb s) = o_yaw s
  /\ o_pitch (ProcessKeyboardEvents kb s) = o_pitch s
  /\ o_camera_position (ProcessKeyboardEvents kb s) = o_camera_position s.
Proof.
  intros Hmode HO.
  destruct (ProcessKeyboardEvents_effect kb s)
    as (_ & _ & _ & _ & Hp & Hy & _).
  rewrite Hp, Hy, ProcessKeyboardEvents_orbit_position, HO.
  unfold pitch_after_movement, yaw_after_movement.
  rewrite Hmode, !andb_false_r. repeat split.
Qed.


(** ** Layouts along a run *)

Lemma step_layout (e : Event) (s : State) :
  layout_of (step e s)
  = match e with
    | KeyboardEvents kb | FramePrepared _ kb =>
        if pressed kb (gkey_layout s)
        then if bcolemak_layout s then qwerty_layout else colemak_layout
        else layout_of s
    | MouseMoved _ _ | MouseScrolled _ _ => layout_of s
    end.
Proof.
  destruct e as [kb | xMousePos yMousePos | xOffset yOffset | currentFrame kb];
    cbn [step].
  - apply ProcessKeyboardEvents_effect.
  - by_cases.
  - reflexivity.
  - rewrite PrepareSceneView_unfold. unfold begin_frame. cbv zeta.
    set (t := set_gLastFrame currentFrame
                (set_gDeltaTime (currentFrame - gLastFrame s) s)).
    destruct (ProcessKeyboardEvents_effect kb t)
      as (_ & _ & _ & _ & _ & _ & Hl & _).
    change (gkey_layout t) with (gkey_layout s) in Hl.
    change (bcolemak_layout t) with (bcolemak_layout s) in Hl.
    change (layout_of t) with (layout_of s) in Hl.
    rewrite <- Hl. by_cases.
Qed.

Lemma step_known_layout (e : Event) (s : State) :
  known_layout s -> known_layout (step e s).
Proof.
  unfold known_layout. intros Hs. rewrite step_layout.
  destruct e as [kb | xMousePos yMousePos | xOffset yOffset | currentFrame kb];
    try exact Hs;
    (destruct (pressed kb (gkey_layout s)); [| exact Hs];
     destruct (bcolemak_layout s); [left | right]; reflexivity).
Qed.

Lemma layout_bound_keys (s : State) (l : Layout) :
  layout_of s = l ->
  bound_keys s
  = [GLFW_KEY_ESCAPE; GLFW_KEY_P; GLFW_KEY_O;
     key_forward l; key_backward l; key_left l; key_right l;
     key_up l; key_down l; key_layout l].
Proof. intros <-. reflexivity. Qed.

(** X6: whatever the events, the key table is one of the two fixed
    tables, and in either of them the ten key codes the controller reacts
    to (escape, P, O and the seven layout keys) are pairwise different:
    no key ever triggers two of its actions. *)
Theorem keys_never_collide
  (pShaderManager : option ShaderManager) (es : list Event) :
  let s := run es (ViewManager_new pShaderManager) in
  (layout_of s = qwerty_layout \/ layout_of s = colemak_layout)
  /\ NoDup (bound_keys s).
Proof.
  cbv zeta.
  assert (Hknown : known_layout (run es (ViewManager_new pShaderManager))).
  { apply (run_invariant known_layout step_known_layout).
    left. reflexivity. }
  split; [exact Hknown |].
  destruct Hknown as [Hl | Hl]; rewrite (layout_bound_keys _ _ Hl);
    repeat (apply NoDup_cons; [cbn; intuition discriminate |]);
    apply NoDup_nil.
Qed.

(** X7: holding the layout key down does not make the layout flicker.
    In the QWERTY layout the layout key is C, in the Colemak layout it is
    Q; with C held and Q not, the first call switches to Colemak and
    every further call stays there. *)
Theorem held_layout_key_switches_once (kb : Keyboard) (s : State) (n : nat) :
  layout_of s = qwerty_layout ->
  pressed kb GLFW_KEY_C = true ->
  pressed kb GLFW_KEY_Q = false ->
  layout_of (Nat.iter (S n) (ProcessKeyboardEvents kb) s) = colemak_layout.
Proof.
  intros Hq HC HQ. induction n as [| n IH].
  - change (layout_of (step (KeyboardEvents kb) s) = colemak_layout).
    rewrite step_layout.
    change (gkey_layout s) with (key_layout (layout_of s)).
    change (bcolemak_layout s) with (colemak (layout_of s)).
    rewrite Hq. cbn [key_layout colemak qwerty_layout]. rewrite HC.
    reflexivity.
  - change (Nat.iter (S (S n)) (ProcessKeyboardEvents kb) s)
      with (step (KeyboardEvents kb)
              (Nat.iter (S n) (ProcessKeyboardEvents kb) s)).
    rewrite step_layout.
    set (t := Nat.iter (S n) (ProcessKeyboardEvents kb) s) in *.
    change (gkey_layout t) with (key_layout (layout_of t)).
    rewrite IH. cbn [key_layout colemak_layout]. rewrite HQ. reflexivity.
Qed.

(** ** The close flag *)

Lemma movement_keys_close (kb : Keyboard) (s : State) :
  windowShouldClose (movement_keys kb s)
  = pressed kb GLFW_KEY_ESCAPE || windowShouldClose s.
Proof.
  unfold movement_keys. cbv zeta.
  set (d := gDeltaTime s * p_scalar s).
  assert (Hdown : forall t, windowShouldClose (on_down kb d t)
                            = windowShouldClose t) by by_cases.
  assert (Hup : forall t, windowShouldClose (on_up kb d t)
                          = windowShouldClose t) by by_cases.
  assert (Hright : forall t, windowShouldClose (on_right kb d t)
                             = windowShouldClose t) by by_cases.
  assert (Hleft : forall t, windowShouldClose (on_left kb d t)
                            = windowShouldClose t) by by_cases.
  assert (Hback : forall t, windowShouldClose (on_backward kb d t)
                            = windowShouldClose t) by by_cases.
  assert (Hfwd : forall t, windowShouldClose (on_forward kb d t)
                           = windowShouldClose t) by by_cases.
  rewrite Hdown, Hup, Hright, Hleft, Hback, Hfwd.
  unfold on_escape. destruct (pressed kb GLFW_KEY_ESCAPE); reflexivity.
Qed.

Lemma ProcessKeyboardEvents_close (kb : Keyboard) (s : State) :
  windowShouldClose (ProcessKeyboardEvents kb s)
  = pressed kb GLFW_KEY_ESCAPE || windowShouldClose s.
Proof.
  rewrite ProcessKeyboardEvents_phases.
  destruct (mode_and_layout_keys_mouse_and_clock kb (movement_keys kb s))
    as (_ & ->).
  apply movement_keys_close.
Qed.

Lemma step_close (e : Event) (s : State) :
  windowShouldClose s = true -> windowShouldClose (step e s) = true.
Proof.
  destruct e as [kb | xMousePos yMousePos | xOffset yOffset | currentFrame kb];
    cbn [step]; intros Hs.
  - rewrite ProcessKeyboardEvents_close, Hs. apply orb_true_r.
  - rewrite <- Hs. by_cases.
  - exact Hs.
  - rewrite PrepareSceneView_unfold.
    set (b := begin_frame currentFrame kb s).
    assert (Hb : windowShouldClose b = true).
    { unfold b, begin_frame. cbv zeta.
      rewrite ProcessKeyboardEvents_close. cbn. rewrite Hs.
      apply orb_true_r. }
    rewrite <- Hb. by_cases.
Qed.

(** X8: the escape key asks the window to close for good: a call of
    [ProcessKeyboardEvents] with escape held sets the close flag, and no
    later event of any kind clears it. *)
Theorem escape_closes_for_good (kb : Keyboard) (es : list Event) (s : State) :
  pressed kb GLFW_KEY_ESCAPE = true ->
  windowShouldClose (run es (ProcessKeyboardEvents kb s)) = true.
Proof.
  intros Hesc.
  apply (run_invariant (fun t => windowShouldClose t = true) step_close).
  rewrite ProcessKeyboardEvents_close, Hesc. reflexivity.
Qed.

(** ** What the shader manager is sent *)

Lemma step_shader (e : Event) (s : State) :
  exists sent : list ShaderCall,
    m_pShaderManager (step e s)
    = option_map (fun before => before ++ sent) (m_pShaderManager s)
    /\ map uniform_name sent
       = match e with
         | FramePrepared _ _ => ["view"; "projection"; "viewPosition"]%string
         | _ => []
         end.
Proof.
  destruct e as [kb | xMousePos yMousePos | xOffset yOffset | currentFrame kb];
    cbn [step].
  - exists []. split; [| reflexivity].
    destruct (ProcessKeyboardEvents_effect kb s) as (-> & _).
    destruct (m_pShaderManager s); cbn; rewrite ?app_nil_r; reflexivity.
  - exists []. split; [| reflexivity].
    assert (Hm : m_pShaderManager (Mouse_Position_Callback xMousePos yMousePos s)
                 = m_pShaderManager s) by by_cases.
    rewrite Hm.
    destruct (m_pShaderManager s); cbn; rewrite ?app_nil_r; reflexivity.
  - exists []. split; [| reflexivity].
    change (m_pShaderManager (Mouse_Scroll_Wheel_Callback xOffset yOffset s))
      with (m_pShaderManager s).
    destruct (m_pShaderManager s); cbn; rewrite ?app_nil_r; reflexivity.
  - rewrite PrepareSceneView_unfold.
    destruct (begin_frame_effect currentFrame kb s) as (Bsm & _).
    set (b := begin_frame currentFrame kb s) in *.
    destruct (scene_matrices_effect b) as (Msm & _).
    set (m := fst (scene_matrices b)) in *.
    exists [setMat4Value g_ViewName (fst (snd (scene_matrices b)));
            setMat4Value g_ProjectionName (snd (snd (scene_matrices b)));
            setVec3Value "viewPosition" (Position (g_pCamera m))].
    split; [| reflexivity].
    unfold send_uniforms. rewrite Msm, Bsm.
    destruct (m_pShaderManager s) as [before |] eqn:Hs; [reflexivity |].
    cbn [option_map]. rewrite Msm. exact Bsm.
Qed.

(** X9: only prepared frames talk to the shader manager, and each sends
    the same three uniforms.  After any run, a controller built with a
    shader manager has sent it "view", "projection" and "viewPosition",
    in this order, once per frame and nothing else; one built with a
    null shader manager still has none. *)
Theorem frames_send_three_uniforms (es : list Event) (s : State) :
  exists sent : list ShaderCall,
    m_pShaderManager (run es s)
    = option_map (fun before => before ++ sent) (m_pShaderManager s)
    /\ map uniform_name sent
       = List.concat (repeat ["view"; "projection"; "viewPosition"]%string
                        (frames es)).
Proof.
  revert s. induction es as [| e es IH]; intros s.
  - exists []. split; [| reflexivity].
    change (run [] s) with s.
    destruct (m_pShaderManager s); cbn; rewrite ?app_nil_r; reflexivity.
  - rewrite run_cons.
    destruct (IH (step e s)) as (later & Hlater & Hnames).
    destruct (step_shader e s) as (first & Hfirst & Hfirst_names).
    exists (first ++ later). split.
    + rewrite Hlater, Hfirst.
      destruct (m_pShaderManager s); cbn; rewrite ?app_assoc; reflexivity.
    + rewrite map_app, Hnames, Hfirst_names.
      destruct e; reflexivity.
Qed.

(** ** The perspective camera under the movement keys *)

Lemma on_forward_camera (kb : Keyboard) (d : R) (s : State) :
  g_pCamera (on_forward kb d s)
  = moved (pressed kb (key_forward (layout (settings_of s)))) FORWARD d
      (g_pCamera s).
Proof. cbn. by_cases. Qed.

Lemma on_backward_camera (kb : Keyboard) (d : R) (s : State) :
  g_pCamera (on_backward kb d s)
  = moved (pressed kb (key_backward (layout (settings_of s)))) BACKWARD d
      (g_pCamera s).
Proof. cbn. by_cases. Qed.

Lemma on_left_camera (kb : Keyboard) (d : R) (s : State) :
  g_pCamera (on_left kb d s)
  = moved (pressed kb (key_left (layout (settings_of s)))) LEFT d
      (g_pCamera s).
Proof. cbn. by_cases. Qed.

Lemma on_right_camera (kb : Keyboard) (d : R) (s : State) :
  g_pCamera (on_right kb d s)
  = moved (pressed kb (key_right (layout (settings_of s)))) RIGHT d
      (g_pCamera s).
Proof. cbn. by_cases. Qed.

Lemma on_up_camera (kb : Keyboard) (d : R) (s : State) :
  g_pCamera (on_up kb d s)
  = moved (pressed kb (key_up (layout (settings_of s)))) UP d (g_pCamera s).
Proof. cbn. by_cases. Qed.

Lemma on_down_camera (kb : Keyboard) (d : R) (s : State) :
  g_pCamera (on_down kb d s)
  = moved (pressed kb (key_down (layout (settings_of s)))) DOWN d
      (g_pCamera s).
Proof. cbn. by_cases. Qed.

Lemma movement_keys_camera (kb : Keyboard) (s : State) :
  let d := gDeltaTime s * p_scalar s in
  g_pCamera (movement_keys kb s)
  = moved (pressed kb (gkey_down s)) DOWN d
      (moved (pressed kb (gkey_up s)) UP d
         (moved (pressed kb (gkey_right s)) RIGHT d
            (moved (pressed kb (gkey_left s)) LEFT d
               (moved (pressed kb (gkey_backward s)) BACKWARD d
                  (moved (pressed kb (gkey_forward s)) FORWARD d
                     (g_pCamera s)))))).
Proof.
  cbv zeta. unfold movement_keys. cbv zeta.
  set (d := gDeltaTime s * p_scalar s).
  destruct (on_escape_effect kb s) as (E1 & _ & _ & C1).
  set (s1 := on_escape kb s) in *.
  destruct (on_forward_effect kb d s1) as (E2 & _).
  pose proof (on_forward_camera kb d s1) as C2.
  set (s2 := on_forward kb d s1) in *.
  destruct (on_backward_effect kb d s2) as (E3 & _).
  pose proof (on_backward_camera kb d s2) as C3.
  set (s3 := on_backward kb d s2) in *.
  destruct (on_left_effect kb d s3) as (E4 & _).
  pose proof (on_left_camera kb d s3) as C4.
  set (s4 := on_left kb d s3) in *.
  destruct (on_right_effect kb d s4) as (E5 & _).
  pose proof (on_right_camera kb d s4) as C5.
  set (s5 := on_right kb d s4) in *.
  destruct (on_up_effect kb d s5) as (E6 & _).
  pose proof (on_up_camera kb d s5) as C6.
  set (s6 := on_up kb d s5) in *.
  pose proof (on_down_camera kb d s6) as C7.
  rewrite E1 in E2. rewrite E2 in E3. rewrite E3 in E4. rewrite E4 in E5.
  rewrite E5 in E6.
  rewrite C7, E6, C6, E5, C5, E4, C4, E3, C3, E2, C2, E1, C1.
  reflexivity.
Qed.

(** X10: the movement keys drive the perspective camera in both modes.
    Unless the call resets the pose (P held), the camera after
    [ProcessKeyboardEvents] is the one before it with [ProcessKeyboard]
    applied for every held direction key, in the order forward,
    backward, left, right, up, down, each with gDeltaTime * p_scalar;
    [bOrthographicProjection] plays no part in it. *)
Theorem movement_keys_drive_camera (kb : Keyboard) (s : State) :
  pressed kb GLFW_KEY_P = false ->
  let d := gDeltaTime s * p_scalar s in
  g_pCamera (ProcessKeyboardEvents kb s)
  = moved (pressed kb (gkey_down s)) DOWN d
      (moved (pressed kb (gkey_up s)) UP d
         (moved (pressed kb (gkey_right s)) RIGHT d
            (moved (pressed kb (gkey_left s)) LEFT d
               (moved (pressed kb (gkey_backward s)) BACKWARD d
                  (moved (pressed kb (gkey_forward s)) FORWARD d
                     (g_pCamera s)))))).
Proof.
  intros HP.
  destruct (ProcessKeyboardEvents_effect kb s)
    as (_ & _ & _ & _ & _ & _ & _ & Hc).
  rewrite HP in Hc. rewrite Hc. apply movement_keys_camera.
Qed.

(** ** The zoom along a run *)

Lemma moved_zoom (held : bool) (direction : Camera_Movement) (d : R)
  (c : Camera) :
  (forall (m : Camera_Movement) (delta : R) (c' : Camera),
      Zoom (ProcessKeyboard m delta c') = Zoom c') ->
  Zoom (moved held direction d c) = Zoom c.
Proof. intros Hlibrary. unfold moved. destruct held; [apply Hlibrary | reflexivity]. Qed.

Lemma ProcessKeyboardEvents_zoom (kb : Keyboard) (s : State) :
  (forall (m : Camera_Movement) (delta : R) (c : Camera),
      Zoom (ProcessKeyboard m delta c) = Zoom c) ->
  Zoom (g_pCamera (ProcessKeyboardEvents kb s)) = Zoom (g_pCamera s).
Proof.
  intros Hlibrary.
  assert (Hm : Zoom (g_pCamera (movement_keys kb s)) = Zoom (g_pCamera s)).
  { rewrite movement_keys_camera. rewrite !moved_zoom by exact Hlibrary.
    reflexivity. }
  rewrite ProcessKeyboardEvents_phases, <- Hm.
  destruct (on_layout_key_effect kb
              (on_orthographic_key kb
                 (on_perspective_key kb (movement_keys kb s)))) as (Lb & _).
  destruct (beside_layout_fields _ _ Lb) as (_ & -> & _).
  destruct (on_orthographic_key_effect kb
              (on_perspective_key kb (movement_keys kb s))) as (-> & _).
  destruct (on_perspective_key_effect kb (movement_keys kb s))
    as (_ & _ & _ & _ & Hc).
  destruct (pressed kb GLFW_KEY_P); [apply Hc | rewrite Hc; reflexivity].
Qed.

Lemma step_zoom (e : Event) (s : State) :
  (forall (m : Camera_Movement) (delta : R) (c : Camera),
      Zoom (ProcessKeyboard m delta c) = Zoom c) ->
  (forall (xoffset yoffset : R) (c : Camera),
      Zoom (ProcessMouseMovement xoffset yoffset c) = Zoom c) ->
  Zoom (g_pCamera (step e s)) = Zoom (g_pCamera s).
Proof.
  intros Hkeys Hmouse.
  destruct e as [kb | xMousePos yMousePos | xOffset yOffset | currentFrame kb].
  - apply ProcessKeyboardEvents_zoom, Hkeys.
  - apply mouse_event_keeps_zoom; [exact Hmouse | reflexivity].
  - apply mouse_event_keeps_zoom; [exact Hmouse | reflexivity].
  - cbn [step]. rewrite PrepareSceneView_unfold.
    destruct (send_uniforms_effect
                (fst (snd (scene_matrices (begin_frame currentFrame kb s))))
                (snd (snd (scene_matrices (begin_frame currentFrame kb s))))
                (fst (scene_matrices (begin_frame currentFrame kb s))))
      as (-> & _).
    destruct (scene_matrices_effect (begin_frame currentFrame kb s))
      as (_ & -> & _).
    unfold begin_frame. cbv zeta.
    rewrite ProcessKeyboardEvents_zoom by exact Hkeys. reflexivity.
Qed.

(** X11: the view manager sets the zoom once, to 80 in its constructor,
    and never again: if the camera class does not change [Zoom] when it
    processes keyboard and mouse movement, then [Zoom] is 80 after any
    run, so the perspective projection always has the field of view
    radians(80). *)
Theorem zoom_stays_at_80
  (pShaderManager : option ShaderManager) (es : list Event) :
  (forall (m : Camera_Movement) (delta : R) (c : Camera),
      Zoom (ProcessKeyboard m delta c) = Zoom c) ->
  (forall (xoffset yoffset : R) (c : Camera),
      Zoom (ProcessMouseMovement xoffset yoffset c) = Zoom c) ->
  Zoom (g_pCamera (run es (ViewManager_new pShaderManager))) = 80.
Proof.
  intros Hkeys Hmouse.
  apply (run_invariant (fun s => Zoom (g_pCamera s) = 80)).
  - intros e s Hs. rewrite step_zoom; assumption.
  - reflexivity.
Qed.

End Facts.
End ControllerFacts.

(** * The scene manager with its textures and its shader

    The methods of [Source/SceneManager.cpp]: the texture table, the
    calls that put uniforms into the shader, the lights, the preparation
    of the scene, and the drawing methods with the shader and mesh calls
    they make.  A call through the shader manager that the source does
    not guard is a null dereference when there is none.
    [SetTransformations] is
    left out: it only computes the "model" matrix from its arguments and
    sends it, and the drawing methods below do not keep their calls of
    it.  The image loader and the GL driver are inputs: what [stbi_load]
    finds in a file, and the texture name the k-th call of
    [glGenTextures] hands out. *)

Module SceneRenderer.

Import Glm.

#[local] Abbreviation OBJECT_MATERIAL := SceneManager.OBJECT_MATERIAL.
#[local] Abbreviation Mesh := SceneManager.Mesh.

(** ** State *)

(** Modelled from the spec: the structure [TEXTURE_INFO] and the array
    [m_textureIDs] are declared in [SceneManager.h], which is not among
    the sources.  A cell has the two members [SceneManager.cpp] uses;
    the array is the linear texture-slot array of the specification,
    with the 16 cells the comments of [SceneManager.cpp] speak of. *)
Record TEXTURE_INFO : Type := mkTexture { ID : Z; tag : string }.

Definition TEXTURE_SLOTS : nat := 16.

(** What [stbi_load] reports about an image it could read. *)
Record Image : Type := mkImage { width : Z; height : Z; colorChannels : Z }.

(** A value sent to the shader, by the setter that sent it. *)
Inductive Uniform : Type :=
| IntValue (v : Z)
| BoolValue (v : bool)
| FloatValue (v : R)
| Vec2Value (x y : R)
| Vec3Value (x y z : R)
| Vec4Value (r g b a : R)
| Sampler2DValue (slot : Z).

(** The uniforms of the shader program, latest first. *)
Definition Uniforms : Type := list (string * Uniform).

Definition setValue (name : string) (v : Uniform) (u : Uniforms) : Uniforms :=
  (name, v) :: u.

Definition value (name : string) (u : Uniforms) : option Uniform :=
  match find (fun entry => String.eqb (fst entry) name) u with
  | Some entry => Some (snd entry)
  | None => None
  end.

(** A call on [m_basicMeshes]; a draw is kept with the uniforms the
    shader manager holds at that moment ([None] for a null shader
    manager). *)
Inductive MeshEvent : Type :=
| Loaded (m : Mesh)
| Drawn (m : Mesh) (uniforms : option Uniforms).

(** The lines written to [std::cout]. *)
Inductive Message : Type :=
| Successfully_loaded_image (filename : string) (width height channels : Z)
| Not_implemented_to_handle_image (channels : Z)
| Could_not_load_image (filename : string)
| Could_not_find_texture (tag : string).

(** The members of the class, the global [g_errorEncountered], the
    output stream, and what the calls leave behind in the GL context
    and in the image loader: the number of texture names generated so
    far, the active texture unit, the 2D texture bound on each unit, and
    the number of loaded images not yet freed. *)
Record Renderer : Type := mkRenderer {
  m_pShaderManager : option Uniforms;
  m_basicMeshes : list MeshEvent;
  m_objectMaterials : list OBJECT_MATERIAL;
  m_textureIDs : nat -> TEXTURE_INFO;
  m_loadedTextures : nat;
  g_errorEncountered : bool;
  cout : list Message;
  gl_generated : nat;
  gl_active : Z;
  gl_bound : Z -> Z;
  stbi_unfreed : nat
}.

Definition set_m_pShaderManager (v : option Uniforms) (s : Renderer) : Renderer :=
  mkRenderer v (m_basicMeshes s) (m_objectMaterials s) (m_textureIDs s)
    (m_loadedTextures s) (g_errorEncountered s) (cout s) (gl_generated s)
    (gl_active s) (gl_bound s) (stbi_unfreed s).

Definition set_m_basicMeshes (v : list MeshEvent) (s : Renderer) : Renderer :=
  mkRenderer (m_pShaderManager s) v (m_objectMaterials s) (m_textureIDs s)
    (m_loadedTextures s) (g_errorEncountered s) (cout s) (gl_generated s)
    (gl_active s) (gl_bound s) (stbi_unfreed s).

Definition set_m_objectMaterials (v : list OBJECT_MATERIAL) (s : Renderer) : Renderer :=
  mkRenderer (m_pShaderManager s) (m_basicMeshes s) v (m_textureIDs s)
    (m_loadedTextures s) (g_errorEncountered s) (cout s) (gl_generated s)
    (gl_active s) (gl_bound s) (stbi_unfreed s).

Definition set_m_textureIDs (v : nat -> TEXTURE_INFO) (s : Renderer) : Renderer :=
  mkRenderer (m_pShaderManager s) (m_basicMeshes s) (m_objectMaterials s) v
    (m_loadedTextures s) (g_errorEncountered s) (cout s) (gl_generated s)
    (gl_active s) (gl_bound s) (stbi_unfreed s).

Definition set_m_loadedTextures (v : nat) (s : Renderer) : Renderer :=
  mkRenderer (m_pShaderManager s) (m_basicMeshes s) (m_objectMaterials s)
    (m_textureIDs s) v (g_errorEncountered s) (cout s) (gl_generated s)
    (gl_active s) (gl_bound s) (stbi_unfreed s).

Definition set_g_errorEncountered (v : bool) (s : Renderer) : Renderer :=
  mkRenderer (m_pShaderManager s) (m_basicMeshes s) (m_objectMaterials s)
    (m_textureIDs s) (m_loadedTextures s) v (cout s) (gl_generated s)
    (gl_active s) (gl_bound s) (stbi_unfreed s).

Definition set_cout (v : list Message) (s : Renderer) : Renderer :=
  mkRenderer (m_pShaderManager s) (m_basicMeshes s) (m_objectMaterials s)
    (m_textureIDs s) (m_loadedTextures s) (g_errorEncountered s) v
    (gl_generated s) (gl_active s) (gl_bound s) (stbi_unfreed s).

Definition set_gl_generated (v : nat) (s : Renderer) : Renderer :=
  mkRenderer (m_pShaderManager s) (m_basicMeshes s) (m_objectMaterials s)
    (m_textureIDs s) (m_loadedTextures s) (g_errorEncountered s) (cout s) v
    (gl_active s) (gl_bound s) (stbi_unfreed s).

Definition set_gl_active (v : Z) (s : Renderer) : Renderer :=
  mkRenderer (m_pShaderManager s) (m_basicMeshes s) (m_objectMaterials s)
    (m_textureIDs s) (m_loadedTextures s) (g_errorEncountered s) (cout s)
    (gl_generated s) v (gl_bound s) (stbi_unfreed s).

Definition set_gl_bound (v : Z -> Z) (s : Renderer) : Renderer :=
  mkRenderer (m_pShaderManager s) (m_basicMeshes s) (m_objectMaterials s)
    (m_textureIDs s) (m_loadedTextures s) (g_errorEncountered s) (cout s)
    (gl_generated s) (gl_active s) v (stbi_unfreed s).

Definition set_stbi_unfreed (v : nat) (s : Renderer) : Renderer :=
  mkRenderer (m_pShaderManager s) (m_basicMeshes s) (m_objectMaterials s)
    (m_textureIDs s) (m_loadedTextures s) (g_errorEncountered s) (cout s)
    (gl_generated s) (gl_active s) (gl_bound s) v.

Definition GL_TEXTURE0 : Z := 33984.

Definition SceneManager_new (pShaderManager : option Uniforms) : Renderer :=
  {| m_pShaderManager := pShaderManager;
     m_basicMeshes := [];
     m_objectMaterials := [];
     m_textureIDs := fun _ => mkTexture 0 EmptyString;
     m_loadedTextures := 0;
     g_errorEncountered := false;
     cout := [];
     gl_generated := 0;
     gl_active := GL_TEXTURE0;
     gl_bound := fun _ => 0%Z;
     stbi_unfreed := 0 |}.

(** A method runs to its end, leaves the process with [exit], or calls
    through the null shader manager. *)
Inductive Outcome : Type :=
| Running (s : Renderer)
| Exited (code : Z)
| NullDereference.

Definition Method : Type := Renderer -> Outcome.

Definition andThen (p q : Method) : Method :=
  fun s => match p s with
           | Running s' => q s'
           | Exited code => Exited code
           | NullDereference => NullDereference
           end.

Declare Scope render_scope.
Delimit Scope render_scope with render.
Bind Scope render_scope with Method.
Notation "p ;; q" := (andThen p q)
  (at level 61, right associativity) : render_scope.
Local Open Scope render_scope.

(** [m_pShaderManager->...] without a test of the pointer. *)
Definition through_shader (f : Uniforms -> Uniforms) : Method :=
  fun s => match m_pShaderManager s with
           | Some u => Running (set_m_pShaderManager (Some (f u)) s)
           | None => NullDereference
           end.

Definition print (m : Message) (s : Renderer) : Renderer :=
  set_cout (cout s ++ [m]) s.

Definition g_ModelName : string := "model".
Definition g_ColorValueName : string := "objectColor".
Definition g_TextureValueName : string := "objectTexture".
Definition g_Texture2ValueName : string := "objectTexture2".
Definition g_SpecularMapName : string := "specularMap".
Definition g_UseTextureName : string := "bUseTexture".
Definition g_UseTexture2Name : string := "bUseTexture2".
Definition g_UseLightingName : string := "bUseLighting".
Definition g_UseSpecularMap : string := "bUseSpecularMap".

(** [setIntValue] with a [bool] argument sends 0 or 1. *)
Definition int_of_bool (b : bool) : Uniform := IntValue (if b then 1 else 0).

Definition setIntValue (name : string) (v : bool) : Method :=
  through_shader (setValue name (int_of_bool v)).

Definition DrawMesh (m : Mesh) : Method :=
  fun s => Running (set_m_basicMeshes
                      (m_basicMeshes s ++ [Drawn m (m_pShaderManager s)]) s).

Definition LoadMesh (m : Mesh) : Method :=
  fun s => Running (set_m_basicMeshes (m_basicMeshes s ++ [Loaded m]) s).

(** ** Looking textures up *)

Section Lookup.

Variable cells : nat -> TEXTURE_INFO.
Variable loaded : nat.
Variable wanted : string.

(** The [while] loop of [FindTextureID]: the final values of
    [textureID] and [bFound]. *)
Equations? FindTextureID_loop (index : nat) (bFound : bool) (textureID : Z)
  : Z * bool
  by wf ((loaded - index) + (if bFound then 0 else 1))%nat lt :=
  FindTextureID_loop index bFound textureID
    with lt_dec index loaded, bFound => {
    | left _, false with String.eqb (tag (cells index)) wanted => {
        | true := FindTextureID_loop index true (ID (cells index));
        | false := FindTextureID_loop (S index) false textureID };
    | _, _ := (textureID, bFound) }.
Proof. all: lia. Qed.

(** The [while] loop of [FindTextureSlot]: the final values of
    [textureSlot] and [bFound]. *)
Equations? FindTextureSlot_loop (index : nat) (bFound : bool) (textureSlot : Z)
  : Z * bool
  by wf ((loaded - index) + (if bFound then 0 else 1))%nat lt :=
  FindTextureSlot_loop index bFound textureSlot
    with lt_dec index loaded, bFound => {
    | left _, false with String.eqb (tag (cells index)) wanted => {
        | true := FindTextureSlot_loop index true (Z.of_nat index);
        | false := FindTextureSlot_loop (S index) false textureSlot };
    | _, _ := (textureSlot, bFound) }.
Proof. all: lia. Qed.

End Lookup.

Definition FindTextureID (tag : string) (s : Renderer) : Z :=
  fst (FindTextureID_loop (m_textureIDs s) (m_loadedTextures s) tag 0 false
         (-1)).

(** The returned slot and the state after the error report, if any. *)
Definition FindTextureSlot (tag : string) (s : Renderer) : Z * Renderer :=
  let '(textureSlot, bFound) :=
    FindTextureSlot_loop (m_textureIDs s) (m_loadedTextures s) tag 0 false
      (-1) in
  if negb bFound && negb (g_errorEncountered s)
  then (textureSlot,
        print (Could_not_find_texture tag) (set_g_errorEncountered true s))
  else (textureSlot, s).

(** ** Loading, binding and destroying textures *)

Section Drivers.

(** What [stbi_load(filename, ...)] returns: the image read, or nothing. *)
Variable stbi_load : string -> option Image.

(** The texture name that the k-th call of [glGenTextures(1, .)] stores. *)
Variable glGenTextures_name : nat -> Z.

(** What the local [OBJECT_MATERIAL material] of [SetShaderMaterial]
    holds before [FindMaterial] is called on it. *)
Variable uninitialised : OBJECT_MATERIAL.

(** [glBindTexture(GL_TEXTURE_2D, texture)], on the active unit. *)
Definition glBindTexture (texture : Z) (s : Renderer) : Renderer :=
  set_gl_bound
    (fun unit => if (unit =? gl_active s)%Z then texture else gl_bound s unit)
    s.

(** [glGenTextures(1, &name)]: the name stored and the state after. *)
Definition glGenTextures (s : Renderer) : Z * Renderer :=
  (glGenTextures_name (gl_generated s),
   set_gl_generated (S (gl_generated s)) s).

(** The end of [CreateGLTexture] once the image has been handed to GL:
    mipmaps, [stbi_image_free], unbinding, and the registration of the
    texture under its tag in the next cell. *)
Definition register_texture (textureID : Z) (tag : string) (s : Renderer)
  : Renderer :=
  let s := set_stbi_unfreed (pred (stbi_unfreed s)) s in
  let s := glBindTexture 0 s in
  let s :=
    set_m_textureIDs
      (fun index => if (index =? m_loadedTextures s)%nat
                    then mkTexture textureID tag
                    else m_textureIDs s index)
      s in
  set_m_loadedTextures (S (m_loadedTextures s)) s.

(** The texture parameters and the image data go into the GL texture
    object, of which only the name is kept here. *)
Definition CreateGLTexture (filename tag : string) (s : Renderer)
  : bool * Renderer :=
  match stbi_load filename with
  | Some image =>
      let s := set_stbi_unfreed (S (stbi_unfreed s)) s in
      let s :=
        print (Successfully_loaded_image filename (width image)
                 (height image) (colorChannels image)) s in
      let '(textureID, s) := glGenTextures s in
      let s := glBindTexture textureID s in
      if (colorChannels image =? 3)%Z
      then (true, register_texture textureID tag s)
      else if (colorChannels image =? 4)%Z
      then (true, register_texture textureID tag s)
      else (false,
            print (Not_implemented_to_handle_image (colorChannels image)) s)
  | None => (false, print (Could_not_load_image filename) s)
  end.

(** The [for] loops over the registered cells. *)
Definition BindGLTextures (s : Renderer) : Renderer :=
  fold_left
    (fun s i =>
       let s := set_gl_active (GL_TEXTURE0 + Z.of_nat i) s in
       glBindTexture (ID (m_textureIDs s i)) s)
    (seq 0 (m_loadedTextures s)) s.

Definition DestroyGLTextures (s : Renderer) : Renderer :=
  fold_left
    (fun s i =>
       let '(name, s) := glGenTextures s in
       set_m_textureIDs
         (fun index => if (index =? i)%nat
                       then mkTexture name (tag (m_textureIDs s i))
                       else m_textureIDs s index)
         s)
    (seq 0 (m_loadedTextures s)) s.

(** ** Sending colours, textures and materials to the shader *)

Definition SetShaderColor (redColorValue greenColorValue blueColorValue
  alphaValue : R) : Method :=
  fun s =>
    match m_pShaderManager s with
    | Some u =>
        let u := setValue g_UseTextureName (int_of_bool false) u in
        let u :=
          setValue g_ColorValueName
            (Vec4Value redColorValue greenColorValue blueColorValue alphaValue)
            u in
        Running (set_m_pShaderManager (Some u) s)
    | None => Running s
    end.

(** The three texture setters differ in the two uniform names only. *)
Definition set_sampler (useName samplerName textureTag : string) : Method :=
  fun s =>
    match m_pShaderManager s with
    | Some u =>
        let u := setValue useName (int_of_bool true) u in
        let '(textureID, s) := FindTextureSlot textureTag s in
        let u := setValue samplerName (Sampler2DValue textureID) u in
        Running (set_m_pShaderManager (Some u) s)
    | None => Running s
    end.

Definition SetShaderTexture (textureTag : string) : Method :=
  set_sampler g_UseTextureName g_TextureValueName textureTag.

Definition SetShaderTexture2 (textureTag : string) : Method :=
  set_sampler g_UseTexture2Name g_Texture2ValueName textureTag.

Definition SetShaderSpecularMap (textureTag : string) : Method :=
  set_sampler g_UseSpecularMap g_SpecularMapName textureTag.

Definition SetTextureUVScale (u v : R) : Method :=
  fun s =>
    match m_pShaderManager s with
    | Some uniforms =>
        Running (set_m_pShaderManager
                   (Some (setValue "UVscale" (Vec2Value u v) uniforms)) s)
    | None => Running s
    end.

Definition vec3Value (v : vec3) : Uniform := Vec3Value (x v) (y v) (z v).

Definition send_material (material : OBJECT_MATERIAL) (u : Uniforms)
  : Uniforms :=
  let u := setValue "material.ambientColor"
             (vec3Value (SceneManager.ambientColor material)) u in
  let u := setValue "material.ambientStrength"
             (FloatValue (SceneManager.ambientStrength material)) u in
  let u := setValue "material.diffuseColor"
             (vec3Value (SceneManager.diffuseColor material)) u in
  let u := setValue "material.specularColor"
             (vec3Value (SceneManager.specularColor material)) u in
  setValue "material.shininess"
    (FloatValue (SceneManager.shininess material)) u.

Definition FindMaterial (tag : string) (material : OBJECT_MATERIAL)
  (s : Renderer) : bool * OBJECT_MATERIAL :=
  SceneManager.FindMaterial (SceneManager.mkScene (m_objectMaterials s) [])
    tag material.

Definition SetShaderMaterial (materialTag : string) : Method :=
  fun s =>
    if (0 <? List.length (m_objectMaterials s))%nat then
      let '(bReturn, material) := FindMaterial materialTag uninitialised s in
      if bReturn then through_shader (send_material material) s
      else Running s
    else Running s.

(** ** Materials, lights, textures and meshes of the scene *)

Definition push_back (m : OBJECT_MATERIAL) : Method :=
  fun s => Running (set_m_objectMaterials (m_objectMaterials s ++ [m]) s).

Definition DefineObjectMaterials : Method :=
  push_back SceneManager.wood_mat ;;
  push_back SceneManager.glass_mat ;;
  push_back SceneManager.plastic_mat ;;
  push_back SceneManager.track_mat ;;
  push_back SceneManager.ball_mat ;;
  push_back SceneManager.alum_mat ;;
  push_back SceneManager.crt_mat.

Definition enableLighting : Method :=
  through_shader (setValue g_UseLightingName (BoolValue true)) ;;
  setIntValue "lightSources[0].enabled" false ;;
  setIntValue "lightSources[1].enabled" false ;;
  setIntValue "lightSources[2].enabled" false ;;
  setIntValue "lightSources[3].enabled" false.

Definition setVec3Value (name : string) (x y z : R) : Method :=
  through_shader (setValue name (Vec3Value x y z)).

Definition setFloatValue (name : string) (v : R) : Method :=
  through_shader (setValue name (FloatValue v)).

Definition SetUpSceneLights : Method :=
  enableLighting ;;
  setIntValue "lightSources[0].enabled" true ;;
  setVec3Value "lightSources[0].position" 10 20 12 ;;
  setVec3Value "lightSources[0].ambientColor" 1 0.95 0.9 ;;
  setVec3Value "lightSources[0].diffuseColor" 1 1 1 ;;
  setVec3Value "lightSources[0].specularColor" 1 0.95 0.55 ;;
  setFloatValue "lightSources[0].focalStrength" 2 ;;
  setFloatValue "lightSources[0].specularIntensity" 0.005 ;;
  setIntValue "lightSources[1].enabled" true ;;
  setVec3Value "lightSources[1].position" 0 3 (-12) ;;
  setVec3Value "lightSources[1].ambientColor" 1 0.95 0.55 ;;
  setVec3Value "lightSources[1].diffuseColor" 1 0.95 0.55 ;;
  setVec3Value "lightSources[1].specularColor" 1 0.95 0.55 ;;
  setFloatValue "lightSources[1].focalStrength" 2 ;;
  setFloatValue "lightSources[1].specularIntensity" 0.05.

(** [if (!CreateGLTexture(filename, tag)) exit(1);] *)
Definition orExit (filename tag : string) : Method :=
  fun s =>
    let '(created, s) := CreateGLTexture filename tag s in
    if created then Running s else Exited 1.

Definition LoadSceneTextures : Method :=
  orExit "textures/keyboard-filament.png" "keyboard" ;;
  orExit "textures/dark-wood.png" "desk" ;;
  orExit "textures/keycap.png" "keycap" ;;
  orExit "textures/deskmat.png" "deskmat" ;;
  orExit "textures/deskmat_specularmap.png" "deskmat_specmap" ;;
  orExit "textures/Hackerlambda1440p.png" "lambda_wallpaper" ;;
  (fun s => Running (BindGLTextures s)).

Definition PrepareScene : Method :=
  DefineObjectMaterials ;;
  SetUpSceneLights ;;
  LoadSceneTextures ;;
  LoadMesh SceneManager.Plane ;;
  LoadMesh SceneManager.Box ;;
  LoadMesh SceneManager.Sphere ;;
  LoadMesh SceneManager.Cylinder ;;
  LoadMesh SceneManager.Prism.

(** ** Drawing

    Each drawing method with the calls it makes, in source order, but
    for its calls of [SetTransformations]. *)

(** The three readings of [glfwGetTime()] are the arguments. *)
Definition updateRGBlight (tR tG tB : R) : Method :=
  let colorR := sin tR in
  let colorG := cos tG in
  let colorB := sin tB / 2 in
  setIntValue "lightSources[2].enabled" true ;;
  setVec3Value "lightSources[2].position" 11.5 4.5 5 ;;
  setVec3Value "lightSources[2].ambientColor"
    (colorR * 0.3) (colorG * 0.3) (colorB * 0.3) ;;
  setVec3Value "lightSources[2].diffuseColor"
    (colorR * 0.3) (colorG * 0.3) (colorB * 0.3) ;;
  setVec3Value "lightSources[2].specularColor"
    (colorR * 0.3) (colorG * 0.3) (colorB * 0.3) ;;
  setFloatValue "lightSources[2].focalStrength" 2 ;;
  setFloatValue "lightSources[2].specularIntensity" 0.005 ;;
  SetShaderColor ((2 + colorR) / 3) ((2 + colorG) / 3) ((2 + colorB) / 3) 1.

Definition drawDesk : Method :=
  SetShaderColor 1 1 1 1 ;;
  SetShaderTexture "desk" ;;
  SetShaderTexture2 "deskmat" ;;
  SetShaderSpecularMap "deskmat_specmap" ;;
  SetShaderMaterial "wood" ;;
  DrawMesh SceneManager.Plane ;;
  setIntValue g_UseTexture2Name false ;;
  setIntValue g_UseSpecularMap false.

Definition drawKeyboard : Method :=
  SetShaderColor 0 1 0 1 ;;
  SetShaderTexture "keyboard" ;;
  SetShaderMaterial "plastic" ;;
  DrawMesh SceneManager.Box ;;
  SetShaderColor 0 1 0 1 ;;
  SetShaderTexture "keyboard" ;;
  SetShaderMaterial "plastic" ;;
  DrawMesh SceneManager.Box ;;
  SetShaderColor 0 1 0 1 ;;
  SetShaderTexture "keyboard" ;;
  SetShaderMaterial "plastic" ;;
  DrawMesh SceneManager.Box ;;
  SetShaderColor 0 1 0 1 ;;
  SetShaderTexture "keyboard" ;;
  SetShaderMaterial "plastic" ;;
  DrawMesh SceneManager.Box ;;
  SetShaderColor 0 1 0 1 ;;
  SetShaderTexture "keyboard" ;;
  SetShaderMaterial "plastic" ;;
  DrawMesh SceneManager.Box ;;
  SetShaderColor 0 1 0 1 ;;
  SetShaderTexture "keyboard" ;;
  SetShaderMaterial "plastic" ;;
  DrawMesh SceneManager.Box ;;
  SetShaderColor 0 1 0 1 ;;
  SetShaderTexture "keyboard" ;;
  SetShaderMaterial "plastic" ;;
  DrawMesh SceneManager.Box ;;
  SetShaderColor 0.9 1.0 1.0 1 ;;
  SetShaderTexture "keycap" ;;
  SetShaderMaterial "plastic" ;;
  DrawMesh SceneManager.Box ;;
  DrawMesh SceneManager.Box ;;
  DrawMesh SceneManager.Box ;;
  DrawMesh SceneManager.Box ;;
  DrawMesh SceneManager.Box ;;
  DrawMesh SceneManager.Box ;;
  DrawMesh SceneManager.Box ;;
  DrawMesh SceneManager.Box ;;
  DrawMesh SceneManager.Box ;;
  DrawMesh SceneManager.Box ;;
  DrawMesh SceneManager.Box ;;
  DrawMesh SceneManager.Box ;;
  DrawMesh SceneManager.Box ;;
  DrawMesh SceneManager.Box ;;
  DrawMesh SceneManager.Box ;;
  DrawMesh SceneManager.Box ;;
  DrawMesh SceneManager.Box ;;
  DrawMesh SceneManager.Box ;;
  DrawMesh SceneManager.Box ;;
  DrawMesh SceneManager.Box.

Definition drawWalls : Method :=
  SetShaderColor 1 0.9 0.55 1 ;;
  SetShaderMaterial "wood" ;;
  DrawMesh SceneManager.Plane ;;
  SetShaderColor 1 0.9 0.55 1 ;;
  SetShaderMaterial "wood" ;;
  DrawMesh SceneManager.Plane.

Definition drawPrimaryMonitor : Method :=
  SetShaderColor 1 1 1 1 ;;
  SetShaderTexture "lambda_wallpaper" ;;
  SetShaderMaterial "glass" ;;
  DrawMesh SceneManager.Plane ;;
  setIntValue g_UseTextureName false ;;
  SetShaderColor 1 1 1 0.1 ;;
  SetShaderMaterial "glass" ;;
  DrawMesh SceneManager.Plane ;;
  SetShaderColor 1 1 1 1 ;;
  SetShaderMaterial "aluminum" ;;
  DrawMesh SceneManager.Prism ;;
  SetShaderMaterial "aluminum" ;;
  DrawMesh SceneManager.Prism ;;
  SetShaderMaterial "aluminum" ;;
  DrawMesh SceneManager.Prism.

Definition drawSecondaryMonitor : Method :=
  SetShaderMaterial "crt" ;;
  SetShaderColor 1 1 1 1 ;;
  DrawMesh SceneManager.Box ;;
  SetShaderMaterial "trackball" ;;
  SetShaderColor 0.3 0.3 0.3 1 ;;
  DrawMesh SceneManager.Box ;;
  SetShaderMaterial "trackball" ;;
  SetShaderColor 0.3 0.3 0.3 1 ;;
  DrawMesh SceneManager.Cylinder ;;
  SetShaderMaterial "glass" ;;
  SetShaderColor 0.2 0.2 0.2 1 ;;
  SetShaderTexture "lambda_wallpaper" ;;
  DrawMesh SceneManager.Box ;;
  SetShaderColor 1 1 1 1 ;;
  SetShaderMaterial "glass" ;;
  SetShaderColor 0.2 0.2 0.2 0.2 ;;
  DrawMesh SceneManager.Box ;;
  SetShaderColor 1 1 1 1.

Definition drawTower (tR tG tB : R) : Method :=
  SetShaderColor 0.3 0.3 0.3 1 ;;
  SetShaderMaterial "aluminum" ;;
  DrawMesh SceneManager.Plane ;;
  DrawMesh SceneManager.Plane ;;
  DrawMesh SceneManager.Plane ;;
  DrawMesh SceneManager.Plane ;;
  DrawMesh SceneManager.Plane ;;
  updateRGBlight tR tG tB ;;
  SetShaderMaterial "ballball" ;;
  DrawMesh SceneManager.Cylinder ;;
  SetShaderColor 1 1 1 1 ;;
  SetShaderColor 1 1 1 0.1 ;;
  SetShaderMaterial "glass" ;;
  DrawMesh SceneManager.Plane ;;
  SetShaderColor 1 1 1 1.

Definition drawTrackball : Method :=
  SetShaderMaterial "ballball" ;;
  SetShaderColor 0.5 0.5 0.5 1 ;;
  DrawMesh SceneManager.Sphere ;;
  SetShaderMaterial "trackball" ;;
  SetShaderColor 0.3 0.3 0.3 1 ;;
  DrawMesh SceneManager.Cylinder ;;
  SetShaderMaterial "trackball" ;;
  DrawMesh SceneManager.Cylinder ;;
  SetShaderMaterial "trackball" ;;
  DrawMesh SceneManager.Sphere ;;
  SetShaderMaterial "trackball" ;;
  DrawMesh SceneManager.Cylinder.


Definition RenderScene (tR tG tB : R) : Method :=
  drawDesk ;;
  drawWalls ;;
  drawKeyboard ;;
  drawTrackball ;;
  drawPrimaryMonitor ;;
  drawSecondaryMonitor ;;
  drawTower tR tG tB.

End Drivers.

End SceneRenderer.

(** * Properties of the texture table, the shader calls and the frame *)

Module SceneRendererFacts.

Import Glm SceneRenderer.

Local Open Scope render_scope.

(** ** Vocabulary *)

(** The first of the [n] cells from [from] on whose tag is the wanted
    one. *)
Fixpoint first_tagged (cells : nat -> TEXTURE_INFO) (wanted : string)
  (from n : nat) : option nat :=
  match n with
  | O => None
  | S n => if String.eqb (tag (cells from)) wanted then Some from
           else first_tagged cells wanted (S from) n
  end.

(** No registered texture carries the tag. *)
Definition unregistered (wanted : string) (s : Renderer) : Prop :=
  forall i : nat, (i < m_loadedTextures s)%nat ->
                  tag (m_textureIDs s i) <> wanted.

(** Cell [i] is the first registered texture with the tag. *)
Definition registered_at (wanted : string) (i : nat) (s : Renderer) : Prop :=
  (i < m_loadedTextures s)%nat
  /\ tag (m_textureIDs s i) = wanted
  /\ forall j : nat, (j < i)%nat -> tag (m_textureIDs s j) <> wanted.

(** An image with one of the two channel counts [CreateGLTexture]
    handles. *)
Definition supported (image : Image) : bool :=
  (colorChannels image =? 3)%Z || (colorChannels image =? 4)%Z.

(** ** Looking textures up *)

Lemma first_tagged_some (cells : nat -> TEXTURE_INFO) (wanted : string)
  (n from i : nat) :
  first_tagged cells wanted from n = Some i ->
  (from <= i < from + n)%nat
  /\ tag (cells i) = wanted
  /\ forall j : nat, (from <= j < i)%nat -> tag (cells j) <> wanted.
Proof.
  revert from. induction n as [| n IH]; intros from Hfirst; cbn in Hfirst;
    [discriminate |].
  destruct (String.eqb (tag (cells from)) wanted) eqn:Htag.
  - injection Hfirst as <-. apply String.eqb_eq in Htag.
    split; [lia |]. split; [exact Htag |]. intros j Hj. lia.
  - destruct (IH _ Hfirst) as (Hi & Hfound & Hbefore).
    split; [lia |]. split; [exact Hfound |].
    intros j Hj. destruct (Nat.eq_dec j from) as [-> | Hne].
    + apply String.eqb_neq, Htag.
    + apply Hbefore. lia.
Qed.

Lemma first_tagged_none (cells : nat -> TEXTURE_INFO) (wanted : string)
  (n from : nat) :
  first_tagged cells wanted from n = None ->
  forall j : nat, (from <= j < from + n)%nat -> tag (cells j) <> wanted.
Proof.
  revert from. induction n as [| n IH]; intros from Hfirst j Hj; [lia |].
  cbn in Hfirst.
  destruct (String.eqb (tag (cells from)) wanted) eqn:Htag; [discriminate |].
  destruct (Nat.eq_dec j from) as [-> | Hne].
  - apply String.eqb_neq, Htag.
  - apply (IH _ Hfirst). lia.
Qed.

(** Conversely, a first match is what the search returns. *)
Lemma first_tagged_found (cells : nat -> TEXTURE_INFO) (wanted : string)
  (n from i : nat) :
  (from <= i < from + n)%nat ->
  tag (cells i) = wanted ->
  (forall j : nat, (from <= j < i)%nat -> tag (cells j) <> wanted) ->
  first_tagged cells wanted from n = Some i.
Proof.
  revert from. induction n as [| n IH]; intros from Hi Hfound Hbefore; [lia |].
  cbn. destruct (String.eqb (tag (cells from)) wanted) eqn:Htag.
  - apply String.eqb_eq in Htag.
    destruct (Nat.eq_dec i from) as [-> | Hne]; [reflexivity |].
    exfalso. apply (Hbefore from); [lia | exact Htag].
  - assert (Hne : i <> from).
    { intros ->. apply String.eqb_neq in Htag. contradiction. }
    apply IH; [lia | exact Hfound |]. intros j Hj. apply Hbefore. lia.
Qed.

Lemma first_tagged_missing (cells : nat -> TEXTURE_INFO) (wanted : string)
  (n from : nat) :
  (forall j : nat, (from <= j < from + n)%nat -> tag (cells j) <> wanted) ->
  first_tagged cells wanted from n = None.
Proof.
  intros Hnone.
  destruct (first_tagged cells wanted from n) as [i |] eqn:Hfirst;
    [| reflexivity].
  destruct (first_tagged_some _ _ _ _ _ Hfirst) as (Hi & Hfound & _).
  exfalso. apply (Hnone i Hi Hfound).
Qed.

Lemma FindTextureSlot_loop_first (cells : nat -> TEXTURE_INFO) (loaded : nat)
  (wanted : string) (index : nat) (bFound : bool) (textureSlot : Z) :
  FindTextureSlot_loop cells loaded wanted index bFound textureSlot
  = if bFound then (textureSlot, true)
    else match first_tagged cells wanted index (loaded - index) with
         | Some i => (Z.of_nat i, true)
         | None => (textureSlot, false)
         end.
Proof.
  funelim (FindTextureSlot_loop cells loaded wanted index bFound textureSlot).
  - reflexivity.
  - destruct bFound; [reflexivity |].
    replace (loaded - index)%nat with 0%nat by lia. reflexivity.
  - rewrite H. replace (loaded - index)%nat with (S (loaded - S index)) by lia.
    cbn [first_tagged]. rewrite Heq. reflexivity.
  - rewrite H. replace (loaded - index)%nat with (S (loaded - S index)) by lia.
    cbn [first_tagged]. rewrite Heq. reflexivity.
Qed.

Lemma FindTextureID_loop_first (cells : nat -> TEXTURE_INFO) (loaded : nat)
  (wanted : string) (index : nat) (bFound : bool) (textureID : Z) :
  FindTextureID_loop cells loaded wanted index bFound textureID
  = if bFound then (textureID, true)
    else match first_tagged cells wanted index (loaded - index) with
         | Some i => (ID (cells i), true)
         | None => (textureID, false)
         end.
Proof.
  funelim (FindTextureID_loop cells loaded wanted index bFound textureID).
  - reflexivity.
  - destruct bFound; [reflexivity |].
    replace (loaded - index)%nat with 0%nat by lia. reflexivity.
  - rewrite H. replace (loaded - index)%nat with (S (loaded - S index)) by lia.
    cbn [first_tagged]. rewrite Heq. reflexivity.
  - rewrite H. replace (loaded - index)%nat with (S (loaded - S index)) by lia.
    cbn [first_tagged]. rewrite Heq. reflexivity.
Qed.

(** Both lookups in terms of the first match. *)
Lemma FindTextureID_first (wanted : string) (s : Renderer) :
  FindTextureID wanted s
  = match first_tagged (m_textureIDs s) wanted 0 (m_loadedTextures s) with
    | Some i => ID (m_textureIDs s i)
    | None => (-1)%Z
    end.
Proof.
  unfold FindTextureID. rewrite FindTextureID_loop_first, Nat.sub_0_r.
  destruct (first_tagged _ _ _ _); reflexivity.
Qed.

Lemma FindTextureSlot_first (wanted : string) (s : Renderer) :
  FindTextureSlot wanted s
  = match first_tagged (m_textureIDs s) wanted 0 (m_loadedTextures s) with
    | Some i => (Z.of_nat i, s)
    | None =>
        ((-1)%Z,
         if g_errorEncountered s then s
         else print (Could_not_find_texture wanted)
                (set_g_errorEncountered true s))
    end.
Proof.
  unfold FindTextureSlot. rewrite FindTextureSlot_loop_first, Nat.sub_0_r.
  destruct (first_tagged _ _ _ _); [reflexivity |].
  cbn [negb andb]. destruct (g_errorEncountered s); reflexivity.
Qed.

(** X12: both texture lookups return the first registered texture with
    the tag: [FindTextureSlot] its cell index, [FindTextureID] its ID,
    and then nothing is reported; when no registered texture has the
    tag both return -1. *)
Theorem texture_lookup_finds_first_match (wanted : string) (s : Renderer) :
  (exists i : nat,
      (i < m_loadedTextures s)%nat
      /\ tag (m_textureIDs s i) = wanted
      /\ (forall j : nat, (j < i)%nat -> tag (m_textureIDs s j) <> wanted)
      /\ FindTextureID wanted s = ID (m_textureIDs s i)
      /\ FindTextureSlot wanted s = (Z.of_nat i, s))
  \/ ((forall i : nat, (i < m_loadedTextures s)%nat ->
                       tag (m_textureIDs s i) <> wanted)
      /\ FindTextureID wanted s = (-1)%Z
      /\ fst (FindTextureSlot wanted s) = (-1)%Z).
Proof.
  rewrite FindTextureID_first, FindTextureSlot_first.
  destruct (first_tagged (m_textureIDs s) wanted 0 (m_loadedTextures s))
    as [i |] eqn:Hfirst.
  - left. exists i.
    destruct (first_tagged_some _ _ _ _ _ Hfirst) as (Hi & Hfound & Hbefore).
    split; [lia |]. split; [exact Hfound |].
    split; [intros j Hj; apply Hbefore; lia |]. split; reflexivity.
  - right. split; [| split; reflexivity].
    intros i Hi. apply (first_tagged_none _ _ _ _ Hfirst). lia.
Qed.

Lemma FindTextureSlot_fst (wanted : string) (s : Renderer) :
  fst (FindTextureSlot wanted s)
  = match first_tagged (m_textureIDs s) wanted 0 (m_loadedTextures s) with
    | Some i => Z.of_nat i
    | None => (-1)%Z
    end.
Proof.
  rewrite FindTextureSlot_first. destruct (first_tagged _ _ _ _); reflexivity.
Qed.

(** The search only reads the tags of the cells it visits. *)
Lemma first_tagged_same_tags (cells cells' : nat -> TEXTURE_INFO)
  (wanted : string) (n from : nat) :
  (forall i : nat, (from <= i < from + n)%nat ->
                   tag (cells' i) = tag (cells i)) ->
  first_tagged cells' wanted from n = first_tagged cells wanted from n.
Proof.
  revert from. induction n as [| n IH]; intros from Hsame; [reflexivity |].
  cbn. rewrite (Hsame from) by lia.
  destruct (String.eqb (tag (cells from)) wanted); [reflexivity |].
  apply IH. intros i Hi. apply Hsame. lia.
Qed.

(** One more cell at the end is found only when nothing before it is. *)
Lemma first_tagged_one_more (cells cells' : nat -> TEXTURE_INFO)
  (wanted : string) (n : nat) :
  (forall i : nat, (i < n)%nat -> tag (cells' i) = tag (cells i)) ->
  first_tagged cells' wanted 0 (S n)
  = match first_tagged cells wanted 0 n with
    | Some i => Some i
    | None => if String.eqb (tag (cells' n)) wanted then Some n else None
    end.
Proof.
  intros Hsame.
  assert (Hgen : forall k from : nat,
             (from + k = n)%nat ->
             first_tagged cells' wanted from (S k)
             = match first_tagged cells wanted from k with
               | Some i => Some i
               | None => if String.eqb (tag (cells' n)) wanted then Some n
                         else None
               end).
  { induction k as [| k IH]; intros from Hfrom.
    - replace from with n by lia. reflexivity.
    - change (first_tagged cells' wanted from (S (S k)))
        with (if String.eqb (tag (cells' from)) wanted then Some from
              else first_tagged cells' wanted (S from) (S k)).
      rewrite (Hsame from) by lia. cbn [first_tagged].
      destruct (String.eqb (tag (cells from)) wanted); [reflexivity |].
      apply IH. lia. }
  apply Hgen. lia.
Qed.

Section Drivers.

Variable stbi_load : string -> option Image.
Variable glGenTextures_name : nat -> Z.

#[local] Abbreviation CreateGLTexture :=
  (CreateGLTexture stbi_load glGenTextures_name).
#[local] Abbreviation DestroyGLTextures :=
  (DestroyGLTextures glGenTextures_name).

(** ** Registering a texture *)

Lemma CreateGLTexture_created (filename newtag : string) (image : Image)
  (s : Renderer) :
  stbi_load filename = Some image ->
  supported image = true ->
  exists s' : Renderer,
    CreateGLTexture filename newtag s = (true, s')
    /\ m_loadedTextures s' = S (m_loadedTextures s)
    /\ (forall i : nat,
           m_textureIDs s' i
           = if (i =? m_loadedTextures s)%nat
             then mkTexture (glGenTextures_name (gl_generated s)) newtag
             else m_textureIDs s i)
    /\ gl_generated s' = S (gl_generated s)
    /\ stbi_unfreed s' = stbi_unfreed s
    /\ gl_active s' = gl_active s
    /\ gl_bound s' (gl_active s) = 0%Z
    /\ (m_pShaderManager s' = m_pShaderManager s
        /\ m_basicMeshes s' = m_basicMeshes s
        /\ m_objectMaterials s' = m_objectMaterials s
        /\ g_errorEncountered s' = g_errorEncountered s)
    /\ cout s'
       = cout s ++ [Successfully_loaded_image filename (width image)
                      (height image) (colorChannels image)].
Proof.
  intros Hload Hsupported. unfold SceneRenderer.CreateGLTexture.
  rewrite Hload. cbv zeta. unfold glGenTextures.
  unfold supported in Hsupported.
  destruct (colorChannels image =? 3)%Z eqn:H3;
    [| destruct (colorChannels image =? 4)%Z eqn:H4; [| discriminate]];
    (eexists; split; [reflexivity |]; cbn;
     rewrite Z.eqb_refl; repeat split).
Qed.

Lemma supported_channels (image : Image) :
  (colorChannels image = 3 \/ colorChannels image = 4)%Z ->
  supported image = true.
Proof.
  unfold supported. intros [-> | ->]; reflexivity.
Qed.

(** Every lookup after a registration, in terms of the lookups before. *)
Lemma lookup_after_registration (filename newtag wanted : string)
  (image : Image) (s : Renderer) :
  stbi_load filename = Some image ->
  supported image = true ->
  let s' := snd (CreateGLTexture filename newtag s) in
  first_tagged (m_textureIDs s') wanted 0 (m_loadedTextures s')
  = match first_tagged (m_textureIDs s) wanted 0 (m_loadedTextures s) with
    | Some i => Some i
    | None => if String.eqb newtag wanted then Some (m_loadedTextures s)
              else None
    end
  /\ (forall i : nat, (i < m_loadedTextures s)%nat ->
                      m_textureIDs s' i = m_textureIDs s i)
  /\ m_textureIDs s' (m_loadedTextures s)
     = mkTexture (glGenTextures_name (gl_generated s)) newtag.
Proof.
  intros Hload Hsupported. cbv zeta.
  destruct (CreateGLTexture_created filename newtag image s Hload Hsupported)
    as (s' & -> & Hcount & Hcells & _).
  cbn [snd].
  assert (Hold : forall i : nat, (i < m_loadedTextures s)%nat ->
                                 m_textureIDs s' i = m_textureIDs s i).
  { intros i Hi. rewrite Hcells.
    destruct (Nat.eqb_spec i (m_loadedTextures s)); [lia | reflexivity]. }
  assert (Hnew : m_textureIDs s' (m_loadedTextures s)
                 = mkTexture (glGenTextures_name (gl_generated s)) newtag).
  { rewrite Hcells, Nat.eqb_refl. reflexivity. }
  split; [| split; assumption].
  rewrite Hcount.
  rewrite (first_tagged_one_more (m_textureIDs s) (m_textureIDs s'))
    by (intros i Hi; rewrite Hold by exact Hi; reflexivity).
  rewrite Hnew. reflexivity.
Qed.

(** X13: a texture created under a tag that is not in use yet can be
    looked up afterwards (as long as the table has a free cell): the
    call returns true, [FindTextureSlot] returns the cell it was put in,
    which is the former number of loaded textures, [FindTextureID]
    returns the name GL generated for it, and the lookups of all other
    tags are as before. *)
Theorem created_texture_is_found (filename newtag : string) (image : Image)
  (s : Renderer) :
  stbi_load filename = Some image ->
  (colorChannels image = 3 \/ colorChannels image = 4)%Z ->
  (forall i : nat, (i < m_loadedTextures s)%nat ->
                   tag (m_textureIDs s i) <> newtag) ->
  (m_loadedTextures s < TEXTURE_SLOTS)%nat ->
  let s' := snd (CreateGLTexture filename newtag s) in
  fst (CreateGLTexture filename newtag s) = true
  /\ m_loadedTextures s' = S (m_loadedTextures s)
  /\ FindTextureSlot newtag s' = (Z.of_nat (m_loadedTextures s), s')
  /\ FindTextureID newtag s' = glGenTextures_name (gl_generated s)
  /\ forall other : string,
      other <> newtag ->
      FindTextureID other s' = FindTextureID other s
      /\ fst (FindTextureSlot other s') = fst (FindTextureSlot other s).
Proof.
  intros Hload Hchannels Hfresh _. cbv zeta.
  pose proof (supported_channels image Hchannels) as Hsupported.
  pose proof (fun wanted =>
                lookup_after_registration filename newtag wanted image s
                  Hload Hsupported) as Hlookup.
  cbv zeta in Hlookup.
  destruct (CreateGLTexture_created filename newtag image s Hload Hsupported)
    as (s' & Hcreate & Hcount & _).
  rewrite Hcreate in *. cbn [fst snd] in *.
  split; [reflexivity |]. split; [exact Hcount |].
  destruct (Hlookup newtag) as (Hnew & _ & Hcell).
  rewrite (first_tagged_missing (m_textureIDs s) newtag) in Hnew
    by (intros j Hj; apply Hfresh; lia).
  rewrite String.eqb_refl in Hnew.
  split; [rewrite FindTextureSlot_first, Hnew; reflexivity |].
  split; [rewrite FindTextureID_first, Hnew, Hcell; reflexivity |].
  intros other Hother.
  destruct (Hlookup other) as (Hfirst & Hold & _).
  apply not_eq_sym in Hother. apply String.eqb_neq in Hother.
  rewrite Hother in Hfirst.
  rewrite !FindTextureID_first, !FindTextureSlot_fst, Hfirst.
  destruct (first_tagged (m_textureIDs s) other 0 (m_loadedTextures s))
    as [i |] eqn:Hi; [| split; reflexivity].
  rewrite Hold by (apply first_tagged_some in Hi; lia).
  split; reflexivity.
Qed.

(** X14: a texture created under a tag that is already in use is
    registered but can never be looked up: both lookups keep returning
    the earlier texture with that tag, and no lookup of any tag returns
    the new cell. *)
Theorem duplicate_tag_is_shadowed (filename newtag : string) (image : Image)
  (earlier : nat) (s : Renderer) :
  stbi_load filename = Some image ->
  (colorChannels image = 3 \/ colorChannels image = 4)%Z ->
  (earlier < m_loadedTextures s)%nat ->
  tag (m_textureIDs s earlier) = newtag ->
  let s' := snd (CreateGLTexture filename newtag s) in
  m_loadedTextures s' = S (m_loadedTextures s)
  /\ tag (m_textureIDs s' (m_loadedTextures s)) = newtag
  /\ forall wanted : string,
      FindTextureID wanted s' = FindTextureID wanted s
      /\ fst (FindTextureSlot wanted s') = fst (FindTextureSlot wanted s)
      /\ fst (FindTextureSlot wanted s') <> Z.of_nat (m_loadedTextures s).
Proof.
  intros Hload Hchannels Hearlier Htag. cbv zeta.
  pose proof (supported_channels image Hchannels) as Hsupported.
  pose proof (fun wanted =>
                lookup_after_registration filename newtag wanted image s
                  Hload Hsupported) as Hlookup.
  cbv zeta in Hlookup.
  destruct (CreateGLTexture_created filename newtag image s Hload Hsupported)
    as (s' & Hcreate & Hcount & _).
  rewrite Hcreate in *. cbn [fst snd] in *.
  split; [exact Hcount |].
  split; [destruct (Hlookup newtag) as (_ & _ & ->); reflexivity |].
  intros wanted. destruct (Hlookup wanted) as (Hfirst & Hold & _).
  assert (Hsame : first_tagged (m_textureIDs s') wanted 0 (m_loadedTextures s')
                  = first_tagged (m_textureIDs s) wanted 0
                      (m_loadedTextures s)).
  { rewrite Hfirst.
    destruct (first_tagged (m_textureIDs s) wanted 0 (m_loadedTextures s))
      as [i |] eqn:Hi; [reflexivity |].
    destruct (String.eqb_spec newtag wanted) as [<- | _]; [| reflexivity].
    exfalso.
    apply (first_tagged_none _ _ _ _ Hi earlier); [lia | exact Htag]. }
  rewrite !FindTextureID_first, !FindTextureSlot_fst, Hsame.
  destruct (first_tagged (m_textureIDs s) wanted 0 (m_loadedTextures s))
    as [i |] eqn:Hi.
  - apply first_tagged_some in Hi.
    rewrite Hold by lia. split; [reflexivity |]. split; [reflexivity | lia].
  - split; [reflexivity |]. split; [reflexivity | lia].
Qed.

(** X15: [CreateGLTexture] succeeds exactly when the image can be read
    and has 3 or 4 colour channels.  If the file cannot be read only a
    message is printed.  If the channel count is another one, the table
    is left alone as well, but the call returns in the middle of its
    work: the image is not freed, and the texture name just generated
    stays bound to the active unit and is not registered anywhere.  On
    success the image is freed and the unit unbound. *)
Theorem CreateGLTexture_outcomes (filename newtag : string) (s : Renderer) :
  let created := fst (CreateGLTexture filename newtag s) in
  let s' := snd (CreateGLTexture filename newtag s) in
  match stbi_load filename with
  | None =>
      created = false /\ s' = print (Could_not_load_image filename) s
  | Some image =>
      gl_generated s' = S (gl_generated s)
      /\ if supported image
         then created = true
              /\ m_loadedTextures s' = S (m_loadedTextures s)
              /\ stbi_unfreed s' = stbi_unfreed s
              /\ gl_bound s' (gl_active s') = 0%Z
         else created = false
              /\ m_loadedTextures s' = m_loadedTextures s
              /\ m_textureIDs s' = m_textureIDs s
              /\ stbi_unfreed s' = S (stbi_unfreed s)
              /\ gl_bound s' (gl_active s')
                 = glGenTextures_name (gl_generated s)
  end.
Proof.
  cbv zeta. destruct (stbi_load filename) as [image |] eqn:Hload.
  - destruct (supported image) eqn:Hsupported.
    + destruct (CreateGLTexture_created filename newtag image s Hload
                  Hsupported)
        as (s' & -> & Hcount & _ & Hgen & Hfree & Hactive & Hbound & _).
      cbn [fst snd]. rewrite Hactive. repeat split; assumption.
    + unfold SceneRenderer.CreateGLTexture. rewrite Hload. cbv zeta.
      unfold glGenTextures. unfold supported in Hsupported.
      apply orb_false_elim in Hsupported. destruct Hsupported as (-> & ->).
      cbn. rewrite Z.eqb_refl. repeat split.
  - unfold SceneRenderer.CreateGLTexture. rewrite Hload. split; reflexivity.
Qed.

(** ** Missing textures *)

(** X16: a missing texture is reported once per process.  The first
    lookup of a tag that is not registered returns -1, prints "Could not
    find texture" for it and sets [g_errorEncountered]; from then on
    every [FindTextureSlot], whatever the tag and whether it is found or
    not, leaves the state as it is, so a second missing texture is never
    reported. *)
Theorem missing_texture_is_reported_once (missing : string) (s : Renderer) :
  (forall i : nat, (i < m_loadedTextures s)%nat ->
                   tag (m_textureIDs s i) <> missing) ->
  g_errorEncountered s = false ->
  let s1 := snd (FindTextureSlot missing s) in
  fst (FindTextureSlot missing s) = (-1)%Z
  /\ cout s1 = cout s ++ [Could_not_find_texture missing]
  /\ g_errorEncountered s1 = true
  /\ forall later : string, snd (FindTextureSlot later s1) = s1.
Proof.
  intros Hmissing Hflag. cbv zeta.
  rewrite FindTextureSlot_first.
  rewrite (first_tagged_missing (m_textureIDs s) missing)
    by (intros j Hj; apply Hmissing; lia).
  rewrite Hflag. cbn [fst snd].
  split; [reflexivity |]. split; [reflexivity |]. split; [reflexivity |].
  intros later. rewrite FindTextureSlot_first.
  destruct (first_tagged _ later 0 _); reflexivity.
Qed.

(** ** Binding and destroying *)

Definition bind_cell (s : Renderer) (i : nat) : Renderer :=
  glBindTexture (ID (m_textureIDs s i))
    (set_gl_active (GL_TEXTURE0 + Z.of_nat i) s).

Lemma BindGLTextures_cells (k : nat) (s : Renderer) :
  let s' := fold_left bind_cell (seq 0 k) s in
  (forall i : nat, (i < k)%nat ->
                   gl_bound s' (GL_TEXTURE0 + Z.of_nat i)
                   = ID (m_textureIDs s i))
  /\ m_textureIDs s' = m_textureIDs s
  /\ m_loadedTextures s' = m_loadedTextures s
  /\ (m_pShaderManager s' = m_pShaderManager s
      /\ m_basicMeshes s' = m_basicMeshes s
      /\ m_objectMaterials s' = m_objectMaterials s
      /\ g_errorEncountered s' = g_errorEncountered s
      /\ cout s' = cout s
      /\ gl_generated s' = gl_generated s
      /\ stbi_unfreed s' = stbi_unfreed s).
Proof.
  induction k as [| k IH]; cbv zeta.
  - cbn [seq fold_left]. split; [intros i Hi; lia | repeat split].
  - rewrite seq_S, fold_left_app. cbn [Nat.add fold_left].
    cbv zeta in IH. destruct IH as (Hbound & Hcells & Hcount & Hrest).
    set (sk := fold_left bind_cell (seq 0 k) s) in *.
    unfold bind_cell, glBindTexture.
    cbn -[Z.add Z.eqb Z.of_nat GL_TEXTURE0].
    split; [| split; [exact Hcells | split; [exact Hcount | exact Hrest]]].
    intros i Hi. rewrite Hcells.
    destruct (Z.eqb_spec (GL_TEXTURE0 + Z.of_nat i) (GL_TEXTURE0 + Z.of_nat k))
      as [Heq | Hne].
    + replace i with k by lia. reflexivity.
    + apply Hbound. lia.
Qed.

(** X17: after [BindGLTextures] the slot that [FindTextureSlot] returns
    for a registered tag is the texture unit (counted from GL_TEXTURE0)
    on which the texture that [FindTextureID] returns for the tag is
    bound; the table itself is not changed by the binding. *)
Theorem bound_unit_is_lookup_slot (wanted : string) (s : Renderer) :
  (0 <= fst (FindTextureSlot wanted s))%Z ->
  let s' := BindGLTextures s in
  gl_bound s' (GL_TEXTURE0 + fst (FindTextureSlot wanted s'))
  = FindTextureID wanted s'
  /\ fst (FindTextureSlot wanted s') = fst (FindTextureSlot wanted s)
  /\ FindTextureID wanted s' = FindTextureID wanted s.
Proof.
  intros Hslot. cbv zeta.
  destruct (BindGLTextures_cells (m_loadedTextures s) s)
    as (Hbound & Hcells & Hcount & _).
  change (fold_left bind_cell (seq 0 (m_loadedTextures s)) s)
    with (BindGLTextures s) in *.
  rewrite FindTextureSlot_fst in Hslot.
  rewrite !FindTextureSlot_fst, !FindTextureID_first, Hcells, Hcount.
  destruct (first_tagged (m_textureIDs s) wanted 0 (m_loadedTextures s))
    as [i |] eqn:Hi; [| lia].
  apply first_tagged_some in Hi.
  split; [apply Hbound; lia | split; reflexivity].
Qed.

Definition regenerate_cell (s : Renderer) (i : nat) : Renderer :=
  let '(name, s) := glGenTextures glGenTextures_name s in
  set_m_textureIDs
    (fun index => if (index =? i)%nat
                  then mkTexture name (tag (m_textureIDs s i))
                  else m_textureIDs s index)
    s.

Lemma DestroyGLTextures_cells (k : nat) (s : Renderer) :
  let s' := fold_left regenerate_cell (seq 0 k) s in
  (forall i : nat,
      m_textureIDs s' i
      = if (i <? k)%nat
        then mkTexture (glGenTextures_name (gl_generated s + i))
               (tag (m_textureIDs s i))
        else m_textureIDs s i)
  /\ gl_generated s' = (gl_generated s + k)%nat
  /\ m_loadedTextures s' = m_loadedTextures s
  /\ (gl_bound s' = gl_bound s
      /\ gl_active s' = gl_active s
      /\ stbi_unfreed s' = stbi_unfreed s
      /\ cout s' = cout s).
Proof.
  induction k as [| k IH]; cbv zeta.
  - cbn [seq fold_left]. rewrite Nat.add_0_r. repeat split.
  - rewrite seq_S, fold_left_app. cbn [Nat.add fold_left].
    cbv zeta in IH. destruct IH as (Hcells & Hgen & Hcount & Hrest).
    set (sk := fold_left regenerate_cell (seq 0 k) s) in *.
    unfold regenerate_cell, glGenTextures.
    cbn -[Nat.ltb Nat.eqb Nat.add].
    split; [| split; [rewrite Hgen; lia | split; [exact Hcount | exact Hrest]]].
    intros i. rewrite Hgen.
    destruct (Nat.eqb_spec i k) as [-> | Hne].
    + rewrite Hcells. rewrite Nat.ltb_irrefl.
      destruct (Nat.ltb_spec k (S k)); [reflexivity | lia].
    + rewrite Hcells.
      destruct (Nat.ltb_spec i k), (Nat.ltb_spec i (S k));
        try reflexivity; lia.
Qed.

(** X18: [DestroyGLTextures] destroys nothing.  For every registered
    texture it generates one more texture name and stores it over the
    registered ID: the count, the tags and the slots found are as before,
    the bindings are untouched, and the IDs are now the newly generated
    names. *)
Theorem DestroyGLTextures_generates_names (s : Renderer) :
  let s' := DestroyGLTextures s in
  m_loadedTextures s' = m_loadedTextures s
  /\ gl_generated s' = (gl_generated s + m_loadedTextures s)%nat
  /\ (forall i : nat,
         (i < m_loadedTextures s)%nat ->
         tag (m_textureIDs s' i) = tag (m_textureIDs s i)
         /\ ID (m_textureIDs s' i) = glGenTextures_name (gl_generated s + i))
  /\ (forall wanted : string,
         fst (FindTextureSlot wanted s') = fst (FindTextureSlot wanted s))
  /\ gl_bound s' = gl_bound s.
Proof.
  cbv zeta.
  destruct (DestroyGLTextures_cells (m_loadedTextures s) s)
    as (Hcells & Hgen & Hcount & Hbound & _).
  change (fold_left regenerate_cell (seq 0 (m_loadedTextures s)) s)
    with (DestroyGLTextures s) in *.
  assert (Hcell : forall i : nat,
             (i < m_loadedTextures s)%nat ->
             tag (m_textureIDs (DestroyGLTextures s) i)
             = tag (m_textureIDs s i)
             /\ ID (m_textureIDs (DestroyGLTextures s) i)
                = glGenTextures_name (gl_generated s + i)).
  { intros i Hi. rewrite Hcells.
    destruct (Nat.ltb_spec i (m_loadedTextures s)); [| lia].
    split; reflexivity. }
  split; [exact Hcount |]. split; [exact Hgen |]. split; [exact Hcell |].
  split; [| exact Hbound].
  intros wanted. rewrite !FindTextureSlot_fst, Hcount.
  rewrite (first_tagged_same_tags (m_textureIDs s)
             (m_textureIDs (DestroyGLTextures s)))
    by (intros i Hi; apply Hcell; lia).
  reflexivity.
Qed.

End Drivers.

End SceneRendererFacts.

(** * Preparing the scene and rendering a frame *)

Module SceneFrameFacts.

Import Glm SceneRenderer SceneRendererFacts.

Local Open Scope render_scope.

(** ** Vocabulary *)

(** The materials [DefineObjectMaterials] appends, in order, and the
    texture tags [LoadSceneTextures] registers, in order. *)
Definition scene_materials : list SceneManager.OBJECT_MATERIAL :=
  [SceneManager.wood_mat; SceneManager.glass_mat; SceneManager.plastic_mat;
   SceneManager.track_mat; SceneManager.ball_mat; SceneManager.alum_mat;
   SceneManager.crt_mat].

Definition scene_texture_files : list string :=
  ["textures/keyboard-filament.png"; "textures/dark-wood.png";
   "textures/keycap.png"; "textures/deskmat.png";
   "textures/deskmat_specularmap.png"; "textures/Hackerlambda1440p.png"]%string.

Definition scene_texture_tags : list string :=
  ["keyboard"; "desk"; "keycap"; "deskmat"; "deskmat_specmap";
   "lambda_wallpaper"]%string.

(** The tags of the registered textures, in cell order. *)
Definition loaded_tags (s : Renderer) : list string :=
  map (fun i => tag (m_textureIDs s i)) (seq 0 (m_loadedTextures s)).

(** The state [PrepareScene] leaves when it starts from a new scene
    manager: the scene's materials and the scene's textures. *)
Definition ready (s : Renderer) : Prop :=
  m_objectMaterials s = scene_materials
  /\ loaded_tags s = scene_texture_tags.

(** All that a frame leaves alone: everything but the uniforms and the
    calls on the meshes. *)
Definition fixed (s : Renderer)
  : list SceneManager.OBJECT_MATERIAL * (nat -> TEXTURE_INFO) * nat * bool
    * list Message * (nat * Z * (Z -> Z) * nat) :=
  (m_objectMaterials s, m_textureIDs s, m_loadedTextures s,
   g_errorEncountered s, cout s,
   (gl_generated s, gl_active s, gl_bound s, stbi_unfreed s)).

(** The uniforms hold the values of one of the scene's materials. *)
Definition dressed (u : Uniforms) : Prop :=
  exists m : SceneManager.OBJECT_MATERIAL,
    In m scene_materials
    /\ value "material.ambientColor" u
       = Some (vec3Value (SceneManager.ambientColor m))
    /\ value "material.ambientStrength" u
       = Some (FloatValue (SceneManager.ambientStrength m))
    /\ value "material.diffuseColor" u
       = Some (vec3Value (SceneManager.diffuseColor m))
    /\ value "material.specularColor" u
       = Some (vec3Value (SceneManager.specularColor m))
    /\ value "material.shininess" u
       = Some (FloatValue (SceneManager.shininess m)).

(** The second texture layer and the specular map are switched on. *)
Definition layered (u : Uniforms) : Prop :=
  value g_UseTexture2Name u = Some (IntValue 1)
  /\ value g_UseSpecularMap u = Some (IntValue 1).

(** Neither of them is. *)
Definition plain (u : Uniforms) : Prop :=
  value g_UseTexture2Name u <> Some (IntValue 1)
  /\ value g_UseSpecularMap u <> Some (IntValue 1).

(** The uniform names the two predicates read. *)
Definition watched (name : string) : bool :=
  existsb (String.eqb name)
    ["material.ambientColor"; "material.ambientStrength";
     "material.diffuseColor"; "material.specularColor"; "material.shininess";
     g_UseTexture2Name; g_UseSpecularMap]%string.

(** A draw made through a shader that holds a scene material and has
    the extra layers off. *)
Definition plain_draw (e : MeshEvent) : Prop :=
  exists (m : SceneManager.Mesh) (u : Uniforms),
    e = Drawn m (Some u) /\ dressed u /\ plain u.

(** From a state that satisfies [P], the method runs to its end and
    leaves a state that satisfies [Q]. *)
Definition hoare (P : Renderer -> Prop) (m : Method) (Q : Renderer -> Prop)
  : Prop :=
  forall s : Renderer, P s -> exists s' : Renderer, m s = Running s' /\ Q s'.

(** While a frame is rendered: the fixed part is that of [s0], the
    shader holds a scene material with the extra layers off, and [n]
    draws, all of them plain, have been added to [base]. *)
Definition rendering (s0 : Renderer) (base : list MeshEvent) (n : nat)
  (s : Renderer) : Prop :=
  fixed s = fixed s0
  /\ (exists u : Uniforms, m_pShaderManager s = Some u /\ dressed u /\ plain u)
  /\ exists draws : list MeshEvent,
      m_basicMeshes s = base ++ draws
      /\ List.length draws = n
      /\ Forall plain_draw draws.

(** The image file can be read and has a channel count that
    [CreateGLTexture] handles. *)
Definition loads (stbi_load : string -> option Image) (filename : string)
  : bool :=
  match stbi_load filename with
  | Some image => supported image
  | None => false
  end.

(** While the textures of the scene are loaded: the tags registered so
    far, their IDs in the order GL generated them, and all that the
    loading leaves as it was in [s0]. *)
Definition loading (glGenTextures_name : nat -> Z) (s0 : Renderer)
  (tags : list string) (s : Renderer) : Prop :=
  loaded_tags s = tags
  /\ m_loadedTextures s = List.length tags
  /\ (forall i : nat, (i < List.length tags)%nat ->
                      ID (m_textureIDs s i)
                      = glGenTextures_name (gl_generated s0 + i)%nat)
  /\ gl_generated s = (gl_generated s0 + List.length tags)%nat
  /\ stbi_unfreed s = stbi_unfreed s0
  /\ m_pShaderManager s = m_pShaderManager s0
  /\ m_basicMeshes s = m_basicMeshes s0
  /\ m_objectMaterials s = m_objectMaterials s0
  /\ g_errorEncountered s = g_errorEncountered s0.

(** The call on the mesh object behind an event. *)
Definition call_of (e : MeshEvent) : SceneManager.MeshCall :=
  match e with
  | Loaded m => SceneManager.Load m
  | Drawn m _ => SceneManager.Draw m
  end.

(** Whenever the method runs to its end, it has made exactly these
    calls on the mesh object, in this order. *)
Definition adds (p : Method) (calls : list SceneManager.MeshCall) : Prop :=
  forall s s' : Renderer,
    p s = Running s' ->
    exists events : list MeshEvent,
      m_basicMeshes s' = m_basicMeshes s ++ events
      /\ map call_of events = calls.

(** The meshes the frame draws, method by method. *)
Definition frame_meshes : list SceneManager.Mesh :=
  [SceneManager.Plane]
  ++ [SceneManager.Plane; SceneManager.Plane]
  ++ repeat SceneManager.Box 27
  ++ [SceneManager.Sphere; SceneManager.Cylinder; SceneManager.Cylinder;
      SceneManager.Sphere; SceneManager.Cylinder]
  ++ [SceneManager.Plane; SceneManager.Plane; SceneManager.Prism;
      SceneManager.Prism; SceneManager.Prism]
  ++ [SceneManager.Box; SceneManager.Box; SceneManager.Cylinder;
      SceneManager.Box; SceneManager.Box]
  ++ [SceneManager.Plane; SceneManager.Plane; SceneManager.Plane;
      SceneManager.Plane; SceneManager.Plane; SceneManager.Cylinder;
      SceneManager.Plane].

(** One call of [RenderScene] per frame, with the three clock readings
    of each frame. *)
Fixpoint render_frames (uninitialised : SceneManager.OBJECT_MATERIAL)
  (times : list (R * R * R)) : Method :=
  match times with
  | [] => Running
  | (tR, tG, tB) :: rest =>
      RenderScene uninitialised tR tG tB ;; render_frames uninitialised rest
  end.

(** ** Reasoning about sequences of calls *)

Lemma hoare_andThen (P Q R : Renderer -> Prop) (p q : Method) :
  hoare P p Q -> hoare Q q R -> hoare P (p ;; q) R.
Proof.
  intros Hp Hq s Hs. destruct (Hp s Hs) as (s1 & Hrun1 & Hs1).
  destruct (Hq s1 Hs1) as (s2 & Hrun2 & Hs2).
  exists s2. unfold andThen. rewrite Hrun1. split; assumption.
Qed.

Lemma value_setValue (name name' : string) (v : Uniform) (u : Uniforms) :
  value name (setValue name' v u)
  = if String.eqb name' name then Some v else value name u.
Proof.
  unfold value, setValue. cbn [find fst snd].
  destruct (String.eqb name' name); reflexivity.
Qed.

Lemma watched_false (name : string) :
  watched name = false ->
  forall (v : Uniform) (u : Uniforms),
    (dressed u -> dressed (setValue name v u))
    /\ (plain u -> plain (setValue name v u)).
Proof.
  unfold watched. cbn [existsb]. intros Hname v u.
  repeat (apply orb_false_elim in Hname;
          let H := fresh "Hn" in destruct Hname as (H & Hname)).
  split.
  - intros (m & Hm & H1 & H2 & H3 & H4 & H5). exists m.
    rewrite !value_setValue, Hn, Hn0, Hn1, Hn2, Hn3.
    repeat split; assumption.
  - intros (H1 & H2). unfold plain.
    rewrite !value_setValue, Hn4, Hn5. split; assumption.
Qed.

(** Switching one of the extra layers off keeps the material. *)
Lemma watched_false_flag (u : Uniforms) (name : string) (v : Uniform) :
  dressed u ->
  name = g_UseTexture2Name \/ name = g_UseSpecularMap ->
  dressed (setValue name v u).
Proof.
  intros (m & Hm & H1 & H2 & H3 & H4 & H5) Hname. exists m.
  rewrite !value_setValue.
  destruct Hname as [-> | ->]; repeat split; assumption.
Qed.

Lemma andThen_step (p q : Method) (s s1 : Renderer) :
  p s = Running s1 -> (p ;; q) s = q s1.
Proof. intros Hp. unfold andThen. rewrite Hp. reflexivity. Qed.

(** ** What a ready state finds *)

Lemma listed_tag_found (cells : nat -> TEXTURE_INFO) (wanted : string)
  (n from : nat) :
  In wanted (map (fun i => tag (cells i)) (seq from n)) ->
  exists i : nat, first_tagged cells wanted from n = Some i.
Proof.
  revert from. induction n as [| n IH]; intros from Hin; [contradiction |].
  cbn [seq map In] in Hin. cbn [first_tagged].
  destruct (String.eqb_spec (tag (cells from)) wanted) as [Heq | Hne].
  - exists from. reflexivity.
  - destruct Hin as [Heq | Hin]; [contradiction | apply IH, Hin].
Qed.

Lemma loaded_tag_found (wanted : string) (s : Renderer) :
  In wanted (loaded_tags s) ->
  exists i : nat, FindTextureSlot wanted s = (Z.of_nat i, s).
Proof.
  intros Hin. rewrite FindTextureSlot_first.
  destruct (listed_tag_found _ _ _ _ Hin) as (i & ->).
  exists i. reflexivity.
Qed.

Lemma scene_material_found (m out : SceneManager.OBJECT_MATERIAL) :
  In m scene_materials ->
  SceneManager.FindMaterial (SceneManager.mkScene scene_materials [])
    (SceneManager.tag m) out
  = (true, SceneManager.assign_from m out).
Proof.
  intros Hin. unfold SceneManager.FindMaterial.
  rewrite SceneManagerFacts.FindMaterial_loop_find.
  cbn [SceneManager.m_objectMaterials skipn].
  unfold scene_materials in Hin. cbn [In] in Hin.
  repeat (destruct Hin as [<- | Hin]; [reflexivity |]).
  contradiction.
Qed.

Lemma scene_material_tag (t : string) :
  In t (map SceneManager.tag scene_materials) ->
  exists m : SceneManager.OBJECT_MATERIAL,
    In m scene_materials /\ SceneManager.tag m = t.
Proof.
  intros Hin. apply in_map_iff in Hin. destruct Hin as (m & Htag & Hm).
  exists m. split; assumption.
Qed.

Section Frame.

Variable uninitialised : SceneManager.OBJECT_MATERIAL.

#[local] Abbreviation SetShaderMaterial := (SetShaderMaterial uninitialised).
#[local] Abbreviation drawDesk := (drawDesk uninitialised).
#[local] Abbreviation drawWalls := (drawWalls uninitialised).
#[local] Abbreviation drawKeyboard := (drawKeyboard uninitialised).
#[local] Abbreviation drawTrackball := (drawTrackball uninitialised).
#[local] Abbreviation drawPrimaryMonitor := (drawPrimaryMonitor uninitialised).
#[local] Abbreviation drawSecondaryMonitor :=
  (drawSecondaryMonitor uninitialised).
#[local] Abbreviation drawTower := (drawTower uninitialised).
#[local] Abbreviation RenderScene := (RenderScene uninitialised).

(** ** Single calls on a state with a shader manager *)

Lemma SetShaderColor_runs (r g b a : R) (s : Renderer) (u : Uniforms) :
  m_pShaderManager s = Some u ->
  SetShaderColor r g b a s
  = Running (set_m_pShaderManager
               (Some (setValue g_ColorValueName (Vec4Value r g b a)
                        (setValue g_UseTextureName (int_of_bool false) u)))
               s).
Proof. intros Hu. unfold SetShaderColor. rewrite Hu. reflexivity. Qed.

Lemma set_sampler_runs (useName samplerName textureTag : string)
  (s : Renderer) (u : Uniforms) :
  m_pShaderManager s = Some u ->
  In textureTag (loaded_tags s) ->
  exists i : nat,
    set_sampler useName samplerName textureTag s
    = Running (set_m_pShaderManager
                 (Some (setValue samplerName (Sampler2DValue (Z.of_nat i))
                          (setValue useName (int_of_bool true) u)))
                 s).
Proof.
  intros Hu Hin. destruct (loaded_tag_found _ _ Hin) as (i & Hfound).
  exists i. unfold set_sampler. rewrite Hu, Hfound. reflexivity.
Qed.

Lemma SetShaderMaterial_runs (m : SceneManager.OBJECT_MATERIAL)
  (s : Renderer) (u : Uniforms) :
  m_pShaderManager s = Some u ->
  m_objectMaterials s = scene_materials ->
  In m scene_materials ->
  SetShaderMaterial (SceneManager.tag m) s
  = Running (set_m_pShaderManager
               (Some (send_material
                        (SceneManager.assign_from m uninitialised) u))
               s).
Proof.
  intros Hu Hmaterials Hm.
  unfold SceneRenderer.SetShaderMaterial, FindMaterial, through_shader.
  rewrite Hmaterials, (scene_material_found m uninitialised Hm), Hu.
  reflexivity.
Qed.

Lemma through_shader_runs (f : Uniforms -> Uniforms) (s : Renderer)
  (u : Uniforms) :
  m_pShaderManager s = Some u ->
  through_shader f s = Running (set_m_pShaderManager (Some (f u)) s).
Proof. intros Hu. unfold through_shader. rewrite Hu. reflexivity. Qed.

Lemma send_material_dressed (m : SceneManager.OBJECT_MATERIAL) (u : Uniforms) :
  In m scene_materials ->
  dressed (send_material (SceneManager.assign_from m uninitialised) u).
Proof. intros Hm. exists m. repeat split; assumption. Qed.

Lemma send_material_plain (m : SceneManager.OBJECT_MATERIAL) (u : Uniforms) :
  plain u -> plain (send_material m u).
Proof.
  intros (H1 & H2). unfold plain, send_material.
  rewrite !value_setValue. split; assumption.
Qed.

(** ** Single calls while a frame is rendered *)

Section Rendering.

Variable s0 : Renderer.
Variable base : list MeshEvent.
Hypothesis s0_ready : ready s0.

(** A call that only rewrites the uniforms, keeping a scene material in
    them and the extra layers off. *)
Lemma rendering_write (op : Method) (n : nat) :
  (forall (s : Renderer) (u : Uniforms),
      fixed s = fixed s0 ->
      m_pShaderManager s = Some u ->
      exists u' : Uniforms,
        op s = Running (set_m_pShaderManager (Some u') s)
        /\ (dressed u -> plain u -> dressed u' /\ plain u')) ->
  hoare (rendering s0 base n) op (rendering s0 base n).
Proof.
  intros Hop s (Hfixed & (u & Hu & Hdressed & Hplain) & Hdraws).
  destruct (Hop s u Hfixed Hu) as (u' & Hrun & Hkeeps).
  exists (set_m_pShaderManager (Some u') s). split; [exact Hrun |].
  split; [exact Hfixed |]. split; [| exact Hdraws].
  exists u'. split; [reflexivity |]. apply Hkeeps; assumption.
Qed.

Lemma fixed_fields (s : Renderer) :
  fixed s = fixed s0 ->
  m_objectMaterials s = scene_materials /\ loaded_tags s = scene_texture_tags.
Proof.
  unfold fixed. intros Hfixed. injection Hfixed as Hm Hc Hn _ _ _ _ _ _.
  destruct s0_ready as (Hmaterials & Htags).
  unfold loaded_tags in *. rewrite Hm, Hc, Hn. split; assumption.
Qed.

Lemma rendering_SetShaderColor (r g b a : R) (n : nat) :
  hoare (rendering s0 base n) (SetShaderColor r g b a) (rendering s0 base n).
Proof.
  apply rendering_write. intros s u _ Hu. eexists.
  split; [apply SetShaderColor_runs, Hu |]. intros Hd Hp.
  split; repeat apply watched_false; try reflexivity; assumption.
Qed.

Lemma rendering_SetShaderTexture (textureTag : string) (n : nat) :
  In textureTag scene_texture_tags ->
  hoare (rendering s0 base n) (SetShaderTexture textureTag)
    (rendering s0 base n).
Proof.
  intros Hin. apply rendering_write. intros s u Hfixed Hu.
  destruct (fixed_fields s Hfixed) as (_ & Htags).
  destruct (set_sampler_runs g_UseTextureName g_TextureValueName textureTag
              s u Hu) as (i & Hrun); [rewrite Htags; exact Hin |].
  eexists. split; [exact Hrun |]. intros Hd Hp.
  split; repeat apply watched_false; try reflexivity; assumption.
Qed.

Lemma rendering_SetShaderMaterial (materialTag : string) (n : nat) :
  In materialTag (map SceneManager.tag scene_materials) ->
  hoare (rendering s0 base n) (SetShaderMaterial materialTag)
    (rendering s0 base n).
Proof.
  intros Hin. apply rendering_write. intros s u Hfixed Hu.
  destruct (fixed_fields s Hfixed) as (Hmaterials & _).
  destruct (scene_material_tag _ Hin) as (m & Hm & <-).
  exists (send_material (SceneManager.assign_from m uninitialised) u).
  split; [apply (SetShaderMaterial_runs m s u Hu Hmaterials Hm) |].
  intros _ Hp.
  split; [apply send_material_dressed, Hm | apply send_material_plain, Hp].
Qed.

Lemma rendering_through_shader (name : string) (v : Uniform) (n : nat) :
  watched name = false ->
  hoare (rendering s0 base n) (through_shader (setValue name v))
    (rendering s0 base n).
Proof.
  intros Hname. apply rendering_write. intros s u _ Hu. eexists.
  split; [apply through_shader_runs, Hu |]. intros Hd Hp.
  split; apply watched_false; assumption.
Qed.

Lemma rendering_setIntValue (name : string) (v : bool) (n : nat) :
  watched name = false ->
  hoare (rendering s0 base n) (setIntValue name v) (rendering s0 base n).
Proof. apply rendering_through_shader. Qed.

Lemma rendering_setVec3Value (name : string) (x y z : R) (n : nat) :
  watched name = false ->
  hoare (rendering s0 base n) (setVec3Value name x y z) (rendering s0 base n).
Proof. apply rendering_through_shader. Qed.

Lemma rendering_setFloatValue (name : string) (v : R) (n : nat) :
  watched name = false ->
  hoare (rendering s0 base n) (setFloatValue name v) (rendering s0 base n).
Proof. apply rendering_through_shader. Qed.

Lemma rendering_DrawMesh (m : SceneManager.Mesh) (n : nat) :
  hoare (rendering s0 base n) (DrawMesh m) (rendering s0 base (S n)).
Proof.
  intros s (Hfixed & (u & Hu & Hdressed & Hplain)
            & (draws & Hdraws & Hlength & Hall)).
  eexists. split; [reflexivity |].
  split; [exact Hfixed |].
  split; [exists u; split; [exact Hu | split; assumption] |].
  exists (draws ++ [Drawn m (Some u)]).
  cbn [m_basicMeshes set_m_basicMeshes].
  rewrite Hdraws, Hu, <- app_assoc, length_app, Hlength.
  split; [reflexivity |]. split; [cbn; lia |].
  apply Forall_app. split; [exact Hall |].
  apply Forall_cons; [| apply Forall_nil].
  exists m, u. split; [reflexivity | split; assumption].
Qed.

Create HintDb frame.

#[local] Hint Resolve rendering_SetShaderColor rendering_SetShaderTexture
  rendering_SetShaderMaterial rendering_setIntValue rendering_setVec3Value
  rendering_setFloatValue rendering_DrawMesh : frame.

#[local] Hint Extern 1 (In _ _) =>
  solve [cbn; repeat (first [left; reflexivity | right])] : frame.

#[local] Hint Extern 1 (watched _ = false) => reflexivity : frame.

(** A sequence of calls: one call after the other. *)
Ltac calls :=
  repeat (eapply hoare_andThen; [solve [eauto with frame] |]);
  solve [eauto with frame].

Lemma rendering_updateRGBlight (tR tG tB : R) (n : nat) :
  hoare (rendering s0 base n) (updateRGBlight tR tG tB)
    (rendering s0 base n).
Proof. unfold updateRGBlight. cbv zeta. calls. Qed.

#[local] Hint Resolve rendering_updateRGBlight : frame.

Lemma rendering_drawWalls (n : nat) :
  hoare (rendering s0 base n) drawWalls (rendering s0 base (2 + n)).
Proof. unfold SceneRenderer.drawWalls. calls. Qed.

Lemma rendering_drawKeyboard (n : nat) :
  hoare (rendering s0 base n) drawKeyboard (rendering s0 base (27 + n)).
Proof. unfold SceneRenderer.drawKeyboard. calls. Qed.

Lemma rendering_drawTrackball (n : nat) :
  hoare (rendering s0 base n) drawTrackball (rendering s0 base (5 + n)).
Proof. unfold SceneRenderer.drawTrackball. calls. Qed.

Lemma rendering_drawPrimaryMonitor (n : nat) :
  hoare (rendering s0 base n) drawPrimaryMonitor (rendering s0 base (5 + n)).
Proof. unfold SceneRenderer.drawPrimaryMonitor. calls. Qed.

Lemma rendering_drawSecondaryMonitor (n : nat) :
  hoare (rendering s0 base n) drawSecondaryMonitor
    (rendering s0 base (5 + n)).
Proof. unfold SceneRenderer.drawSecondaryMonitor. calls. Qed.

Lemma rendering_drawTower (tR tG tB : R) (n : nat) :
  hoare (rendering s0 base n) (drawTower tR tG tB)
    (rendering s0 base (7 + n)).
Proof. unfold SceneRenderer.drawTower. calls. Qed.

End Rendering.

(** ** The desk, and the frame as a whole *)

Lemma ready_tag (wanted : string) (s s1 : Renderer) :
  ready s -> fixed s1 = fixed s -> In wanted scene_texture_tags ->
  In wanted (loaded_tags s1).
Proof.
  intros Hready Hfixed Hin.
  destruct (fixed_fields s Hready s1 Hfixed) as (_ & ->). exact Hin.
Qed.

Lemma drawDesk_frame (s : Renderer) (u : Uniforms) :
  ready s ->
  m_pShaderManager s = Some u ->
  exists u0 : Uniforms,
    layered u0 /\ dressed u0
    /\ exists s1 : Renderer,
        drawDesk s = Running s1
        /\ rendering s (m_basicMeshes s ++ [Drawn SceneManager.Plane (Some u0)])
             0 s1.
Proof.
  intros Hready Hu. unfold SceneRenderer.drawDesk.
  rewrite (andThen_step _ _ _ _ (SetShaderColor_runs 1 1 1 1 s u Hu)).
  match goal with |- context [set_m_pShaderManager (Some ?v) s] =>
    set (u1 := v) end.
  set (s1 := set_m_pShaderManager (Some u1) s).
  destruct (set_sampler_runs g_UseTextureName g_TextureValueName "desk"
              s1 u1 eq_refl) as (i1 & Hrun1).
  { apply (ready_tag _ s); [exact Hready | reflexivity |].
    cbn; tauto. }
  rewrite (andThen_step (SetShaderTexture "desk") _ _ _ Hrun1).
  match goal with |- context [set_m_pShaderManager (Some ?v) s1] =>
    set (u2 := v) end.
  set (s2 := set_m_pShaderManager (Some u2) s1).
  destruct (set_sampler_runs g_UseTexture2Name g_Texture2ValueName "deskmat"
              s2 u2 eq_refl) as (i2 & Hrun2).
  { apply (ready_tag _ s); [exact Hready | reflexivity |].
    cbn; tauto. }
  rewrite (andThen_step (SetShaderTexture2 "deskmat") _ _ _ Hrun2).
  match goal with |- context [set_m_pShaderManager (Some ?v) s2] =>
    set (u3 := v) end.
  set (s3 := set_m_pShaderManager (Some u3) s2).
  destruct (set_sampler_runs g_UseSpecularMap g_SpecularMapName
              "deskmat_specmap" s3 u3 eq_refl) as (i3 & Hrun3).
  { apply (ready_tag _ s); [exact Hready | reflexivity |].
    cbn; tauto. }
  rewrite (andThen_step (SetShaderSpecularMap "deskmat_specmap") _ _ _ Hrun3).
  match goal with |- context [set_m_pShaderManager (Some ?v) s3] =>
    set (u4 := v) end.
  set (s4 := set_m_pShaderManager (Some u4) s3).
  assert (Hwood : In SceneManager.wood_mat scene_materials)
    by (left; reflexivity).
  rewrite (andThen_step (SetShaderMaterial "wood") _ _ _
             (SetShaderMaterial_runs SceneManager.wood_mat s4 u4 eq_refl
                (proj1 Hready) Hwood)).
  set (u5 := send_material
               (SceneManager.assign_from SceneManager.wood_mat uninitialised)
               u4).
  set (s5 := set_m_pShaderManager (Some u5) s4).
  exists u5. split; [split; reflexivity |].
  split; [apply send_material_dressed, Hwood |].
  eexists. split; [reflexivity |].
  split; [reflexivity |]. split.
  - eexists. split; [reflexivity |]. split.
    + apply watched_false_flag; [| right; reflexivity].
      apply watched_false_flag; [| left; reflexivity].
      apply send_material_dressed, Hwood.
    + split; intros Hone; discriminate Hone.
  - exists []. rewrite app_nil_r. repeat split. apply Forall_nil.
Qed.

Lemma RenderScene_frame (tR tG tB : R) (s : Renderer) :
  ready s ->
  m_pShaderManager s <> None ->
  exists u0 : Uniforms,
    layered u0 /\ dressed u0
    /\ exists s' : Renderer,
        RenderScene tR tG tB s = Running s'
        /\ rendering s (m_basicMeshes s ++ [Drawn SceneManager.Plane (Some u0)])
             51 s'.
Proof.
  intros Hready Hshader.
  destruct (m_pShaderManager s) as [u |] eqn:Hu; [| contradiction].
  destruct (drawDesk_frame s u Hready Hu)
    as (u0 & Hlayered & Hdressed & s1 & Hdesk & Hs1).
  exists u0. split; [exact Hlayered |]. split; [exact Hdressed |].
  unfold SceneRenderer.RenderScene.
  rewrite (andThen_step _ _ _ _ Hdesk).
  clear Hdesk. revert s1 Hs1.
  change (hoare
            (rendering s (m_basicMeshes s
                          ++ [Drawn SceneManager.Plane (Some u0)]) 0)
            (drawWalls ;; drawKeyboard ;; drawTrackball ;;
             drawPrimaryMonitor ;; drawSecondaryMonitor ;;
             drawTower tR tG tB)
            (rendering s (m_basicMeshes s
                          ++ [Drawn SceneManager.Plane (Some u0)]) 51)).
  eapply hoare_andThen; [apply (rendering_drawWalls s _ Hready) |].
  eapply hoare_andThen; [apply (rendering_drawKeyboard s _ Hready) |].
  eapply hoare_andThen; [apply (rendering_drawTrackball s _ Hready) |].
  eapply hoare_andThen; [apply (rendering_drawPrimaryMonitor s _ Hready) |].
  eapply hoare_andThen; [apply (rendering_drawSecondaryMonitor s _ Hready) |].
  apply (rendering_drawTower s _ Hready).
Qed.

(** ** Preparing the scene *)

Section Preparation.

Variable stbi_load : string -> option Image.
Variable glGenTextures_name : nat -> Z.

#[local] Abbreviation orExit := (orExit stbi_load glGenTextures_name).
#[local] Abbreviation LoadSceneTextures :=
  (LoadSceneTextures stbi_load glGenTextures_name).
#[local] Abbreviation PrepareScene :=
  (PrepareScene stbi_load glGenTextures_name).
#[local] Abbreviation loads := (loads stbi_load).
#[local] Abbreviation loading := (loading glGenTextures_name).

Lemma push_back_runs (m : SceneManager.OBJECT_MATERIAL)
  (materials : list SceneManager.OBJECT_MATERIAL) (s : Renderer) :
  push_back m (set_m_objectMaterials materials s)
  = Running (set_m_objectMaterials (materials ++ [m]) s).
Proof. reflexivity. Qed.

Lemma DefineObjectMaterials_runs (s : Renderer) :
  DefineObjectMaterials s
  = Running (set_m_objectMaterials (m_objectMaterials s ++ scene_materials) s).
Proof.
  unfold DefineObjectMaterials.
  rewrite (andThen_step (push_back SceneManager.wood_mat) _ s
             (set_m_objectMaterials
                (m_objectMaterials s ++ [SceneManager.wood_mat]) s) eq_refl).
  repeat rewrite (andThen_step _ _ _ _ (push_back_runs _ _ _)).
  rewrite push_back_runs, <- !app_assoc. reflexivity.
Qed.

Ltac through_shader_steps :=
  repeat match goal with
         | |- context [andThen (through_shader ?f) ?q ?s1] =>
             rewrite (andThen_step (through_shader f) q s1 _
                        (through_shader_runs f s1 _ eq_refl))
         end;
  match goal with
  | |- context [through_shader ?f ?s1] =>
      rewrite (through_shader_runs f s1 _ eq_refl)
  end.

Lemma enableLighting_runs (s : Renderer) (u : Uniforms) :
  m_pShaderManager s = Some u ->
  exists u' : Uniforms,
    enableLighting s = Running (set_m_pShaderManager (Some u') s).
Proof.
  intros Hu. unfold enableLighting, setIntValue.
  rewrite (andThen_step _ _ _ _ (through_shader_runs _ s u Hu)).
  through_shader_steps. eexists. reflexivity.
Qed.

Lemma SetUpSceneLights_runs (s : Renderer) (u : Uniforms) :
  m_pShaderManager s = Some u ->
  exists u' : Uniforms,
    SetUpSceneLights s = Running (set_m_pShaderManager (Some u') s).
Proof.
  intros Hu. destruct (enableLighting_runs s u Hu) as (u1 & Hrun).
  unfold SetUpSceneLights, setIntValue, setVec3Value, setFloatValue.
  rewrite (andThen_step _ _ _ _ Hrun).
  through_shader_steps. eexists. reflexivity.
Qed.

Lemma SetUpSceneLights_null (s : Renderer) :
  m_pShaderManager s = None -> SetUpSceneLights s = NullDereference.
Proof.
  intros Hu. unfold SetUpSceneLights, enableLighting, andThen, through_shader.
  rewrite Hu. reflexivity.
Qed.

Lemma orExit_fails (filename newtag : string) (s : Renderer) :
  loads filename = false -> orExit filename newtag s = Exited 1.
Proof.
  unfold SceneFrameFacts.loads, SceneRenderer.orExit, CreateGLTexture.
  destruct (stbi_load filename) as [image |]; [| reflexivity].
  unfold supported. intros Hchannels. apply orb_false_elim in Hchannels.
  destruct Hchannels as (H3 & H4). cbv zeta. unfold glGenTextures.
  rewrite H3, H4. reflexivity.
Qed.

Lemma loading_step (filename newtag : string) (tags : list string)
  (s0 s : Renderer) :
  loading s0 tags s ->
  loads filename = true ->
  exists s' : Renderer,
    orExit filename newtag s = Running s' /\ loading s0 (tags ++ [newtag]) s'.
Proof.
  intros (Htags & Hcount & Hids & Hgen & Hfree & Hrest) Hloads.
  unfold SceneFrameFacts.loads in Hloads.
  destruct (stbi_load filename) as [image |] eqn:Hload; [| discriminate].
  destruct (CreateGLTexture_created stbi_load glGenTextures_name filename
              newtag image s Hload Hloads)
    as (s' & Hcreate & Hcount' & Hcells & Hgen' & Hfree' & _ & _ & Hrest' & _).
  exists s'. unfold SceneRenderer.orExit. rewrite Hcreate.
  split; [reflexivity |].
  assert (Hlength : List.length (tags ++ [newtag]) = S (List.length tags))
    by (rewrite length_app; cbn; lia).
  unfold SceneFrameFacts.loading. rewrite Hlength.
  split.
  { unfold loaded_tags in *. rewrite Hcount', seq_S, map_app.
    cbn [Nat.add map]. rewrite Hcells, Nat.eqb_refl. cbn [tag].
    f_equal. rewrite <- Htags. apply map_ext_in. intros i Hi.
    apply in_seq in Hi. rewrite Hcells.
    destruct (Nat.eqb_spec i (m_loadedTextures s)); [lia | reflexivity]. }
  split; [lia |].
  split.
  { intros i Hi. rewrite Hcells.
    destruct (Nat.eqb_spec i (m_loadedTextures s)) as [-> | Hne].
    - cbn [ID]. rewrite Hgen, Hcount. reflexivity.
    - apply Hids. lia. }
  split; [lia |]. split; [congruence |].
  destruct Hrest as (H1 & H2 & H3 & H4).
  destruct Hrest' as (H1' & H2' & H3' & H4').
  repeat split; congruence.
Qed.

Lemma loading_start (s : Renderer) :
  m_loadedTextures s = 0%nat -> loading s [] s.
Proof.
  intros Hcount. unfold SceneFrameFacts.loading, loaded_tags.
  rewrite Hcount. cbn [List.length seq map]. rewrite Nat.add_0_r.
  repeat split. intros i Hi. lia.
Qed.

Lemma LoadSceneTextures_runs (s : Renderer) :
  m_loadedTextures s = 0%nat ->
  forallb loads scene_texture_files = true ->
  exists s' : Renderer,
    LoadSceneTextures s = Running s'
    /\ loading s scene_texture_tags s'
    /\ forall i : nat, (i < 6)%nat ->
                       gl_bound s' (GL_TEXTURE0 + Z.of_nat i)
                       = ID (m_textureIDs s' i).
Proof.
  intros Hcount Hloads. unfold scene_texture_files in Hloads.
  cbn [forallb] in Hloads.
  repeat (apply andb_prop in Hloads;
          let H := fresh "Hfile" in destruct Hloads as (H & Hloads)).
  pose proof (loading_start s Hcount) as Hs0.
  unfold SceneRenderer.LoadSceneTextures.
  destruct (loading_step _ "keyboard" _ _ _ Hs0 Hfile) as (s1 & Hrun1 & Hs1).
  rewrite (andThen_step _ _ _ _ Hrun1).
  destruct (loading_step _ "desk" _ _ _ Hs1 Hfile0) as (s2 & Hrun2 & Hs2).
  rewrite (andThen_step _ _ _ _ Hrun2).
  destruct (loading_step _ "keycap" _ _ _ Hs2 Hfile1) as (s3 & Hrun3 & Hs3).
  rewrite (andThen_step _ _ _ _ Hrun3).
  destruct (loading_step _ "deskmat" _ _ _ Hs3 Hfile2) as (s4 & Hrun4 & Hs4).
  rewrite (andThen_step _ _ _ _ Hrun4).
  destruct (loading_step _ "deskmat_specmap" _ _ _ Hs4 Hfile3)
    as (s5 & Hrun5 & Hs5).
  rewrite (andThen_step _ _ _ _ Hrun5).
  destruct (loading_step _ "lambda_wallpaper" _ _ _ Hs5 Hfile4)
    as (s6 & Hrun6 & Hs6).
  rewrite (andThen_step _ _ _ _ Hrun6).
  exists (BindGLTextures s6). split; [reflexivity |].
  change (loading s scene_texture_tags s6) in Hs6.
  destruct Hs6 as (Htags & Hcount6 & Hids & Hgen & Hfree & H1 & H2 & H3 & H4).
  destruct (BindGLTextures_cells (m_loadedTextures s6) s6)
    as (Hbound & Hcells & Hcount' & H1' & H2' & H3' & H4' & _ & Hgen' & Hfree').
  change (fold_left bind_cell (seq 0 (m_loadedTextures s6)) s6)
    with (BindGLTextures s6) in *.
  split.
  - unfold SceneFrameFacts.loading, loaded_tags.
    rewrite Hcells, Hcount'. fold (loaded_tags s6).
    repeat split; try congruence.
    intros i Hi. apply Hids, Hi.
  - intros i Hi. rewrite Hcells. apply Hbound. rewrite Hcount6. exact Hi.
Qed.

Lemma orExit_runs (filename newtag : string) (s : Renderer) :
  loads filename = true ->
  exists s' : Renderer, orExit filename newtag s = Running s'.
Proof.
  unfold SceneFrameFacts.loads. intros Hloads.
  destruct (stbi_load filename) as [image |] eqn:Hload; [| discriminate].
  destruct (CreateGLTexture_created stbi_load glGenTextures_name filename
              newtag image s Hload Hloads) as (s' & Hcreate & _).
  exists s'. unfold SceneRenderer.orExit. rewrite Hcreate. reflexivity.
Qed.

Lemma LoadSceneTextures_exits (s : Renderer) :
  forallb loads scene_texture_files = false ->
  LoadSceneTextures s = Exited 1.
Proof.
  intros Hloads. unfold scene_texture_files in Hloads.
  cbn [forallb] in Hloads. unfold SceneRenderer.LoadSceneTextures.
  repeat match goal with
         | H : loads ?f && _ = false
           |- andThen (SceneRenderer.orExit _ _ ?f ?t) ?q ?s1 = _ =>
             let Hf := fresh "Hfile" in
             destruct (loads f) eqn:Hf;
             [ cbn [andb] in H;
               let s2 := fresh "s" in
               let Hrun := fresh "Hrun" in
               destruct (orExit_runs f t s1 Hf) as (s2 & Hrun);
               rewrite (andThen_step _ _ _ _ Hrun)
             | unfold andThen at 1; rewrite (orExit_fails f t s1 Hf);
               reflexivity ]
         end.
  discriminate Hloads.
Qed.

Lemma LoadMesh_runs (m : SceneManager.Mesh) (meshes : list MeshEvent)
  (s : Renderer) :
  LoadMesh m (set_m_basicMeshes meshes s)
  = Running (set_m_basicMeshes (meshes ++ [Loaded m]) s).
Proof. reflexivity. Qed.

Lemma PrepareScene_ready (s : Renderer) :
  m_pShaderManager s <> None ->
  m_objectMaterials s = [] ->
  m_loadedTextures s = 0%nat ->
  forallb loads scene_texture_files = true ->
  exists s' : Renderer,
    PrepareScene s = Running s'
    /\ ready s'
    /\ m_pShaderManager s' <> None
    /\ m_basicMeshes s'
       = m_basicMeshes s ++ map Loaded SceneManager.five_meshes
    /\ (forall i : nat, (i < 6)%nat ->
          gl_bound s' (GL_TEXTURE0 + Z.of_nat i) = ID (m_textureIDs s' i)
          /\ ID (m_textureIDs s' i)
             = glGenTextures_name (gl_generated s + i)%nat)
    /\ gl_generated s' = (gl_generated s + 6)%nat
    /\ stbi_unfreed s' = stbi_unfreed s
    /\ g_errorEncountered s' = g_errorEncountered s.
Proof.
  intros Hshader Hmaterials Hcount Hloads.
  destruct (m_pShaderManager s) as [u |] eqn:Hu; [clear Hshader | contradiction].
  unfold SceneRenderer.PrepareScene.
  rewrite (andThen_step _ _ _ _ (DefineObjectMaterials_runs s)).
  rewrite Hmaterials, app_nil_l.
  set (s1 := set_m_objectMaterials scene_materials s).
  destruct (SetUpSceneLights_runs s1 u Hu) as (u1 & Hlights).
  rewrite (andThen_step _ _ _ _ Hlights).
  set (s2 := set_m_pShaderManager (Some u1) s1).
  destruct (LoadSceneTextures_runs s2 Hcount Hloads)
    as (s3 & Hrun & Hloading & Hbound).
  rewrite (andThen_step _ _ _ _ Hrun).
  rewrite (andThen_step (LoadMesh SceneManager.Plane) _ s3
             (set_m_basicMeshes (m_basicMeshes s3 ++ [Loaded SceneManager.Plane])
                s3) eq_refl).
  repeat rewrite (andThen_step _ _ _ _ (LoadMesh_runs _ _ _)).
  rewrite LoadMesh_runs, <- !app_assoc.
  eexists. split; [reflexivity |].
  destruct Hloading
    as (Htags & _ & Hids & Hgen & Hfree & Hu3 & Hmeshes & Hmat & Herror).
  split; [split; [exact Hmat | exact Htags] |].
  split; [cbn [m_pShaderManager set_m_basicMeshes]; rewrite Hu3; discriminate |].
  split; [cbn [m_basicMeshes set_m_basicMeshes]; rewrite Hmeshes; reflexivity |].
  split; [intros i Hi; split; [apply Hbound, Hi | apply Hids, Hi] |].
  split; [exact Hgen |]. split; [exact Hfree | exact Herror].
Qed.

Lemma SetShaderMaterial_null (materialTag : string) (s : Renderer) :
  m_pShaderManager s = None ->
  SetShaderMaterial materialTag s = NullDereference
  \/ SetShaderMaterial materialTag s = Running s.
Proof.
  intros Hu. unfold SceneRenderer.SetShaderMaterial.
  destruct (0 <? List.length (m_objectMaterials s))%nat; [| right; reflexivity].
  destruct (FindMaterial materialTag uninitialised s) as [[|] material];
    [left | right; reflexivity].
  unfold through_shader. rewrite Hu. reflexivity.
Qed.

Lemma set_sampler_null (useName samplerName textureTag : string)
  (s : Renderer) :
  m_pShaderManager s = None ->
  set_sampler useName samplerName textureTag s = Running s.
Proof. intros Hu. unfold set_sampler. rewrite Hu. reflexivity. Qed.

Lemma SetShaderColor_null (r g b a : R) (s : Renderer) :
  m_pShaderManager s = None -> SetShaderColor r g b a s = Running s.
Proof. intros Hu. unfold SetShaderColor. rewrite Hu. reflexivity. Qed.

Lemma drawDesk_null (s : Renderer) :
  m_pShaderManager s = None -> drawDesk s = NullDereference.
Proof.
  intros Hu. unfold SceneRenderer.drawDesk.
  rewrite (andThen_step _ _ _ _ (SetShaderColor_null 1 1 1 1 s Hu)).
  rewrite (andThen_step (SetShaderTexture "desk") _ _ _
             (set_sampler_null _ _ _ s Hu)).
  rewrite (andThen_step (SetShaderTexture2 "deskmat") _ _ _
             (set_sampler_null _ _ _ s Hu)).
  rewrite (andThen_step (SetShaderSpecularMap "deskmat_specmap") _ _ _
             (set_sampler_null _ _ _ s Hu)).
  destruct (SetShaderMaterial_null "wood" s Hu) as [Hnull | Hrun].
  - unfold andThen at 1. rewrite Hnull. reflexivity.
  - rewrite (andThen_step _ _ _ _ Hrun).
    unfold andThen, DrawMesh, setIntValue, through_shader.
    cbn [m_pShaderManager set_m_basicMeshes]. rewrite Hu. reflexivity.
Qed.

Lemma render_frames_ready (times : list (R * R * R)) (s : Renderer) :
  ready s ->
  m_pShaderManager s <> None ->
  exists s' : Renderer,
    render_frames uninitialised times s = Running s'
    /\ fixed s' = fixed s
    /\ m_pShaderManager s' <> None
    /\ List.length (m_basicMeshes s')
       = (List.length (m_basicMeshes s) + 52 * List.length times)%nat.
Proof.
  revert s. induction times as [| [[tR tG] tB] rest IH]; intros s Hready Hshader.
  - exists s. cbn [render_frames List.length]. repeat split; [assumption | lia].
  - destruct (RenderScene_frame tR tG tB s Hready Hshader)
      as (u0 & _ & _ & s1 & Hrun & Hfixed & (u1 & Hu1 & _)
          & draws & Hmeshes & Hlength & _).
    assert (Hready1 : ready s1) by exact (fixed_fields s Hready s1 Hfixed).
    assert (Hshader1 : m_pShaderManager s1 <> None)
      by (rewrite Hu1; discriminate).
    destruct (IH s1 Hready1 Hshader1) as (s2 & Hrun2 & Hfixed2 & Hshader2 & Hcount).
    exists s2. cbn [render_frames]. rewrite (andThen_step _ _ _ _ Hrun).
    split; [exact Hrun2 |]. split; [congruence |]. split; [exact Hshader2 |].
    rewrite Hcount, Hmeshes, !length_app, Hlength. cbn [List.length]. lia.
Qed.

(** ** The scene as a whole *)

(** X19: the seven materials of the scene can all be looked up.  After
    [DefineObjectMaterials] on an empty list, [FindMaterial] returns, for
    the tag of each of them, true and the five values of that very
    material (no two of the tags are equal, so none is shadowed); for
    any other tag it returns true as well and leaves the output
    parameter as the caller passed it. *)
Theorem defined_materials_are_found (s : Renderer)
  (out : SceneManager.OBJECT_MATERIAL) :
  m_objectMaterials s = [] ->
  exists s' : Renderer,
    DefineObjectMaterials s = Running s'
    /\ (forall m : SceneManager.OBJECT_MATERIAL,
           In m scene_materials ->
           FindMaterial (SceneManager.tag m) out s'
           = (true, SceneManager.assign_from m out))
    /\ (forall other : string,
           ~ In other (map SceneManager.tag scene_materials) ->
           FindMaterial other out s' = (true, out)).
Proof.
  intros Hmaterials. eexists.
  split; [apply DefineObjectMaterials_runs |].
  rewrite Hmaterials, app_nil_l. unfold FindMaterial.
  cbn [m_objectMaterials set_m_objectMaterials]. split.
  - intros m Hm. apply scene_material_found, Hm.
  - intros other Hother. unfold SceneManager.FindMaterial.
    rewrite SceneManagerFacts.FindMaterial_loop_find.
    cbn [SceneManager.m_objectMaterials skipn].
    unfold scene_materials in *. cbn [map In] in Hother.
    cbn [find List.length Nat.eqb]. unfold SceneManager.has_tag.
    repeat match goal with
           | |- context [String.eqb ?t other] =>
               destruct (String.eqb_spec t other) as [Heq | _];
               [exfalso; apply Hother; rewrite <- Heq;
                repeat first [left; reflexivity | right] |]
           end.
    reflexivity.
Qed.

(** X20: [PrepareScene] on a new scene manager whose six image files can
    all be read with 3 or 4 channels runs to its end and leaves the scene
    ready: the materials list is the seven materials in source order,
    the texture table holds the six tags in source order, the IDs are
    the six names GL generated, in order, texture [i] is bound on unit
    GL_TEXTURE0 + i, every image has been freed, no error is flagged,
    and the five meshes have been loaded in order. *)
Theorem PrepareScene_makes_scene_ready (s : Renderer) :
  m_pShaderManager s <> None ->
  m_objectMaterials s = [] ->
  m_loadedTextures s = 0%nat ->
  forallb loads scene_texture_files = true ->
  exists s' : Renderer,
    PrepareScene s = Running s'
    /\ m_objectMaterials s' = scene_materials
    /\ m_loadedTextures s' = 6%nat
    /\ map (fun i => tag (m_textureIDs s' i)) (seq 0 6) = scene_texture_tags
    /\ (forall i : nat, (i < 6)%nat ->
          ID (m_textureIDs s' i) = glGenTextures_name (gl_generated s + i)%nat
          /\ gl_bound s' (GL_TEXTURE0 + Z.of_nat i) = ID (m_textureIDs s' i))
    /\ stbi_unfreed s' = stbi_unfreed s
    /\ g_errorEncountered s' = g_errorEncountered s
    /\ m_basicMeshes s'
       = m_basicMeshes s
         ++ [Loaded SceneManager.Plane; Loaded SceneManager.Box;
             Loaded SceneManager.Sphere; Loaded SceneManager.Cylinder;
             Loaded SceneManager.Prism].
Proof.
  intros Hshader Hmaterials Hcount Hloads.
  destruct (PrepareScene_ready s Hshader Hmaterials Hcount Hloads)
    as (s' & Hrun & (Hmat & Htags) & _ & Hmeshes & Hids & _ & Hfree & Herror).
  exists s'. split; [exact Hrun |]. split; [exact Hmat |].
  assert (Hsix : m_loadedTextures s' = 6%nat).
  { apply (f_equal (@List.length string)) in Htags.
    unfold loaded_tags in Htags. rewrite length_map, length_seq in Htags.
    exact Htags. }
  split; [exact Hsix |].
  split; [unfold loaded_tags in Htags; rewrite Hsix in Htags; exact Htags |].
  split; [intros i Hi; destruct (Hids i Hi); split; assumption |].
  split; [exact Hfree |]. split; [exact Herror | exact Hmeshes].
Qed.

(** X21: if one of the six image files cannot be read, or has a channel
    count other than 3 and 4, [PrepareScene] does not return: it leaves
    the process with [exit(1)]. *)
Theorem PrepareScene_exits_on_bad_texture (s : Renderer) :
  m_pShaderManager s <> None ->
  (m_loadedTextures s + 6 <= TEXTURE_SLOTS)%nat ->
  forallb loads scene_texture_files = false ->
  PrepareScene s = Exited 1.
Proof.
  intros Hshader _ Hloads.
  destruct (m_pShaderManager s) as [u |] eqn:Hu; [clear Hshader | contradiction].
  unfold SceneRenderer.PrepareScene.
  rewrite (andThen_step _ _ _ _ (DefineObjectMaterials_runs s)).
  match goal with |- context [set_m_objectMaterials ?ms s] =>
    set (s1 := set_m_objectMaterials ms s) end.
  destruct (SetUpSceneLights_runs s1 u Hu) as (u1 & Hlights).
  rewrite (andThen_step _ _ _ _ Hlights).
  unfold andThen at 1. rewrite (LoadSceneTextures_exits _ Hloads). reflexivity.
Qed.

(** X22: with a null shader manager neither method gets through,
    whatever the state of the scene: [PrepareScene] ends in a
    dereference of the null pointer, and so does [RenderScene]. *)
Theorem null_shader_manager_is_dereferenced (tR tG tB : R) (s : Renderer) :
  m_pShaderManager s = None ->
  PrepareScene s = NullDereference
  /\ RenderScene tR tG tB s = NullDereference.
Proof.
  intros Hu. split.
  - unfold SceneRenderer.PrepareScene.
    rewrite (andThen_step _ _ _ _ (DefineObjectMaterials_runs s)).
    unfold andThen at 1. rewrite SetUpSceneLights_null; [reflexivity |].
    exact Hu.
  - unfold SceneRenderer.RenderScene, andThen at 1.
    rewrite (drawDesk_null s Hu). reflexivity.
Qed.

(** X23: a frame leaves the scene alone.  From a ready scene with a
    shader manager [RenderScene] runs to its end; the materials, the
    texture table, the error flag, the output (no texture is reported
    missing), the GL bindings and the count of unfreed images are what
    they were, and 52 draw calls have been added to the calls on the
    meshes. *)
Theorem RenderScene_leaves_scene_alone (tR tG tB : R) (s : Renderer) :
  ready s ->
  m_pShaderManager s <> None ->
  exists (s' : Renderer) (draws : list MeshEvent),
    RenderScene tR tG tB s = Running s'
    /\ m_objectMaterials s' = m_objectMaterials s
    /\ m_textureIDs s' = m_textureIDs s
    /\ m_loadedTextures s' = m_loadedTextures s
    /\ g_errorEncountered s' = g_errorEncountered s
    /\ cout s' = cout s
    /\ gl_generated s' = gl_generated s
    /\ gl_active s' = gl_active s
    /\ gl_bound s' = gl_bound s
    /\ stbi_unfreed s' = stbi_unfreed s
    /\ m_pShaderManager s' <> None
    /\ m_basicMeshes s' = m_basicMeshes s ++ draws
    /\ List.length draws = 52%nat
    /\ Forall (fun e => exists m u, e = Drawn m (Some u)) draws.
Proof.
  intros Hready Hshader.
  destruct (RenderScene_frame tR tG tB s Hready Hshader)
    as (u0 & _ & _ & s' & Hrun & Hfixed & (u1 & Hu1 & _)
        & draws & Hmeshes & Hlength & Hdraws).
  exists s', (Drawn SceneManager.Plane (Some u0) :: draws).
  unfold fixed in Hfixed. injection Hfixed as H1 H2 H3 H4 H5 H6 H7 H8 H9.
  repeat (split; [assumption |]).
  split; [rewrite Hu1; discriminate |].
  split; [rewrite Hmeshes, <- app_assoc; reflexivity |].
  split; [cbn [List.length]; rewrite Hlength; reflexivity |].
  constructor; [exists SceneManager.Plane, u0; reflexivity |].
  apply (Forall_impl _ (P := plain_draw)); [| exact Hdraws].
  intros e (m & u & He & _). exists m, u. exact He.
Qed.

(** X24: every mesh of a frame is drawn with a material of the scene.
    At each of the 52 draws of [RenderScene] the five material uniforms
    hold the values of one of the seven defined materials: every tag
    that the drawing methods pass to [SetShaderMaterial] is defined, so
    the uninitialised local of [SetShaderMaterial] never reaches the
    shader. *)
Theorem draws_use_defined_materials (tR tG tB : R) (s : Renderer) :
  ready s ->
  m_pShaderManager s <> None ->
  exists (s' : Renderer) (draws : list MeshEvent),
    RenderScene tR tG tB s = Running s'
    /\ m_basicMeshes s' = m_basicMeshes s ++ draws
    /\ Forall (fun e => exists (m : SceneManager.Mesh) (u : Uniforms)
                               (material : SceneManager.OBJECT_MATERIAL),
                   e = Drawn m (Some u)
                   /\ In material scene_materials
                   /\ value "material.ambientColor" u
                      = Some (vec3Value (SceneManager.ambientColor material))
                   /\ value "material.ambientStrength" u
                      = Some (FloatValue
                                (SceneManager.ambientStrength material))
                   /\ value "material.diffuseColor" u
                      = Some (vec3Value (SceneManager.diffuseColor material))
                   /\ value "material.specularColor" u
                      = Some (vec3Value (SceneManager.specularColor material))
                   /\ value "material.shininess" u
                      = Some (FloatValue (SceneManager.shininess material)))
         draws.
Proof.
  intros Hready Hshader.
  destruct (RenderScene_frame tR tG tB s Hready Hshader)
    as (u0 & _ & Hdressed & s' & Hrun & _ & _ & draws & Hmeshes & _ & Hdraws).
  exists s', (Drawn SceneManager.Plane (Some u0) :: draws).
  split; [exact Hrun |].
  split; [rewrite Hmeshes, <- app_assoc; reflexivity |].
  constructor.
  - destruct Hdressed as (material & Hmaterial).
    exists SceneManager.Plane, u0, material. split; [reflexivity | exact Hmaterial].
  - apply (Forall_impl _ (P := plain_draw)); [| exact Hdraws].
    intros e (m & u & He & (material & Hmaterial) & _).
    exists m, u, material. split; [exact He | exact Hmaterial].
Qed.

(** X25: the second texture layer and the specular map are used for the
    desk only.  The first draw of a frame, the plane of the desk, is
    made with both flags 1; both flags are switched off right after it,
    and at none of the other 51 draws is either of them 1. *)
Theorem extra_layers_only_on_desk (tR tG tB : R) (s : Renderer) :
  ready s ->
  m_pShaderManager s <> None ->
  exists (s' : Renderer) (desk : Uniforms) (others : list MeshEvent),
    RenderScene tR tG tB s = Running s'
    /\ m_basicMeshes s'
       = m_basicMeshes s ++ Drawn SceneManager.Plane (Some desk) :: others
    /\ value g_UseTexture2Name desk = Some (IntValue 1)
    /\ value g_UseSpecularMap desk = Some (IntValue 1)
    /\ List.length others = 51%nat
    /\ Forall (fun e => exists (m : SceneManager.Mesh) (u : Uniforms),
                   e = Drawn m (Some u)
                   /\ value g_UseTexture2Name u <> Some (IntValue 1)
                   /\ value g_UseSpecularMap u <> Some (IntValue 1))
         others.
Proof.
  intros Hready Hshader.
  destruct (RenderScene_frame tR tG tB s Hready Hshader)
    as (u0 & (Hlayer & Hmap) & _ & s' & Hrun & _ & _
        & draws & Hmeshes & Hlength & Hdraws).
  exists s', u0, draws.
  split; [exact Hrun |].
  split; [rewrite Hmeshes, <- app_assoc; reflexivity |].
  split; [exact Hlayer |]. split; [exact Hmap |]. split; [exact Hlength |].
  apply (Forall_impl _ (P := plain_draw)); [| exact Hdraws].
  intros e (m & u & He & _ & Hplain). exists m, u. split; [exact He | exact Hplain].
Qed.

(** X26: the colours [updateRGBlight] sends stay in fixed ranges,
    whatever the three clock readings.  The object colour is in
    [1/3, 1] x [1/3, 1] x [1/2, 5/6] with alpha 1; the three colours of
    light 2 are one and the same vector, with red and green components
    in [-0.3, 0.3] and blue in [-0.15, 0.15], so they can be negative;
    texturing is switched off. *)
Theorem rgb_light_colours_bounded (tR tG tB : R) (s : Renderer) :
  m_pShaderManager s <> None ->
  exists (u' : Uniforms) (r g b lr lg lb : R),
    updateRGBlight tR tG tB s = Running (set_m_pShaderManager (Some u') s)
    /\ value g_ColorValueName u' = Some (Vec4Value r g b 1)
    /\ (1 / 3 <= r <= 1 /\ 1 / 3 <= g <= 1 /\ 1 / 2 <= b <= 5 / 6)%R
    /\ value "lightSources[2].ambientColor" u' = Some (Vec3Value lr lg lb)
    /\ value "lightSources[2].diffuseColor" u' = Some (Vec3Value lr lg lb)
    /\ value "lightSources[2].specularColor" u' = Some (Vec3Value lr lg lb)
    /\ (- 0.3 <= lr <= 0.3 /\ - 0.3 <= lg <= 0.3 /\ - 0.15 <= lb <= 0.15)%R
    /\ value g_UseTextureName u' = Some (IntValue 0).
Proof.
  intros Hshader.
  destruct (m_pShaderManager s) as [u |] eqn:Hu; [clear Hshader | contradiction].
  unfold updateRGBlight, setIntValue, setVec3Value, setFloatValue. cbv zeta.
  rewrite (andThen_step _ _ _ _ (through_shader_runs _ s u Hu)).
  repeat match goal with
         | |- context [andThen (through_shader ?f) ?q ?s1] =>
             rewrite (andThen_step (through_shader f) q s1 _
                        (through_shader_runs f s1 _ eq_refl))
         end.
  match goal with
  | |- context [SetShaderColor ?r ?g ?b ?a ?s1] =>
      rewrite (SetShaderColor_runs r g b a s1 _ eq_refl)
  end.
  pose proof (SIN_bound tR) as HR. pose proof (COS_bound tG) as HG.
  pose proof (SIN_bound tB) as HB.
  eexists. exists ((2 + sin tR) / 3)%R, ((2 + cos tG) / 3)%R,
    ((2 + sin tB / 2) / 3)%R, (sin tR * 0.3)%R, (cos tG * 0.3)%R,
    (sin tB / 2 * 0.3)%R.
  split; [reflexivity |]. split; [reflexivity |].
  split; [lra |].
  split; [reflexivity |]. split; [reflexivity |]. split; [reflexivity |].
  split; [lra | reflexivity].
Qed.

(** X27: a prepared scene renders, frame after frame.  After
    [PrepareScene] on a new scene manager with readable images, any
    number of calls of [RenderScene] run to their end: every texture tag
    and every material tag the drawing methods use has been defined by
    the preparation, nothing is printed and no error is flagged after
    it, and each frame adds 52 draws to the five loads. *)
Theorem prepared_scene_renders_every_frame (s : Renderer)
  (times : list (R * R * R)) :
  m_pShaderManager s <> None ->
  m_objectMaterials s = [] ->
  m_loadedTextures s = 0%nat ->
  forallb loads scene_texture_files = true ->
  exists s1 s2 : Renderer,
    PrepareScene s = Running s1
    /\ render_frames uninitialised times s1 = Running s2
    /\ cout s2 = cout s1
    /\ g_errorEncountered s2 = g_errorEncountered s
    /\ m_textureIDs s2 = m_textureIDs s1
    /\ gl_bound s2 = gl_bound s1
    /\ List.length (m_basicMeshes s2)
       = (List.length (m_basicMeshes s) + 5 + 52 * List.length times)%nat.
Proof.
  intros Hshader Hmaterials Hcount Hloads.
  destruct (PrepareScene_ready s Hshader Hmaterials Hcount Hloads)
    as (s1 & Hrun & Hready & Hshader1 & Hmeshes & _ & _ & _ & Herror).
  destruct (render_frames_ready times s1 Hready Hshader1)
    as (s2 & Hrun2 & Hfixed & _ & Hlength).
  exists s1, s2. split; [exact Hrun |]. split; [exact Hrun2 |].
  unfold fixed in Hfixed. injection Hfixed as H1 H2 H3 H4 H5 H6 H7 H8 H9.
  split; [exact H5 |]. split; [congruence |]. split; [exact H2 |].
  split; [exact H8 |].
  rewrite Hlength, Hmeshes, length_app. cbn [List.length map
    SceneManager.five_meshes]. lia.
Qed.

(** ** The calls on the mesh object *)

Lemma adds_andThen (p q : Method) (cp cq : list SceneManager.MeshCall) :
  adds p cp -> adds q cq -> adds (p ;; q) (cp ++ cq).
Proof.
  intros Hp Hq s s' Hrun. unfold andThen in Hrun.
  destruct (p s) as [s1 | code |] eqn:Hps; try discriminate Hrun.
  destruct (Hp s s1 Hps) as (e1 & Hm1 & Hc1).
  destruct (Hq s1 s' Hrun) as (e2 & Hm2 & Hc2).
  exists (e1 ++ e2). rewrite Hm2, Hm1, <- app_assoc, map_app, Hc1, Hc2.
  split; reflexivity.
Qed.

Lemma adds_eq (p : Method) (c c' : list SceneManager.MeshCall) :
  adds p c -> c = c' -> adds p c'.
Proof. intros Hp <-. exact Hp. Qed.

(** A method that leaves the calls on the mesh object as they are. *)
Lemma adds_nothing (p : Method) :
  (forall s s' : Renderer,
      p s = Running s' -> m_basicMeshes s' = m_basicMeshes s) ->
  adds p [].
Proof.
  intros Hp s s' Hrun. exists []. rewrite app_nil_r.
  split; [apply (Hp s s' Hrun) | reflexivity].
Qed.

Lemma adds_through_shader (f : Uniforms -> Uniforms) :
  adds (through_shader f) [].
Proof.
  apply adds_nothing. intros s s'. unfold through_shader.
  destruct (m_pShaderManager s); [| discriminate].
  intros Hrun. injection Hrun as <-. reflexivity.
Qed.

Lemma adds_setIntValue (name : string) (v : bool) :
  adds (setIntValue name v) [].
Proof. apply adds_through_shader. Qed.

Lemma adds_setVec3Value (name : string) (x y z : R) :
  adds (setVec3Value name x y z) [].
Proof. apply adds_through_shader. Qed.

Lemma adds_setFloatValue (name : string) (v : R) :
  adds (setFloatValue name v) [].
Proof. apply adds_through_shader. Qed.

Lemma adds_SetShaderColor (r g b a : R) : adds (SetShaderColor r g b a) [].
Proof.
  apply adds_nothing. intros s s'. unfold SetShaderColor.
  destruct (m_pShaderManager s); intros Hrun; injection Hrun as <-;
    reflexivity.
Qed.

Lemma FindTextureSlot_meshes (wanted : string) (s : Renderer) :
  m_basicMeshes (snd (FindTextureSlot wanted s)) = m_basicMeshes s.
Proof.
  rewrite FindTextureSlot_first.
  destruct (first_tagged _ _ _ _); [reflexivity |].
  destruct (g_errorEncountered s); reflexivity.
Qed.

Lemma adds_set_sampler (useName samplerName textureTag : string) :
  adds (set_sampler useName samplerName textureTag) [].
Proof.
  apply adds_nothing. intros s s'. unfold set_sampler.
  destruct (m_pShaderManager s);
    [| intros Hrun; injection Hrun as <-; reflexivity].
  pose proof (FindTextureSlot_meshes textureTag s) as Hmeshes.
  destruct (FindTextureSlot textureTag s) as [slot s1].
  intros Hrun. injection Hrun as <-. exact Hmeshes.
Qed.

Lemma adds_SetShaderTexture (textureTag : string) :
  adds (SetShaderTexture textureTag) [].
Proof. apply adds_set_sampler. Qed.

Lemma adds_SetShaderTexture2 (textureTag : string) :
  adds (SetShaderTexture2 textureTag) [].
Proof. apply adds_set_sampler. Qed.

Lemma adds_SetShaderSpecularMap (textureTag : string) :
  adds (SetShaderSpecularMap textureTag) [].
Proof. apply adds_set_sampler. Qed.

Lemma adds_SetShaderMaterial (materialTag : string) :
  adds (SetShaderMaterial materialTag) [].
Proof.
  apply adds_nothing. intros s s'. unfold SceneRenderer.SetShaderMaterial.
  destruct (0 <? List.length (m_objectMaterials s))%nat;
    [| intros Hrun; injection Hrun as <-; reflexivity].
  destruct (FindMaterial materialTag uninitialised s) as [[|] material];
    [| intros Hrun; injection Hrun as <-; reflexivity].
  unfold through_shader. destruct (m_pShaderManager s); [| discriminate].
  intros Hrun. injection Hrun as <-. reflexivity.
Qed.

Lemma adds_DrawMesh (m : SceneManager.Mesh) :
  adds (DrawMesh m) [SceneManager.Draw m].
Proof.
  intros s s' Hrun. unfold DrawMesh in Hrun. injection Hrun as <-.
  exists [Drawn m (m_pShaderManager s)]. split; reflexivity.
Qed.

Lemma adds_LoadMesh (m : SceneManager.Mesh) :
  adds (LoadMesh m) [SceneManager.Load m].
Proof.
  intros s s' Hrun. unfold LoadMesh in Hrun. injection Hrun as <-.
  exists [Loaded m]. split; reflexivity.
Qed.

Lemma adds_push_back (m : SceneManager.OBJECT_MATERIAL) :
  adds (push_back m) [].
Proof.
  apply adds_nothing. intros s s' Hrun. unfold push_back in Hrun.
  injection Hrun as <-. reflexivity.
Qed.

Lemma CreateGLTexture_meshes (filename newtag : string) (s : Renderer) :
  m_basicMeshes (snd (CreateGLTexture stbi_load glGenTextures_name filename
                        newtag s))
  = m_basicMeshes s.
Proof.
  unfold CreateGLTexture. destruct (stbi_load filename) as [image |];
    [| reflexivity].
  cbv zeta. unfold glGenTextures.
  destruct (colorChannels image =? 3)%Z; [reflexivity |].
  destruct (colorChannels image =? 4)%Z; reflexivity.
Qed.

Lemma adds_orExit (filename newtag : string) :
  adds (orExit filename newtag) [].
Proof.
  apply adds_nothing. intros s s'. unfold SceneRenderer.orExit.
  pose proof (CreateGLTexture_meshes filename newtag s) as Hmeshes.
  destruct (CreateGLTexture stbi_load glGenTextures_name filename newtag s)
    as [[|] s1]; [| discriminate].
  intros Hrun. injection Hrun as <-. exact Hmeshes.
Qed.

Lemma adds_BindGLTextures : adds (fun s => Running (BindGLTextures s)) [].
Proof.
  apply adds_nothing. intros s s' Hrun. injection Hrun as <-.
  destruct (BindGLTextures_cells (m_loadedTextures s) s)
    as (_ & _ & _ & _ & Hmeshes & _).
  exact Hmeshes.
Qed.

Create HintDb calls.

#[local] Hint Resolve adds_setIntValue adds_setVec3Value adds_setFloatValue
  adds_through_shader adds_SetShaderColor adds_SetShaderTexture
  adds_SetShaderTexture2 adds_SetShaderSpecularMap adds_SetShaderMaterial
  adds_DrawMesh adds_LoadMesh adds_push_back adds_orExit adds_BindGLTextures
  : calls.

(** A sequence of calls: split it at every [;;] and collect. *)
Ltac collect :=
  eapply adds_eq;
  [ repeat (eapply adds_andThen; [solve [eauto with calls] |]);
    solve [eauto with calls]
  | reflexivity ].

Lemma adds_updateRGBlight (tR tG tB : R) : adds (updateRGBlight tR tG tB) [].
Proof. unfold updateRGBlight. cbv zeta. collect. Qed.

Lemma adds_enableLighting : adds enableLighting [].
Proof. unfold enableLighting. collect. Qed.

#[local] Hint Resolve adds_updateRGBlight adds_enableLighting : calls.

Lemma adds_drawDesk : adds drawDesk (map SceneManager.Draw [SceneManager.Plane]).
Proof. unfold SceneRenderer.drawDesk. collect. Qed.

Lemma adds_drawWalls :
  adds drawWalls
    (map SceneManager.Draw [SceneManager.Plane; SceneManager.Plane]).
Proof. unfold SceneRenderer.drawWalls. collect. Qed.

Lemma adds_drawKeyboard :
  adds drawKeyboard (map SceneManager.Draw (repeat SceneManager.Box 27)).
Proof. unfold SceneRenderer.drawKeyboard. collect. Qed.

Lemma adds_drawTrackball :
  adds drawTrackball
    (map SceneManager.Draw
       [SceneManager.Sphere; SceneManager.Cylinder; SceneManager.Cylinder;
        SceneManager.Sphere; SceneManager.Cylinder]).
Proof. unfold SceneRenderer.drawTrackball. collect. Qed.

Lemma adds_drawPrimaryMonitor :
  adds drawPrimaryMonitor
    (map SceneManager.Draw
       [SceneManager.Plane; SceneManager.Plane; SceneManager.Prism;
        SceneManager.Prism; SceneManager.Prism]).
Proof. unfold SceneRenderer.drawPrimaryMonitor. collect. Qed.

Lemma adds_drawSecondaryMonitor :
  adds drawSecondaryMonitor
    (map SceneManager.Draw
       [SceneManager.Box; SceneManager.Box; SceneManager.Cylinder;
        SceneManager.Box; SceneManager.Box]).
Proof. unfold SceneRenderer.drawSecondaryMonitor. collect. Qed.

Lemma adds_drawTower (tR tG tB : R) :
  adds (drawTower tR tG tB)
    (map SceneManager.Draw
       [SceneManager.Plane; SceneManager.Plane; SceneManager.Plane;
        SceneManager.Plane; SceneManager.Plane; SceneManager.Cylinder;
        SceneManager.Plane]).
Proof. unfold SceneRenderer.drawTower. collect. Qed.

#[local] Hint Resolve adds_drawDesk adds_drawWalls adds_drawKeyboard
  adds_drawTrackball adds_drawPrimaryMonitor adds_drawSecondaryMonitor
  adds_drawTower : calls.

Lemma adds_RenderScene (tR tG tB : R) :
  adds (RenderScene tR tG tB) (map SceneManager.Draw frame_meshes).
Proof. unfold SceneRenderer.RenderScene. collect. Qed.

Lemma adds_DefineObjectMaterials : adds DefineObjectMaterials [].
Proof. unfold DefineObjectMaterials. collect. Qed.

Lemma adds_SetUpSceneLights : adds SetUpSceneLights [].
Proof. unfold SetUpSceneLights. collect. Qed.

Lemma adds_LoadSceneTextures : adds LoadSceneTextures [].
Proof. unfold SceneRenderer.LoadSceneTextures. collect. Qed.

#[local] Hint Resolve adds_DefineObjectMaterials adds_SetUpSceneLights
  adds_LoadSceneTextures : calls.

Lemma adds_PrepareScene :
  adds PrepareScene (map SceneManager.Load SceneManager.five_meshes).
Proof. unfold SceneRenderer.PrepareScene. collect. Qed.

Lemma loads_only (events : list MeshEvent) (meshes : list SceneManager.Mesh) :
  map call_of events = map SceneManager.Load meshes ->
  events = map Loaded meshes.
Proof.
  revert meshes.
  induction events as [| e events IH]; intros [| m meshes] Hcalls;
    try discriminate Hcalls; [reflexivity |].
  cbn [map] in *. injection Hcalls as Hcall Hrest.
  rewrite (IH meshes Hrest).
  destruct e as [m' | m' u]; cbn [call_of] in Hcall; [| discriminate Hcall].
  injection Hcall as ->. reflexivity.
Qed.

Lemma draws_only (events : list MeshEvent) (meshes : list SceneManager.Mesh)
  (P : SceneManager.Mesh -> Prop) :
  map call_of events = map SceneManager.Draw meshes ->
  Forall P meshes ->
  Forall (fun e => exists (m : SceneManager.Mesh) (u : option Uniforms),
              e = Drawn m u /\ P m)
    events.
Proof.
  revert meshes.
  induction events as [| e events IH]; intros [| m meshes] Hcalls Hall;
    try discriminate Hcalls; [apply Forall_nil |].
  cbn [map] in Hcalls. injection Hcalls as Hcall Hrest.
  inversion Hall as [| m0 l0 Hm Hmeshes]; subst.
  apply Forall_cons; [| apply (IH meshes Hrest Hmeshes)].
  destruct e as [m' | m' u]; cbn [call_of] in Hcall; [discriminate Hcall |].
  injection Hcall as ->. exists m, u. split; [reflexivity | exact Hm].
Qed.

Lemma frame_meshes_five :
  Forall (fun m => In m SceneManager.five_meshes) frame_meshes.
Proof.
  unfold frame_meshes, SceneManager.five_meshes. cbn [repeat app].
  repeat (apply Forall_cons;
          [cbn [In]; repeat first [left; reflexivity | right] |]).
  apply Forall_nil.
Qed.

(** C10: [PrepareScene], whenever it runs to its end, has loaded the
    plane, box, sphere, cylinder and prism meshes, in this order, each
    once and nothing else; [RenderScene] with the drawing methods it
    calls, whenever it runs to its end, has made 52 calls on the mesh
    object, every one of them a draw of one of these five meshes (one
    plane for the desk, two for the walls, 27 boxes for the keyboard,
    and so on, in source order).  Both do run to their end: on a scene
    manager built with a shader manager, whose six image files can be
    read, [PrepareScene] returns, and [RenderScene] returns after it.
    (With a null shader manager, or an image that cannot be read, the
    process is left before the first mesh is loaded.) *)
Theorem PrepareScene_loads_RenderScene_draws (tR tG tB : R)
  (s s' : Renderer) :
  (PrepareScene s = Running s' ->
   m_basicMeshes s'
   = m_basicMeshes s
     ++ [Loaded SceneManager.Plane; Loaded SceneManager.Box;
         Loaded SceneManager.Sphere; Loaded SceneManager.Cylinder;
         Loaded SceneManager.Prism])
  /\ NoDup [SceneManager.Plane; SceneManager.Box; SceneManager.Sphere;
            SceneManager.Cylinder; SceneManager.Prism]
  /\ (RenderScene tR tG tB s = Running s' ->
      exists draws : list MeshEvent,
        m_basicMeshes s' = m_basicMeshes s ++ draws
        /\ map call_of draws = map SceneManager.Draw frame_meshes
        /\ List.length draws = 52%nat
        /\ Forall (fun e => exists (m : SceneManager.Mesh)
                                   (u : option Uniforms),
                       e = Drawn m u
                       /\ In m [SceneManager.Plane; SceneManager.Box;
                                SceneManager.Sphere; SceneManager.Cylinder;
                                SceneManager.Prism])
             draws)
  /\ (m_pShaderManager s <> None ->
      m_objectMaterials s = [] ->
      m_loadedTextures s = 0%nat ->
      forallb loads scene_texture_files = true ->
      exists s1 s2 : Renderer,
        PrepareScene s = Running s1 /\ RenderScene tR tG tB s1 = Running s2).
Proof.
  split; [| split; [| split]].
  - intros Hrun. destruct (adds_PrepareScene s s' Hrun) as (events & Hm & Hc).
    apply loads_only in Hc. rewrite Hm, Hc. reflexivity.
  - repeat constructor; cbn [In]; intros Hin;
      repeat (destruct Hin as [Hin | Hin]; [discriminate Hin |]);
      exact Hin.
  - intros Hrun.
    destruct (adds_RenderScene tR tG tB s s' Hrun) as (draws & Hm & Hc).
    exists draws. split; [exact Hm |]. split; [exact Hc |]. split.
    + apply (f_equal (@List.length SceneManager.MeshCall)) in Hc.
      rewrite !length_map in Hc. rewrite Hc. reflexivity.
    + apply (draws_only draws frame_meshes _ Hc frame_meshes_five).
  - intros Hshader Hmaterials Hcount Hloads.
    destruct (PrepareScene_ready s Hshader Hmaterials Hcount Hloads)
      as (s1 & Hrun1 & Hready & Hshader1 & _).
    destruct (RenderScene_frame tR tG tB s1 Hready Hshader1)
      as (_ & _ & _ & s2 & Hrun2 & _).
    exists s1, s2. split; assumption.
Qed.

End Preparation.

End Frame.

End SceneFrameFacts.

(** * More runs: the further properties at concrete inputs *)

Module MoreRuns.

Import Glm GLFW ViewManager ViewManagerFacts ControllerFacts.
Import Reference.

(** A camera class that differs from the one of [Reference] in its mouse
    handler, which turns yaw and pitch only. *)
Definition steady_turn (xoffset yoffset : R) (c : Camera) : Camera :=
  let yaw := Yaw c + xoffset * 0.1 in
  let pitch := Pitch c + yoffset * 0.1 in
  mkCamera (Position c) (direction yaw pitch) (Up c) yaw pitch (Zoom c)
    (MovementSpeed c).

Definition steady_camera : CameraLibrary matrix :=
  {| Camera_new := Camera_new (CameraLibrary := camera);
     ProcessKeyboard := keyboard_move;
     ProcessMouseMovement := steady_turn;
     GetViewMatrix := GetViewMatrix (CameraLibrary := camera) |}.

(** A frame at time 1, a scroll, a frame at time 3. *)
Lemma frame_delta_after_scroll :
  forallb between_frames [MouseScrolled 0 1] = true
  /\ gDeltaTime
       (PrepareSceneView (glm := matrices) (camera := camera) 3 (holding [])
          (run (glm := matrices) (camera := camera) [MouseScrolled 0 1]
             (PrepareSceneView (glm := matrices) (camera := camera) 1
                (holding []) start)))
     = 3 - 1.
Proof.
  assert (Hes : forallb between_frames [MouseScrolled 0 1] = true)
    by reflexivity.
  split; [exact Hes |].
  destruct (frame_delta_is_clock_difference (glm := matrices)
              (camera := camera) 1 3 (holding []) (holding [])
              [MouseScrolled 0 1] start Hes) as (Hdelta & _).
  exact Hdelta.
Defined.

(** Holding W in perspective mode. *)
Lemma perspective_mode_keeps_orbit_at_start :
  bOrthographicProjection start = false
  /\ pressed (holding [GLFW_KEY_W]) GLFW_KEY_O = false
  /\ o_pitch (ProcessKeyboardEvents (camera := camera) (holding [GLFW_KEY_W])
                start)
     = o_pitch start.
Proof.
  assert (Hflag : bOrthographicProjection start = false) by reflexivity.
  assert (HO : pressed (holding [GLFW_KEY_W]) GLFW_KEY_O = false)
    by reflexivity.
  split; [exact Hflag |]. split; [exact HO |].
  destruct (perspective_mode_keeps_orbit (camera := camera)
              (holding [GLFW_KEY_W]) start Hflag HO) as (_ & Hpitch & _).
  exact Hpitch.
Defined.


(** Three calls with C held, from the initial layout. *)
Lemma held_layout_key_at_start :
  layout_of start = qwerty_layout
  /\ layout_of
       (Nat.iter 3 (ProcessKeyboardEvents (camera := camera)
                      (holding [GLFW_KEY_C])) start)
     = colemak_layout.
Proof.
  assert (Hq : layout_of start = qwerty_layout) by reflexivity.
  split; [exact Hq |].
  apply (held_layout_key_switches_once (glm := matrices) (camera := camera)
           (holding [GLFW_KEY_C]) start 2 Hq); reflexivity.
Defined.

(** Escape, then a mouse movement. *)
Lemma escape_then_mouse :
  pressed (holding [GLFW_KEY_ESCAPE]) GLFW_KEY_ESCAPE = true
  /\ windowShouldClose
       (run (glm := matrices) (camera := camera) [MouseMoved 1 1]
          (ProcessKeyboardEvents (camera := camera)
             (holding [GLFW_KEY_ESCAPE]) start))
     = true.
Proof.
  assert (Hesc : pressed (holding [GLFW_KEY_ESCAPE]) GLFW_KEY_ESCAPE = true)
    by reflexivity.
  split; [exact Hesc |].
  apply (escape_closes_for_good (glm := matrices) (camera := camera)
           (holding [GLFW_KEY_ESCAPE]) [MouseMoved 1 1] start Hesc).
Defined.

(** Holding W from the initial state. *)
Lemma movement_keys_drive_camera_at_start :
  pressed (holding [GLFW_KEY_W]) GLFW_KEY_P = false
  /\ g_pCamera (ProcessKeyboardEvents (camera := camera)
                  (holding [GLFW_KEY_W]) start)
     = moved (camera := camera)
         (pressed (holding [GLFW_KEY_W]) (gkey_down start)) DOWN
         (gDeltaTime start * p_scalar start)
         (moved (camera := camera)
            (pressed (holding [GLFW_KEY_W]) (gkey_up start)) UP
            (gDeltaTime start * p_scalar start)
            (moved (camera := camera)
               (pressed (holding [GLFW_KEY_W]) (gkey_right start)) RIGHT
               (gDeltaTime start * p_scalar start)
               (moved (camera := camera)
                  (pressed (holding [GLFW_KEY_W]) (gkey_left start)) LEFT
                  (gDeltaTime start * p_scalar start)
                  (moved (camera := camera)
                     (pressed (holding [GLFW_KEY_W]) (gkey_backward start))
                     BACKWARD (gDeltaTime start * p_scalar start)
                     (moved (camera := camera)
                        (pressed (holding [GLFW_KEY_W]) (gkey_forward start))
                        FORWARD (gDeltaTime start * p_scalar start)
                        (g_pCamera start)))))).
Proof.
  assert (HP : pressed (holding [GLFW_KEY_W]) GLFW_KEY_P = false)
    by reflexivity.
  split; [exact HP |].
  apply (movement_keys_drive_camera (camera := camera) (holding [GLFW_KEY_W])
           start HP).
Defined.

(** A camera class whose mouse handler turns the camera and leaves the
    zoom alone, as the hypotheses ask; a scroll and a mouse movement
    from the state the constructor builds with it. *)
Lemma zoom_stays_at_80_with_steady_camera :
  Zoom (g_pCamera
          (run (glm := matrices) (camera := steady_camera)
             [MouseScrolled 0 1; MouseMoved 1 1]
             (ViewManager_new (camera := steady_camera) None)))
  = 80.
Proof.
  apply (zoom_stays_at_80 (glm := matrices) (camera := steady_camera) None
           [MouseScrolled 0 1; MouseMoved 1 1]).
  - intros m delta c. destruct m; reflexivity.
  - intros xoffset yoffset c. reflexivity.
Defined.

End MoreRuns.

Module SceneRuns.

Import Glm SceneRenderer SceneRendererFacts SceneFrameFacts.

(** An image loader that reads every file as a 64 x 64 RGBA image, one
    that reads none, and a GL that hands out the names 1, 2, 3, ... *)
Definition all_readable : string -> option Image :=
  fun _ => Some (mkImage 64 64 4).

Definition none_readable : string -> option Image := fun _ => None.

Definition names_from_1 : nat -> Z := fun k => Z.of_nat (S k).

Definition blank : SceneManager.OBJECT_MATERIAL :=
  SceneManager.mkMaterial EmptyString (mkVec3 0 0 0) 0 (mkVec3 0 0 0) (mkVec3 0 0 0) 0.

(** A new scene manager with a shader manager that has been sent
    nothing yet, and one with a null shader manager. *)
Definition new_scene : Renderer := SceneManager_new (Some []).

Definition no_shader : Renderer := SceneManager_new None.

(** The scene as [PrepareScene] leaves it (but for the lights). *)
Definition prepared : Renderer :=
  {| m_pShaderManager := Some [];
     m_basicMeshes := map Loaded SceneManager.five_meshes;
     m_objectMaterials := scene_materials;
     m_textureIDs :=
       fun i => mkTexture (Z.of_nat (S i)) (nth i scene_texture_tags EmptyString);
     m_loadedTextures := 6;
     g_errorEncountered := false;
     cout := [];
     gl_generated := 6;
     gl_active := (GL_TEXTURE0 + 5)%Z;
     gl_bound := fun unit => (unit - GL_TEXTURE0 + 1)%Z;
     stbi_unfreed := 0 |}.

(** The first texture created by a new scene manager. *)
Lemma first_texture_is_found :
  FindTextureSlot "desk"
    (snd (CreateGLTexture all_readable names_from_1 "textures/dark-wood.png"
            "desk" new_scene))
  = (0%Z,
     snd (CreateGLTexture all_readable names_from_1 "textures/dark-wood.png"
            "desk" new_scene))
  /\ FindTextureID "desk"
       (snd (CreateGLTexture all_readable names_from_1
               "textures/dark-wood.png" "desk" new_scene))
     = 1%Z.
Proof.
  assert (Hload : all_readable "textures/dark-wood.png"
                  = Some (mkImage 64 64 4)) by reflexivity.
  assert (Hchannels : (colorChannels (mkImage 64 64 4) = 3
                       \/ colorChannels (mkImage 64 64 4) = 4)%Z)
    by (right; reflexivity).
  assert (Hfresh : forall i : nat,
             (i < m_loadedTextures new_scene)%nat ->
             tag (m_textureIDs new_scene i) <> "desk"%string)
    by (intros i Hi; cbn in Hi; lia).
  assert (Hroom : (m_loadedTextures new_scene < TEXTURE_SLOTS)%nat)
    by (unfold TEXTURE_SLOTS; cbn; lia).
  destruct (created_texture_is_found all_readable names_from_1
              "textures/dark-wood.png" "desk" (mkImage 64 64 4) new_scene
              Hload Hchannels Hfresh Hroom) as (_ & _ & Hslot & Hid & _).
  split; [exact Hslot | exact Hid].
Defined.

(** A second texture under the tag "desk" in the prepared scene. *)
Lemma second_desk_is_shadowed :
  (1 < m_loadedTextures prepared)%nat
  /\ tag (m_textureIDs prepared 1) = "desk"%string
  /\ m_loadedTextures
       (snd (CreateGLTexture all_readable names_from_1 "textures/other.png"
               "desk" prepared))
     = 7%nat
  /\ FindTextureID "desk"
       (snd (CreateGLTexture all_readable names_from_1 "textures/other.png"
               "desk" prepared))
     = FindTextureID "desk" prepared.
Proof.
  assert (Hload : all_readable "textures/other.png" = Some (mkImage 64 64 4))
    by reflexivity.
  assert (Hchannels : (colorChannels (mkImage 64 64 4) = 3
                       \/ colorChannels (mkImage 64 64 4) = 4)%Z)
    by (right; reflexivity).
  assert (Hearlier : (1 < m_loadedTextures prepared)%nat) by (cbn; lia).
  assert (Htag : tag (m_textureIDs prepared 1) = "desk"%string)
    by reflexivity.
  destruct (duplicate_tag_is_shadowed all_readable names_from_1
              "textures/other.png" "desk" (mkImage 64 64 4) 1 prepared
              Hload Hchannels Hearlier Htag) as (Hcount & _ & Hlookups).
  split; [exact Hearlier |]. split; [exact Htag |].
  split; [exact Hcount |]. apply (Hlookups "desk"%string).
Defined.

(** Looking up a texture in a scene manager that has loaded none. *)
Lemma missing_texture_in_new_scene :
  fst (FindTextureSlot "steel" new_scene) = (-1)%Z
  /\ cout (snd (FindTextureSlot "steel" new_scene))
     = [Could_not_find_texture "steel"].
Proof.
  assert (Hmissing : forall i : nat,
             (i < m_loadedTextures new_scene)%nat ->
             tag (m_textureIDs new_scene i) <> "steel"%string)
    by (intros i Hi; cbn in Hi; lia).
  assert (Hflag : g_errorEncountered new_scene = false) by reflexivity.
  destruct (missing_texture_is_reported_once "steel" new_scene Hmissing Hflag)
    as (Hslot & Hcout & _).
  split; [exact Hslot | exact Hcout].
Defined.

(** The unit of the texture "keycap" in the prepared scene. *)
Lemma keycap_unit_in_prepared_scene :
  (0 <= fst (FindTextureSlot "keycap" prepared))%Z
  /\ gl_bound (BindGLTextures prepared)
       (GL_TEXTURE0
        + fst (FindTextureSlot "keycap" (BindGLTextures prepared)))%Z
     = FindTextureID "keycap" (BindGLTextures prepared).
Proof.
  assert (Hslot : (0 <= fst (FindTextureSlot "keycap" prepared))%Z)
    by (rewrite FindTextureSlot_fst; cbn; lia).
  split; [exact Hslot |].
  destruct (bound_unit_is_lookup_slot "keycap" prepared Hslot) as (Hbound & _).
  exact Hbound.
Defined.

(** The material "glass" after the materials have been defined. *)
Lemma glass_is_found_in_new_scene :
  m_objectMaterials new_scene = []
  /\ exists s' : Renderer,
      DefineObjectMaterials new_scene = Running s'
      /\ FindMaterial "glass" blank s'
         = (true, SceneManager.assign_from SceneManager.glass_mat blank).
Proof.
  assert (Hempty : m_objectMaterials new_scene = []) by reflexivity.
  split; [exact Hempty |].
  destruct (defined_materials_are_found new_scene blank Hempty)
    as (s' & Hrun & Hfound & _).
  exists s'. split; [exact Hrun |].
  apply (Hfound SceneManager.glass_mat). cbn. tauto.
Defined.

(** Preparing a new scene whose images can all be read. *)
Lemma new_scene_is_prepared :
  forallb (loads all_readable) scene_texture_files = true
  /\ exists s' : Renderer,
      PrepareScene all_readable names_from_1 new_scene = Running s'
      /\ m_objectMaterials s' = scene_materials
      /\ m_loadedTextures s' = 6%nat.
Proof.
  assert (Hshader : m_pShaderManager new_scene <> None) by discriminate.
  assert (Hmaterials : m_objectMaterials new_scene = []) by reflexivity.
  assert (Hcount : m_loadedTextures new_scene = 0%nat) by reflexivity.
  assert (Hloads : forallb (loads all_readable) scene_texture_files = true)
    by reflexivity.
  split; [exact Hloads |].
  destruct (PrepareScene_makes_scene_ready all_readable names_from_1 new_scene
              Hshader Hmaterials Hcount Hloads)
    as (s' & Hrun & Hmat & Hsix & _).
  exists s'. split; [exact Hrun |]. split; [exact Hmat | exact Hsix].
Defined.

(** Preparing a new scene whose images cannot be read. *)
Lemma new_scene_without_images_exits :
  forallb (loads none_readable) scene_texture_files = false
  /\ PrepareScene none_readable names_from_1 new_scene = Exited 1.
Proof.
  assert (Hshader : m_pShaderManager new_scene <> None) by discriminate.
  assert (Hroom : (m_loadedTextures new_scene + 6 <= TEXTURE_SLOTS)%nat)
    by (unfold TEXTURE_SLOTS; cbn; lia).
  assert (Hloads : forallb (loads none_readable) scene_texture_files = false)
    by reflexivity.
  split; [exact Hloads |].
  apply (PrepareScene_exits_on_bad_texture none_readable names_from_1
           new_scene Hshader Hroom Hloads).
Defined.

(** A scene manager built with a null shader manager. *)
Lemma no_shader_is_dereferenced :
  m_pShaderManager no_shader = None
  /\ PrepareScene all_readable names_from_1 no_shader = NullDereference
  /\ RenderScene blank 0 0 0 no_shader = NullDereference.
Proof.
  assert (Hnull : m_pShaderManager no_shader = None) by reflexivity.
  split; [exact Hnull |].
  apply (null_shader_manager_is_dereferenced blank all_readable names_from_1
           0 0 0 no_shader Hnull).
Defined.

(** A frame of the prepared scene. *)
Lemma frame_leaves_prepared_scene_alone :
  exists s' : Renderer,
    RenderScene blank 0 0 0 prepared = Running s'
    /\ cout s' = cout prepared
    /\ List.length (m_basicMeshes s') = 57%nat.
Proof.
  assert (Hready : ready prepared) by (split; reflexivity).
  assert (Hshader : m_pShaderManager prepared <> None) by discriminate.
  destruct (RenderScene_leaves_scene_alone blank 0 0 0 prepared
              Hready Hshader)
    as (s' & draws & Hrun & _ & _ & _ & _ & Hcout & _ & _ & _ & _ & _
        & Hmeshes & Hlength & _).
  exists s'. split; [exact Hrun |]. split; [exact Hcout |].
  rewrite Hmeshes, length_app, Hlength. reflexivity.
Defined.

Lemma frame_of_prepared_scene_uses_materials :
  exists (s' : Renderer) (draws : list MeshEvent),
    RenderScene blank 0 0 0 prepared = Running s'
    /\ m_basicMeshes s' = m_basicMeshes prepared ++ draws.
Proof.
  assert (Hready : ready prepared) by (split; reflexivity).
  assert (Hshader : m_pShaderManager prepared <> None) by discriminate.
  destruct (draws_use_defined_materials blank 0 0 0 prepared
              Hready Hshader) as (s' & draws & Hrun & Hmeshes & _).
  exists s', draws. split; [exact Hrun | exact Hmeshes].
Defined.

Lemma frame_of_prepared_scene_layers_desk :
  exists (s' : Renderer) (desk : Uniforms) (others : list MeshEvent),
    RenderScene blank 0 0 0 prepared = Running s'
    /\ m_basicMeshes s'
       = m_basicMeshes prepared
         ++ Drawn SceneManager.Plane (Some desk) :: others
    /\ value g_UseTexture2Name desk = Some (IntValue 1)
    /\ List.length others = 51%nat.
Proof.
  assert (Hready : ready prepared) by (split; reflexivity).
  assert (Hshader : m_pShaderManager prepared <> None) by discriminate.
  destruct (extra_layers_only_on_desk blank 0 0 0 prepared
              Hready Hshader)
    as (s' & desk & others & Hrun & Hmeshes & Hlayer & _ & Hlength & _).
  exists s', desk, others.
  split; [exact Hrun |]. split; [exact Hmeshes |].
  split; [exact Hlayer | exact Hlength].
Defined.

(** The light of the tower at clock readings 0, 1 and 2. *)
Lemma rgb_light_in_new_scene :
  exists (u' : Uniforms) (r g b : R),
    updateRGBlight 0 1 2 new_scene
    = Running (set_m_pShaderManager (Some u') new_scene)
    /\ value g_ColorValueName u' = Some (Vec4Value r g b 1)
    /\ (1 / 3 <= r <= 1)%R.
Proof.
  assert (Hshader : m_pShaderManager new_scene <> None) by discriminate.
  destruct (rgb_light_colours_bounded 0 1 2 new_scene Hshader)
    as (u' & r & g & b & lr & lg & lb & Hrun & Hcolour & (Hr & _) & _).
  exists u', r, g, b. split; [exact Hrun |]. split; [exact Hcolour | exact Hr].
Defined.

(** Preparing a new scene and rendering two frames. *)
Lemma new_scene_renders_two_frames :
  exists s1 s2 : Renderer,
    PrepareScene all_readable names_from_1 new_scene = Running s1
    /\ render_frames blank [(0, 0, 0); (1, 1, 1)]%R s1 = Running s2
    /\ cout s2 = cout s1.
Proof.
  assert (Hshader : m_pShaderManager new_scene <> None) by discriminate.
  assert (Hmaterials : m_objectMaterials new_scene = []) by reflexivity.
  assert (Hcount : m_loadedTextures new_scene = 0%nat) by reflexivity.
  assert (Hloads : forallb (loads all_readable) scene_texture_files = true)
    by reflexivity.
  destruct (prepared_scene_renders_every_frame blank all_readable names_from_1
              new_scene [(0, 0, 0); (1, 1, 1)]%R Hshader Hmaterials Hcount
              Hloads)
    as (s1 & s2 & Hrun1 & Hrun2 & Hcout & _).
  exists s1, s2. split; [exact Hrun1 |]. split; [exact Hrun2 | exact Hcout].
Defined.

(** A new scene manager with readable images: the five loads of the
    preparation, then the 52 draws of a frame. *)
Lemma new_scene_loads_and_draws :
  exists s1 s2 : Renderer,
    PrepareScene all_readable names_from_1 new_scene = Running s1
    /\ RenderScene blank 0 0 0 s1 = Running s2
    /\ m_basicMeshes s1
       = [Loaded SceneManager.Plane; Loaded SceneManager.Box;
          Loaded SceneManager.Sphere; Loaded SceneManager.Cylinder;
          Loaded SceneManager.Prism]
    /\ List.length (m_basicMeshes s2) = 57%nat.
Proof.
  assert (Hshader : m_pShaderManager new_scene <> None) by discriminate.
  assert (Hmaterials : m_objectMaterials new_scene = []) by reflexivity.
  assert (Hcount : m_loadedTextures new_scene = 0%nat) by reflexivity.
  assert (Hloads : forallb (loads all_readable) scene_texture_files = true)
    by reflexivity.
  destruct (PrepareScene_loads_RenderScene_draws blank all_readable
              names_from_1 0 0 0 new_scene new_scene)
    as (_ & _ & _ & Hruns).
  destruct (Hruns Hshader Hmaterials Hcount Hloads) as (s1 & s2 & Hrun1 & Hrun2).
  destruct (PrepareScene_loads_RenderScene_draws blank all_readable
              names_from_1 0 0 0 new_scene s1) as (Hloaded & _).
  destruct (PrepareScene_loads_RenderScene_draws blank all_readable
              names_from_1 0 0 0 s1 s2) as (_ & _ & Hdrawn & _).
  destruct (Hdrawn Hrun2) as (draws & Hmeshes & _ & Hlength & _).
  exists s1, s2. split; [exact Hrun1 |]. split; [exact Hrun2 |].
  split; [exact (Hloaded Hrun1) |].
  rewrite Hmeshes, (Hloaded Hrun1), length_app, Hlength. reflexivity.
Defined.

End SceneRuns.
